(** * Gesture pipeline of interactive-brain: recognizer and controller

    A shallow embedding of [src/js/tracking/GestureRecognizer.js] and of the
    gesture controller ([GestureControls]) together with the part of
    [BrainModel] the controller drives.

    Number model.  JavaScript numbers are modelled as exact rationals [Q]
    (no rounding, no NaN); [Date.now()] readings are integers [Z] in
    milliseconds and are explicit inputs of every step.  [Math.sqrt] and
    [Math.atan2] have no rational counterpart and are parameters of the
    recognizer section. *)

From Stdlib Require Import ZArith QArith Qround List Bool Lia Lqa.
From Stdlib Require Import Sorted Permutation.
From Stdlib Require String.
Import String.StringSyntax.
Delimit Scope string_scope with string.
Import ListNotations.

Open Scope Q_scope.

(** ** Numeric helpers *)

Module Num.

Definition ltb (a b : Q) : bool := negb (Qle_bool b a).
Definition leb (a b : Q) : bool := Qle_bool a b.
Definition gtb (a b : Q) : bool := ltb b a.
Definition geb (a b : Q) : bool := leb b a.

(** [Math.max] and [Math.min] on two arguments. *)
Definition max (a b : Q) : Q := if ltb a b then b else a.
Definition min (a b : Q) : Q := if ltb b a then b else a.

(** [Math.abs]. *)
Definition abs (a : Q) : Q := if ltb a 0 then - a else a.

End Num.

(** ** Geometry primitives (GestureRecognizer.js, lines 39-112) *)

(** [Math.PI]: the double nearest to pi, as an exact rational. *)
Definition Math_PI : Q := 884279719003555 # 281474976710656.

(** [clamp(value, min, max)]. *)
Definition clamp (value lo hi : Q) : Q := Num.max lo (Num.min hi value).

(** [wrapAngleDelta(delta)]: two independent tests, each run once. *)
Definition wrapAngleDelta (delta : Q) : Q :=
  let d := delta in
  let d := if Num.gtb d Math_PI then d - 2 * Math_PI else d in
  let d := if Num.ltb d (- Math_PI) then d + 2 * Math_PI else d in
  d.

(** Number of 2*pi corrections [wrapAngleDelta] applies to [delta]. *)
Definition wrapAngleDelta_steps (delta : Q) : nat :=
  let d := delta in
  let n1 := if Num.gtb d Math_PI then 1%nat else 0%nat in
  let d := if Num.gtb d Math_PI then d - 2 * Math_PI else d in
  let n2 := if Num.ltb d (- Math_PI) then 1%nat else 0%nat in
  (n1 + n2)%nat.

(** ** Data model *)

(** Gesture labels (the strings of [output.gesture]). *)
Inductive Gesture : Set :=
  | none | pinch | fist | point | open_palm | twist_pose
  | spread | squeeze | swipe_left | swipe_right.

Definition Gesture_eq_dec (a b : Gesture) : {a = b} + {a <> b}.
Proof. decide equality. Defined.

Definition Gesture_eqb (a b : Gesture) : bool :=
  if Gesture_eq_dec a b then true else false.

(** One landmark [{x, y, z}]. *)
Record Landmark : Set := mkLandmark { p_x : Q; p_y : Q; p_z : Q }.

(** One hand: the array of landmarks the tracker delivers (21 when well
    formed). *)
Definition Hand : Set := list Landmark.

(** The tracker result object: [results] may be null/undefined and so may
    [results.landmarks]. *)
Record Results : Set := mkResults { landmarks : option (list Hand) }.

(** Landmark indices. *)
Definition WRIST : nat := 0.
Definition THUMB_CMC : nat := 1.
Definition THUMB_TIP : nat := 4.
Definition INDEX_MCP : nat := 5.
Definition INDEX_PIP : nat := 6.
Definition INDEX_TIP : nat := 8.
Definition MIDDLE_MCP : nat := 9.
Definition MIDDLE_PIP : nat := 10.
Definition MIDDLE_TIP : nat := 12.
Definition RING_PIP : nat := 14.
Definition RING_TIP : nat := 16.
Definition PINKY_MCP : nat := 17.
Definition PINKY_PIP : nat := 18.
Definition PINKY_TIP : nat := 20.

(** Entry of the palm-position history, [{x, y, time}]. *)
Record PalmEntry : Set := mkPalmEntry { e_x : Q; e_y : Q; e_time : Z }.

(** [output.fingerCurls]. *)
Record FingerCurls : Set := mkFingerCurls {
  fc_index : Q; fc_middle : Q; fc_ring : Q; fc_pinky : Q;
  fc_thumbExtended : bool }.

(** The sample [recognize] returns. *)
Record GestureSample : Set := mkSample {
  gesture : Gesture;
  confidence : Q;
  handPosition : option (Q * Q);
  palmDelta : option (Q * Q);
  handAngle : Q;
  handAngleDelta : Q;
  rawHandAngleDelta : Q;
  twistPoseScore : Q;
  twistPoseActive : bool;
  handsDetected : nat;
  twoHandDistance : option Q;
  twoHandDelta : Q;
  fingerCurls : option FingerCurls }.

(** Instance fields of [GestureRecognizer].  The fields assigned only in the
    constructor ([_twoHandSmoothing], the two twist thresholds) are the
    constants below. *)
Record GestureRecognizer : Set := mkRecognizer {
  _gestureBuffer : list Gesture;
  _palmHistory : list PalmEntry;
  _lastSwipeTime : Z;
  _smoothTwoHandDist : option Q;
  _prevHandAngle : option Q;
  _angleDeltaHistory : list Q;
  _filteredHandAngleDelta : Q;
  _prevPinchAxisAngle : option Q;
  _filteredPinchAxisDelta : Q;
  _twistPoseActive : bool;
  _lastStableGesture : Gesture }.

Definition _twoHandSmoothing : Q := 0.3.
Definition _twistPoseEnterThreshold : Q := 0.58.
Definition _twistPoseExitThreshold : Q := 0.42.
Definition STABILITY_BUFFER_SIZE : nat := 5.

(** The constructor. *)
Definition new_GestureRecognizer : GestureRecognizer :=
  {| _gestureBuffer := [];
     _palmHistory := [];
     _lastSwipeTime := 0%Z;
     _smoothTwoHandDist := None;
     _prevHandAngle := None;
     _angleDeltaHistory := [];
     _filteredHandAngleDelta := 0;
     _prevPinchAxisAngle := None;
     _filteredPinchAxisDelta := 0;
     _twistPoseActive := false;
     _lastStableGesture := none |}.

(** The initial [output] object of [recognize] (lines 153-167). *)
Definition initial_output : GestureSample :=
  {| gesture := none; confidence := 0; handPosition := None;
     palmDelta := None; handAngle := 0; handAngleDelta := 0;
     rawHandAngleDelta := 0; twistPoseScore := 0; twistPoseActive := false;
     handsDetected := 0%nat; twoHandDistance := None; twoHandDelta := 0;
     fingerCurls := None |}.

Definition set_gesture (o : GestureSample) (g : Gesture) : GestureSample :=
  {| gesture := g; confidence := confidence o;
     handPosition := handPosition o; palmDelta := palmDelta o;
     handAngle := handAngle o; handAngleDelta := handAngleDelta o;
     rawHandAngleDelta := rawHandAngleDelta o;
     twistPoseScore := twistPoseScore o; twistPoseActive := twistPoseActive o;
     handsDetected := handsDetected o; twoHandDistance := twoHandDistance o;
     twoHandDelta := twoHandDelta o; fingerCurls := fingerCurls o |}.

Definition set_confidence (o : GestureSample) (c : Q) : GestureSample :=
  {| gesture := gesture o; confidence := c;
     handPosition := handPosition o; palmDelta := palmDelta o;
     handAngle := handAngle o; handAngleDelta := handAngleDelta o;
     rawHandAngleDelta := rawHandAngleDelta o;
     twistPoseScore := twistPoseScore o; twistPoseActive := twistPoseActive o;
     handsDetected := handsDetected o; twoHandDistance := twoHandDistance o;
     twoHandDelta := twoHandDelta o; fingerCurls := fingerCurls o |}.

(** ** The recognizer *)

(** Exceptions: reading a property of [undefined] (a landmark index past the
    end of a hand array) throws a TypeError, modelled as [None]. *)
Definition bind {A B : Type} (m : option A) (k : A -> option B) : option B :=
  match m with
  | Some a => k a
  | None => None
  end.

Notation "'let?' x ':=' m 'in' k" := (bind m (fun x => k))
  (at level 10, x name, m at level 100, k at level 200).

(** [lm[i]] followed by a property read. *)
Definition at_index (lm : Hand) (i : nat) : option Landmark := nth_error lm i.

(** [median]'s sort: [[...values].sort((a, b) => a - b)]. *)
Fixpoint insert_sorted (v : Q) (l : list Q) : list Q :=
  match l with
  | [] => [v]
  | h :: t => if Num.ltb h v then h :: insert_sorted v t else v :: l
  end.

Definition sort_ascending (l : list Q) : list Q :=
  fold_right insert_sorted [] l.

Definition median (values : list Q) : Q :=
  match values with
  | [] => 0
  | _ =>
      let sorted := sort_ascending values in
      let mid := Nat.div (length sorted) 2 in
      if Nat.eqb (Nat.modulo (length sorted) 2) 0
      then (nth (mid - 1) sorted 0 + nth mid sorted 0) / 2
      else nth mid sorted 0
  end.

Definition sum_list (l : list Q) : Q := fold_left Qplus l 0.

(** [values.length] as a number. *)
Definition length_Q {A : Type} (l : list A) : Q := inject_Z (Z.of_nat (length l)).

(** [array.push(v)] followed by [if (array.length > cap) array.shift()]. *)
Definition push_bounded {A : Type} (cap : nat) (l : list A) (v : A) : list A :=
  let l' := l ++ [v] in
  if Nat.ltb cap (length l') then tl l' else l'.

(** Hysteresis update of the twist-pose flag (lines 242-246). *)
Definition twist_hysteresis (active : bool) (score : Q) : bool :=
  if negb active && Num.geb score _twistPoseEnterThreshold then true
  else if active && Num.ltb score _twistPoseExitThreshold then false
  else active.

(** Single-hand features computed from the primary hand (lines 184-239 and
    the two [atan2] angles of lines 251-269); none of them reads the
    recognizer's state. *)
Record Features : Set := mkFeatures {
  f_palmX : Q; f_palmY : Q;
  f_indexCurl : Q; f_middleCurl : Q; f_ringCurl : Q; f_pinkyCurl : Q;
  f_thumbExt : bool;
  f_pinchDist : Q;
  f_twistPoseScore : Q;
  f_handAngle : Q;
  f_pinchAxisAngle : Q }.

Definition indexExtended (f : Features) : bool := Num.ltb (f_indexCurl f) 0.4.
Definition middleExtended (f : Features) : bool := Num.ltb (f_middleCurl f) 0.4.
Definition ringExtended (f : Features) : bool := Num.ltb (f_ringCurl f) 0.4.
Definition pinkyExtended (f : Features) : bool := Num.ltb (f_pinkyCurl f) 0.4.

(** [[...].filter(Boolean).length]. *)
Definition extendedCount (f : Features) : nat :=
  length (filter (fun b : bool => b)
    [f_thumbExt f; indexExtended f; middleExtended f; ringExtended f;
     pinkyExtended f]).

Definition nat_Q (n : nat) : Q := inject_Z (Z.of_nat n).

(** The priority chain of the single-hand classification (lines 339-367):
    the raw label and the confidence it assigns ([None]: confidence is left
    as it was). *)
Definition classify_single (f : Features) (twistActive : bool)
  : Gesture * option Q :=
  if Num.ltb (f_pinchDist f) 0.35 && Num.gtb (f_middleCurl f) 0.3 then
    (pinch, Some (Num.max 0 (1 - f_pinchDist f / 0.35)))
  else if Nat.leb (extendedCount f) 1 && negb (indexExtended f)
          && negb (middleExtended f) && negb (ringExtended f) then
    (fist, Some (1 - nat_Q (extendedCount f) / 5))
  else if twistActive then
    (twist_pose, Some (f_twistPoseScore f))
  else if indexExtended f && negb (middleExtended f)
          && negb (ringExtended f) && negb (pinkyExtended f) then
    (point, Some 0.9)
  else if Nat.leb 3 (extendedCount f) then
    (open_palm, Some (nat_Q (extendedCount f) / 5))
  else (none, None).

(** [_detectSwipe()] (lines 434-463): [now] is its own [Date.now()] reading.
    Returns the updated palm history, the updated cooldown timer and the
    swipe label, if any. *)
Definition _detectSwipe (palmHistory : list PalmEntry) (lastSwipeTime now : Z)
  : list PalmEntry * Z * option Gesture :=
  let quiet := (palmHistory, lastSwipeTime, None) in
  if (now - lastSwipeTime <? 700)%Z then quiet
  else if Nat.ltb (length palmHistory) 5 then quiet
  else
    let cutoff := (now - 250)%Z in
    let recent := filter (fun p => (cutoff <=? e_time p)%Z) palmHistory in
    if Nat.ltb (length recent) 4 then quiet
    else
      match recent with
      | [] => quiet
      | first :: _ =>
          let last := List.last recent first in
          let dx := e_x last - e_x first in
          let dy := e_y last - e_y first in
          let dt := (e_time last - e_time first)%Z in
          if (dt <? 50)%Z then quiet
          else
            let velocityX := dx / (inject_Z dt / 1000) in
            let absVelX := Num.abs velocityX in
            if Num.gtb absVelX 0.8
               && Num.ltb (Num.abs dy) (Num.abs dx * 0.5)
            then ([], now, Some (if Num.gtb dx 0 then swipe_right else swipe_left))
            else quiet
      end.

(** The [counts] object of [_stabilize]: string keys keep insertion order,
    which is the order [Object.entries] walks them in. *)
Fixpoint count_incr (g : Gesture) (counts : list (Gesture * nat))
  : list (Gesture * nat) :=
  match counts with
  | [] => [(g, 1%nat)]
  | (h, c) :: t =>
      if Gesture_eqb h g then (h, S c) :: t else (h, c) :: count_incr g t
  end.

Definition count_all (buffer : list Gesture) : list (Gesture * nat) :=
  fold_left (fun counts g => count_incr g counts) buffer [].

(** The loop over [Object.entries(counts)] keeping the first strict maximum. *)
Definition most_common (counts : list (Gesture * nat)) : Gesture * nat :=
  fold_left
    (fun (acc : Gesture * nat) (e : Gesture * nat) =>
       if Nat.ltb (snd acc) (snd e) then e else acc)
    counts (none, 0%nat).

(** [Math.ceil]. *)
Definition Math_ceil (q : Q) : Z := Qceiling q.

(** [Math.ceil(STABILITY_BUFFER_SIZE * 0.6)]. *)
Definition stability_threshold : nat :=
  Z.to_nat (Math_ceil (nat_Q STABILITY_BUFFER_SIZE * 0.6)).

Definition highPriority : list Gesture :=
  [pinch; fist; spread; squeeze; swipe_left; swipe_right].

(** [array.includes(g)]. *)
Definition includes (l : list Gesture) (g : Gesture) : bool :=
  existsb (Gesture_eqb g) l.

(** [_stabilize(rawGesture, output)] (lines 383-428), on the buffer, the
    last stable label and the twist flag it reads.  Returns the new buffer and
    the stable label, which is also the new [_lastStableGesture].  The
    fallback [this._lastStableGesture || 'none'] is the label itself: every
    label is a non-empty string. *)
Definition _stabilize (buffer : list Gesture) (lastStable : Gesture)
    (twistActive : bool) (rawGesture : Gesture) : list Gesture * Gesture :=
  let buffer' := push_bounded STABILITY_BUFFER_SIZE buffer rawGesture in
  let counts := count_all buffer' in
  let '(best, bestCount) := most_common counts in
  let g := if Nat.leb stability_threshold bestCount then best else lastStable in
  let g := if Gesture_eqb rawGesture swipe_left
              || Gesture_eqb rawGesture swipe_right
           then rawGesture else g in
  let g := if twistActive && negb (includes highPriority rawGesture)
           then twist_pose else g in
  (buffer', g).

Section Recognizer.

(** [Math.sqrt] and [Math.atan2]. *)
Variable Math_sqrt : Q -> Q.
Variable Math_atan2 : Q -> Q -> Q.

Definition sq (a : Q) : Q := a * a.

Definition dist (a b : Landmark) : Q :=
  Math_sqrt (sq (p_x a - p_x b) + sq (p_y a - p_y b) + sq (p_z a - p_z b)).

Definition dist2D (a b : Landmark) : Q :=
  Math_sqrt (sq (p_x a - p_x b) + sq (p_y a - p_y b)).

Definition stdDev (values : list Q) : Q :=
  if Nat.leb (length values) 1 then 0
  else
    let avg := sum_list values / length_Q values in
    let variance :=
      fold_left (fun acc v => acc + sq (v - avg)) values 0 / length_Q values in
    Math_sqrt variance.

(** [dist(lm[WRIST], lm[MIDDLE_MCP]) || 0.001]. *)
Definition getPalmSize (lm : Hand) : option Q :=
  let? w := at_index lm WRIST in
  let? m := at_index lm MIDDLE_MCP in
  let d := dist w m in
  Some (if Qeq_bool d 0 then 0.001 else d).

Definition getFingerCurl (lm : Hand) (pipIdx tipIdx : nat) : option Q :=
  let? tip := at_index lm tipIdx in
  let? w := at_index lm WRIST in
  let tipToWrist := dist tip w in
  let? pip := at_index lm pipIdx in
  let pipToWrist := dist pip w in
  if Num.ltb pipToWrist 0.001 then Some 0
  else
    let ratio := tipToWrist / pipToWrist in
    Some (Num.max 0 (Num.min 1 ((1.15 - ratio) / 0.5))).

Definition isThumbExtended (lm : Hand) : option bool :=
  let? w := at_index lm WRIST in
  let? i := at_index lm INDEX_MCP in
  let? p := at_index lm PINKY_MCP in
  let palmCenter :=
    {| p_x := (p_x w + p_x i + p_x p) / 3;
       p_y := (p_y w + p_y i + p_y p) / 3;
       p_z := (p_z w + p_z i + p_z p) / 3 |} in
  let? tip := at_index lm THUMB_TIP in
  let tipDist := dist tip palmCenter in
  let? cmc := at_index lm THUMB_CMC in
  let cmcDist := dist cmc palmCenter in
  Some (Num.gtb tipDist (cmcDist * 1.3)).

(** The twist-pose score (lines 229-239). *)
Definition twist_score (thumbExt : bool)
    (indexCurl middleCurl ringCurl pinkyCurl pinchDist : Q) : Q :=
  let curledOthersScore := (middleCurl + ringCurl + pinkyCurl) / 3 in
  let thumbReady := thumbExt || Num.ltb pinchDist 0.72 in
  let indexReady := Num.ltb indexCurl 0.4 || Num.ltb indexCurl 0.55 in
  clamp
    ((if thumbReady then 0.34 else 0) +
     (if indexReady then 0.34 else 0) +
     (curledOthersScore * 0.18) +
     (if Num.ltb pinchDist 0.55 then 0.18 else 0))
    0 1.

Definition features (lm : Hand) : option Features :=
  let? palmSize := getPalmSize lm in
  let? w := at_index lm WRIST in
  let? imcp := at_index lm INDEX_MCP in
  let? pmcp := at_index lm PINKY_MCP in
  let palmX := (p_x w + p_x imcp + p_x pmcp) / 3 in
  let palmY := (p_y w + p_y imcp + p_y pmcp) / 3 in
  let? indexCurl := getFingerCurl lm INDEX_PIP INDEX_TIP in
  let? middleCurl := getFingerCurl lm MIDDLE_PIP MIDDLE_TIP in
  let? ringCurl := getFingerCurl lm RING_PIP RING_TIP in
  let? pinkyCurl := getFingerCurl lm PINKY_PIP PINKY_TIP in
  let? thumbExt := isThumbExtended lm in
  let? ttip := at_index lm THUMB_TIP in
  let? itip := at_index lm INDEX_TIP in
  let pinchDist := dist ttip itip / palmSize in
  Some {| f_palmX := palmX; f_palmY := palmY;
          f_indexCurl := indexCurl; f_middleCurl := middleCurl;
          f_ringCurl := ringCurl; f_pinkyCurl := pinkyCurl;
          f_thumbExt := thumbExt;
          f_pinchDist := pinchDist;
          f_twistPoseScore :=
            twist_score thumbExt indexCurl middleCurl ringCurl pinkyCurl
              pinchDist;
          f_handAngle :=
            Math_atan2 (p_y pmcp - p_y imcp) (p_x pmcp - p_x imcp);
          f_pinchAxisAngle :=
            Math_atan2 (p_y itip - p_y ttip) (p_x itip - p_x ttip) |}.

(** Palm delta and palm history (lines 191-205). *)
Definition palm_step (hist : list PalmEntry) (palmX palmY : Q) (now : Z)
  : option (Q * Q) * list PalmEntry :=
  let delta :=
    match hist with
    | [] => None
    | h :: _ =>
        let prev := List.last hist h in
        let dt := (now - e_time prev)%Z in
        if (0 <? dt)%Z && (dt <? 200)%Z
        then Some (palmX - e_x prev, palmY - e_y prev)
        else None
    end in
  (delta,
   push_bounded 20 hist {| e_x := palmX; e_y := palmY; e_time := now |}).

(** State and outputs of the hand-roll filter (lines 257-308). *)
Record AngleFilter : Set := mkAngleFilter {
  a_prevHandAngle : option Q;
  a_prevPinchAxisAngle : option Q;
  a_angleDeltaHistory : list Q;
  a_filteredHandAngleDelta : Q;
  a_filteredPinchAxisDelta : Q;
  a_rawHandAngleDelta : Q;
  a_handAngleDelta : Q }.

Definition angle_step (self : GestureRecognizer) (f : Features) : AngleFilter :=
  let palmAxisDelta :=
    match _prevHandAngle self with
    | Some prev => wrapAngleDelta (f_handAngle f - prev)
    | None => 0
    end in
  let pinchAxisDelta :=
    match _prevPinchAxisAngle self with
    | Some prev => wrapAngleDelta (f_pinchAxisAngle f - prev)
    | None => 0
    end in
  match _prevHandAngle self with
  | Some _ =>
      let filteredPinch :=
        _filteredPinchAxisDelta self
        + (pinchAxisDelta - _filteredPinchAxisDelta self) * 0.35 in
      let pinchBlend := clamp ((0.75 - f_pinchDist f) / 0.35) 0 1 in
      let rawDelta0 :=
        palmAxisDelta * (1 - pinchBlend) + filteredPinch * pinchBlend in
      let history := push_bounded 7 (_angleDeltaHistory self) rawDelta0 in
      let med := median history in
      let sigma := stdDev history in
      let outlierLimit := Num.max 0.08 (sigma * 3.0) in
      let rawDelta :=
        if Num.gtb (Num.abs (rawDelta0 - med)) outlierLimit then med
        else rawDelta0 in
      let adaptiveDeadzone := 0.002 + Num.min 0.02 (sigma * 1.6) in
      let cleanedDelta :=
        if Num.gtb (Num.abs rawDelta) adaptiveDeadzone then rawDelta else 0 in
      let filtered :=
        _filteredHandAngleDelta self
        + (cleanedDelta - _filteredHandAngleDelta self) * 0.34 in
      {| a_prevHandAngle := Some (f_handAngle f);
         a_prevPinchAxisAngle := Some (f_pinchAxisAngle f);
         a_angleDeltaHistory := history;
         a_filteredHandAngleDelta := filtered;
         a_filteredPinchAxisDelta := filteredPinch;
         a_rawHandAngleDelta := rawDelta0;
         a_handAngleDelta := filtered |}
  | None =>
      {| a_prevHandAngle := Some (f_handAngle f);
         a_prevPinchAxisAngle := Some (f_pinchAxisAngle f);
         a_angleDeltaHistory := _angleDeltaHistory self;
         a_filteredHandAngleDelta := _filteredHandAngleDelta self;
         a_filteredPinchAxisDelta := _filteredPinchAxisDelta self;
         a_rawHandAngleDelta := 0;
         a_handAngleDelta := 0 |}
  end.

(** The two-hand distance filter (lines 311-335): new smoothing state,
    [output.twoHandDistance], [output.twoHandDelta], and whether the early
    return through spread/squeeze is taken. *)
Definition two_hand_step (smooth : option Q) (lm : Hand) (others : list Hand)
  : option (option Q * option Q * Q * bool) :=
  match others with
  | lm2 :: _ =>
      let? w1 := at_index lm WRIST in
      let? w2 := at_index lm2 WRIST in
      let rawDist := dist2D w1 w2 in
      let '(smooth', delta) :=
        match smooth with
        | None => (rawDist, 0)
        | Some prevSmooth =>
            let s := prevSmooth + (rawDist - prevSmooth) * _twoHandSmoothing in
            (s, s - prevSmooth)
        end in
      Some (Some smooth', Some smooth', delta,
            Num.gtb (Num.abs delta) 0.003)
  | [] => Some (None, None, 0, false)
  end.

(** The zero-hands reset (lines 169-180): [_lastSwipeTime] and
    [_lastStableGesture] are not assigned. *)
Definition hand_loss (self : GestureRecognizer) : GestureRecognizer :=
  {| _gestureBuffer := [];
     _palmHistory := [];
     _lastSwipeTime := _lastSwipeTime self;
     _smoothTwoHandDist := None;
     _prevHandAngle := None;
     _angleDeltaHistory := [];
     _filteredHandAngleDelta := 0;
     _prevPinchAxisAngle := None;
     _filteredPinchAxisDelta := 0;
     _twistPoseActive := false;
     _lastStableGesture := _lastStableGesture self |}.

(** The hands of a frame: empty when the guard
    [!results || !results.landmarks || results.landmarks.length === 0] holds. *)
Definition present_hands (results : option Results) : list Hand :=
  match results with
  | None => []
  | Some r =>
      match landmarks r with
      | None => []
      | Some hands => hands
      end
  end.

(** What [recognize] has computed when it calls [_stabilize]. *)
Record Classified : Set := mkClassified {
  c_self : GestureRecognizer;
  c_rawGesture : Gesture;
  c_output : GestureSample }.

(** [recognize] on a frame with hands, up to its call of [_stabilize]
    (lines 182-376).  [now] is the [Date.now()] of line 192, [now_swipe] the
    one read inside [_detectSwipe]. *)
Definition classify (self : GestureRecognizer) (lm : Hand) (others : list Hand)
    (now now_swipe : Z) : option Classified :=
  let? f := features lm in
  let '(pDelta, history) :=
    palm_step (_palmHistory self) (f_palmX f) (f_palmY f) now in
  let active := twist_hysteresis (_twistPoseActive self) (f_twistPoseScore f) in
  let a := angle_step self f in
  let? two := two_hand_step (_smoothTwoHandDist self) lm others in
  let '(smooth, twoDist, twoDelta, early) := two in
  let output :=
    {| gesture := none;
       confidence := 0;
       handPosition := Some (f_palmX f, f_palmY f);
       palmDelta := pDelta;
       handAngle := f_handAngle f;
       handAngleDelta := a_handAngleDelta a;
       rawHandAngleDelta := a_rawHandAngleDelta a;
       twistPoseScore := f_twistPoseScore f;
       twistPoseActive := active;
       handsDetected := S (length others);
       twoHandDistance := twoDist;
       twoHandDelta := twoDelta;
       fingerCurls :=
         Some {| fc_index := f_indexCurl f; fc_middle := f_middleCurl f;
                 fc_ring := f_ringCurl f; fc_pinky := f_pinkyCurl f;
                 fc_thumbExtended := f_thumbExt f |} |} in
  let state (hist : list PalmEntry) (lastSwipe : Z) :=
    {| _gestureBuffer := _gestureBuffer self;
       _palmHistory := hist;
       _lastSwipeTime := lastSwipe;
       _smoothTwoHandDist := smooth;
       _prevHandAngle := a_prevHandAngle a;
       _angleDeltaHistory := a_angleDeltaHistory a;
       _filteredHandAngleDelta := a_filteredHandAngleDelta a;
       _prevPinchAxisAngle := a_prevPinchAxisAngle a;
       _filteredPinchAxisDelta := a_filteredPinchAxisDelta a;
       _twistPoseActive := active;
       _lastStableGesture := _lastStableGesture self |} in
  if early then
    let rawGesture := if Num.gtb twoDelta 0 then spread else squeeze in
    Some {| c_self := state history (_lastSwipeTime self);
            c_rawGesture := rawGesture;
            c_output :=
              set_confidence output (Num.min 1 (Num.abs twoDelta * 15)) |}
  else
    let '(rawGesture, conf) := classify_single f active in
    let output :=
      match conf with
      | Some c => set_confidence output c
      | None => output
      end in
    let '(history', lastSwipe, swipe) :=
      _detectSwipe history (_lastSwipeTime self) now_swipe in
    match swipe with
    | Some s =>
        Some {| c_self := state history' lastSwipe;
                c_rawGesture := s;
                c_output := set_confidence output 0.85 |}
    | None =>
        Some {| c_self := state history' lastSwipe;
                c_rawGesture := rawGesture;
                c_output := output |}
    end.

(** The call [this._stabilize(rawGesture, output)]. *)
Definition stabilize_call (c : Classified) : GestureRecognizer * GestureSample :=
  let self := c_self c in
  let '(buffer, g) :=
    _stabilize (_gestureBuffer self) (_lastStableGesture self)
      (_twistPoseActive self) (c_rawGesture c) in
  ({| _gestureBuffer := buffer;
      _palmHistory := _palmHistory self;
      _lastSwipeTime := _lastSwipeTime self;
      _smoothTwoHandDist := _smoothTwoHandDist self;
      _prevHandAngle := _prevHandAngle self;
      _angleDeltaHistory := _angleDeltaHistory self;
      _filteredHandAngleDelta := _filteredHandAngleDelta self;
      _prevPinchAxisAngle := _prevPinchAxisAngle self;
      _filteredPinchAxisDelta := _filteredPinchAxisDelta self;
      _twistPoseActive := _twistPoseActive self;
      _lastStableGesture := g |},
   set_gesture (c_output c) g).

(** [recognize(results)]: [None] is a thrown TypeError. *)
Definition recognize (self : GestureRecognizer) (results : option Results)
    (now now_swipe : Z) : option (GestureRecognizer * GestureSample) :=
  match present_hands results with
  | [] => Some (hand_loss self, initial_output)
  | lm :: others =>
      let? c := classify self lm others now now_swipe in
      Some (stabilize_call c)
  end.

(** One frame as the recognizer sees it: the tracker result and the two
    clock readings. *)
Record Frame : Set := mkFrame {
  fr_results : option Results;
  fr_now : Z;
  fr_now_swipe : Z }.

(** A run of [recognize] over successive frames, collecting the samples. *)
Fixpoint run (self : GestureRecognizer) (frames : list Frame)
  : option (GestureRecognizer * list GestureSample) :=
  match frames with
  | [] => Some (self, [])
  | fr :: rest =>
      let? r := recognize self (fr_results fr) (fr_now fr) (fr_now_swipe fr) in
      let? r' := run (fst r) rest in
      Some (fst r', snd r :: snd r')
  end.

End Recognizer.

(** ** The target model (BrainModel) *)

(** The fields of [BrainModel] the controller reads or writes;
    [rotation_y] and [rotation_x] are [group.rotation.y] and [group.rotation.x].
    Meshes and materials are outside the model. *)
Record BrainModel : Set := mkBrain {
  regionList : list String.string;
  selectedIndex : Z;
  selectedId : option String.string;
  targetExplosion : Q;
  targetRotationY : Q;
  targetRotationX : Q;
  rotation_y : Q;
  rotation_x : Q;
  isIdle : bool }.

Definition with_targetExplosion (b : BrainModel) (v : Q) : BrainModel :=
  {| regionList := regionList b;
     selectedIndex := selectedIndex b;
     selectedId := selectedId b;
     targetExplosion := v;
     targetRotationY := targetRotationY b;
     targetRotationX := targetRotationX b;
     rotation_y := rotation_y b;
     rotation_x := rotation_x b;
     isIdle := isIdle b |}.

Definition with_targetRotationY (b : BrainModel) (v : Q) : BrainModel :=
  {| regionList := regionList b;
     selectedIndex := selectedIndex b;
     selectedId := selectedId b;
     targetExplosion := targetExplosion b;
     targetRotationY := v;
     targetRotationX := targetRotationX b;
     rotation_y := rotation_y b;
     rotation_x := rotation_x b;
     isIdle := isIdle b |}.

Definition with_targetRotationX (b : BrainModel) (v : Q) : BrainModel :=
  {| regionList := regionList b;
     selectedIndex := selectedIndex b;
     selectedId := selectedId b;
     targetExplosion := targetExplosion b;
     targetRotationY := targetRotationY b;
     targetRotationX := v;
     rotation_y := rotation_y b;
     rotation_x := rotation_x b;
     isIdle := isIdle b |}.

Definition with_rotation_y (b : BrainModel) (v : Q) : BrainModel :=
  {| regionList := regionList b;
     selectedIndex := selectedIndex b;
     selectedId := selectedId b;
     targetExplosion := targetExplosion b;
     targetRotationY := targetRotationY b;
     targetRotationX := targetRotationX b;
     rotation_y := v;
     rotation_x := rotation_x b;
     isIdle := isIdle b |}.

Definition with_rotation_x (b : BrainModel) (v : Q) : BrainModel :=
  {| regionList := regionList b;
     selectedIndex := selectedIndex b;
     selectedId := selectedId b;
     targetExplosion := targetExplosion b;
     targetRotationY := targetRotationY b;
     targetRotationX := targetRotationX b;
     rotation_y := rotation_y b;
     rotation_x := v;
     isIdle := isIdle b |}.

Definition with_isIdle (b : BrainModel) (v : bool) : BrainModel :=
  {| regionList := regionList b;
     selectedIndex := selectedIndex b;
     selectedId := selectedId b;
     targetExplosion := targetExplosion b;
     targetRotationY := targetRotationY b;
     targetRotationX := targetRotationX b;
     rotation_y := rotation_y b;
     rotation_x := rotation_x b;
     isIdle := v |}.

(** [regionList.indexOf(regionId)]. *)
Fixpoint indexOf (l : list String.string) (id : String.string) : Z :=
  match l with
  | [] => (-1)%Z
  | h :: t =>
      if String.eqb h id then 0%Z
      else let i := indexOf t id in if (i <? 0)%Z then (-1)%Z else (i + 1)%Z
  end.

(** [highlightRegion(regionId)]; region ids are non-empty strings, so the
    test [regionId ?] separates an id from null/undefined. *)
Definition highlightRegion (b : BrainModel) (regionId : option String.string)
  : BrainModel :=
  {| regionList := regionList b;
     selectedIndex :=
       match regionId with
       | Some id => indexOf (regionList b) id
       | None => (-1)%Z
       end;
     selectedId := regionId;
     targetExplosion := targetExplosion b;
     targetRotationY := targetRotationY b;
     targetRotationX := targetRotationX b;
     rotation_y := rotation_y b;
     rotation_x := rotation_x b;
     isIdle := isIdle b |}.

Definition setExplosion (b : BrainModel) (amount : Q) : BrainModel :=
  with_targetExplosion b (Num.max 0 (Num.min 1 amount)).

Definition addExplosion (b : BrainModel) (delta : Q) : BrainModel :=
  with_targetExplosion b (Num.max 0 (Num.min 1 (targetExplosion b + delta))).

(** [regionList[i]] for an integer index. *)
Definition region_at (b : BrainModel) (i : Z) : option String.string :=
  if (i <? 0)%Z then None else nth_error (regionList b) (Z.to_nat i).

(** [selectNext()] and [selectPrevious()]: the model and the returned id
    ([None] when the region list is empty and the method returns undefined). *)
Definition selectNext (b : BrainModel) : BrainModel * option String.string :=
  let len := Z.of_nat (List.length (regionList b)) in
  if (len =? 0)%Z then (b, None)
  else
    let i := Z.rem (selectedIndex b + 1) len in
    let b' := highlightRegion b (region_at b i) in
    (b', selectedId b').

Definition selectPrevious (b : BrainModel) : BrainModel * option String.string :=
  let len := Z.of_nat (List.length (regionList b)) in
  if (len =? 0)%Z then (b, None)
  else
    let i := Z.rem (selectedIndex b - 1 + len) len in
    let b' := highlightRegion b (region_at b i) in
    (b', selectedId b').

Definition reset (b : BrainModel) : BrainModel :=
  let b := highlightRegion b None in
  let b := with_targetExplosion b 0 in
  let b := with_targetRotationX b 0 in
  with_targetRotationY b 0.

Definition setIdle (b : BrainModel) (idle : bool) : BrainModel :=
  with_isIdle b idle.

(** ** The controller (GestureControls) *)

(** Instance fields of [GestureControls].  The three callbacks are modelled by
    whether they are set; the tuning fields assigned only in the constructor
    are the constants below. *)
Record GestureControls : Set := mkControls {
  brain : BrainModel;
  currentGesture : Gesture;
  gestureStartTime : Z;
  gestureDuration : Z;
  _rotationVelocityY : Q;
  _smoothTiltDY : Q;
  _pinchTriggered : bool;
  _lastPinchTime : Z;
  _fistTriggered : bool;
  _lastFistTime : Z;
  _smoothExpansionDelta : Q;
  _lastActiveTime : Z;
  onGestureChange : bool;
  onRegionSelect : bool;
  onExplosionChange : bool }.

Definition with_brain (c : GestureControls) (v : BrainModel) : GestureControls :=
  {| brain := v;
     currentGesture := currentGesture c;
     gestureStartTime := gestureStartTime c;
     gestureDuration := gestureDuration c;
     _rotationVelocityY := _rotationVelocityY c;
     _smoothTiltDY := _smoothTiltDY c;
     _pinchTriggered := _pinchTriggered c;
     _lastPinchTime := _lastPinchTime c;
     _fistTriggered := _fistTriggered c;
     _lastFistTime := _lastFistTime c;
     _smoothExpansionDelta := _smoothExpansionDelta c;
     _lastActiveTime := _lastActiveTime c;
     onGestureChange := onGestureChange c;
     onRegionSelect := onRegionSelect c;
     onExplosionChange := onExplosionChange c |}.

Definition with_rotationVelocityY (c : GestureControls) (v : Q) : GestureControls :=
  {| brain := brain c;
     currentGesture := currentGesture c;
     gestureStartTime := gestureStartTime c;
     gestureDuration := gestureDuration c;
     _rotationVelocityY := v;
     _smoothTiltDY := _smoothTiltDY c;
     _pinchTriggered := _pinchTriggered c;
     _lastPinchTime := _lastPinchTime c;
     _fistTriggered := _fistTriggered c;
     _lastFistTime := _lastFistTime c;
     _smoothExpansionDelta := _smoothExpansionDelta c;
     _lastActiveTime := _lastActiveTime c;
     onGestureChange := onGestureChange c;
     onRegionSelect := onRegionSelect c;
     onExplosionChange := onExplosionChange c |}.

Definition with_smoothTiltDY (c : GestureControls) (v : Q) : GestureControls :=
  {| brain := brain c;
     currentGesture := currentGesture c;
     gestureStartTime := gestureStartTime c;
     gestureDuration := gestureDuration c;
     _rotationVelocityY := _rotationVelocityY c;
     _smoothTiltDY := v;
     _pinchTriggered := _pinchTriggered c;
     _lastPinchTime := _lastPinchTime c;
     _fistTriggered := _fistTriggered c;
     _lastFistTime := _lastFistTime c;
     _smoothExpansionDelta := _smoothExpansionDelta c;
     _lastActiveTime := _lastActiveTime c;
     onGestureChange := onGestureChange c;
     onRegionSelect := onRegionSelect c;
     onExplosionChange := onExplosionChange c |}.

Definition with_pinchTriggered (c : GestureControls) (v : bool) : GestureControls :=
  {| brain := brain c;
     currentGesture := currentGesture c;
     gestureStartTime := gestureStartTime c;
     gestureDuration := gestureDuration c;
     _rotationVelocityY := _rotationVelocityY c;
     _smoothTiltDY := _smoothTiltDY c;
     _pinchTriggered := v;
     _lastPinchTime := _lastPinchTime c;
     _fistTriggered := _fistTriggered c;
     _lastFistTime := _lastFistTime c;
     _smoothExpansionDelta := _smoothExpansionDelta c;
     _lastActiveTime := _lastActiveTime c;
     onGestureChange := onGestureChange c;
     onRegionSelect := onRegionSelect c;
     onExplosionChange := onExplosionChange c |}.

Definition with_lastPinchTime (c : GestureControls) (v : Z) : GestureControls :=
  {| brain := brain c;
     currentGesture := currentGesture c;
     gestureStartTime := gestureStartTime c;
     gestureDuration := gestureDuration c;
     _rotationVelocityY := _rotationVelocityY c;
     _smoothTiltDY := _smoothTiltDY c;
     _pinchTriggered := _pinchTriggered c;
     _lastPinchTime := v;
     _fistTriggered := _fistTriggered c;
     _lastFistTime := _lastFistTime c;
     _smoothExpansionDelta := _smoothExpansionDelta c;
     _lastActiveTime := _lastActiveTime c;
     onGestureChange := onGestureChange c;
     onRegionSelect := onRegionSelect c;
     onExplosionChange := onExplosionChange c |}.

Definition with_fistTriggered (c : GestureControls) (v : bool) : GestureControls :=
  {| brain := brain c;
     currentGesture := currentGesture c;
     gestureStartTime := gestureStartTime c;
     gestureDuration := gestureDuration c;
     _rotationVelocityY := _rotationVelocityY c;
     _smoothTiltDY := _smoothTiltDY c;
     _pinchTriggered := _pinchTriggered c;
     _lastPinchTime := _lastPinchTime c;
     _fistTriggered := v;
     _lastFistTime := _lastFistTime c;
     _smoothExpansionDelta := _smoothExpansionDelta c;
     _lastActiveTime := _lastActiveTime c;
     onGestureChange := onGestureChange c;
     onRegionSelect := onRegionSelect c;
     onExplosionChange := onExplosionChange c |}.

Definition with_lastFistTime (c : GestureControls) (v : Z) : GestureControls :=
  {| brain := brain c;
     currentGesture := currentGesture c;
     gestureStartTime := gestureStartTime c;
     gestureDuration := gestureDuration c;
     _rotationVelocityY := _rotationVelocityY c;
     _smoothTiltDY := _smoothTiltDY c;
     _pinchTriggered := _pinchTriggered c;
     _lastPinchTime := _lastPinchTime c;
     _fistTriggered := _fistTriggered c;
     _lastFistTime := v;
     _smoothExpansionDelta := _smoothExpansionDelta c;
     _lastActiveTime := _lastActiveTime c;
     onGestureChange := onGestureChange c;
     onRegionSelect := onRegionSelect c;
     onExplosionChange := onExplosionChange c |}.

Definition with_smoothExpansionDelta (c : GestureControls) (v : Q) : GestureControls :=
  {| brain := brain c;
     currentGesture := currentGesture c;
     gestureStartTime := gestureStartTime c;
     gestureDuration := gestureDuration c;
     _rotationVelocityY := _rotationVelocityY c;
     _smoothTiltDY := _smoothTiltDY c;
     _pinchTriggered := _pinchTriggered c;
     _lastPinchTime := _lastPinchTime c;
     _fistTriggered := _fistTriggered c;
     _lastFistTime := _lastFistTime c;
     _smoothExpansionDelta := v;
     _lastActiveTime := _lastActiveTime c;
     onGestureChange := onGestureChange c;
     onRegionSelect := onRegionSelect c;
     onExplosionChange := onExplosionChange c |}.

Definition with_lastActiveTime (c : GestureControls) (v : Z) : GestureControls :=
  {| brain := brain c;
     currentGesture := currentGesture c;
     gestureStartTime := gestureStartTime c;
     gestureDuration := gestureDuration c;
     _rotationVelocityY := _rotationVelocityY c;
     _smoothTiltDY := _smoothTiltDY c;
     _pinchTriggered := _pinchTriggered c;
     _lastPinchTime := _lastPinchTime c;
     _fistTriggered := _fistTriggered c;
     _lastFistTime := _lastFistTime c;
     _smoothExpansionDelta := _smoothExpansionDelta c;
     _lastActiveTime := v;
     onGestureChange := onGestureChange c;
     onRegionSelect := onRegionSelect c;
     onExplosionChange := onExplosionChange c |}.

Definition _twistSensitivity : Q := 2.8.
Definition _twistDeadZone : Q := 0.0012.
Definition _twistAccel : Q := 0.45.
Definition _twistDecel : Q := 0.15.
Definition _tiltSensitivity : Q := 2.2.
Definition _tiltSmoothing : Q := 0.18.
Definition _maxTiltStep : Q := 0.01.
Definition _pinchCooldown : Z := 700.
Definition _fistHoldRequired : Z := 800.
Definition _expansionSmoothing : Q := 0.3.
Definition _idleTimeout : Z := 2500.

(** The constructor, for a given model and set of callbacks. *)
Definition new_GestureControls (brainModel : BrainModel)
    (cbGesture cbRegion cbExplosion : bool) : GestureControls :=
  {| brain := brainModel;
     currentGesture := none;
     gestureStartTime := 0%Z;
     gestureDuration := 0%Z;
     _rotationVelocityY := 0;
     _smoothTiltDY := 0;
     _pinchTriggered := false;
     _lastPinchTime := 0%Z;
     _fistTriggered := false;
     _lastFistTime := 0%Z;
     _smoothExpansionDelta := 0;
     _lastActiveTime := 0%Z;
     onGestureChange := cbGesture;
     onRegionSelect := cbRegion;
     onExplosionChange := cbExplosion |}.

(** What the controller does to its collaborators during one [update]: the
    methods it calls on the model and the callbacks it fires, in order. *)
Inductive Event : Set :=
  | Call_setIdle (idle : bool)
  | Call_reset
  | Call_selectNext
  | Call_selectPrevious
  | Call_setExplosion (amount : Q)
  | Call_addExplosion (delta : Q)
  | Notify_gestureChange (g : Gesture)
  | Notify_regionSelect (id : option String.string)
  | Notify_explosionChange (amount : Q).

(** [if (callback) callback(arg)]. *)
Definition notify (set : bool) (e : Event) : list Event :=
  if set then [e] else [].

Definition clear_triggers (c : GestureControls) : GestureControls :=
  with_fistTriggered (with_pinchTriggered c false) false.

(** The target velocity [targetVel] of [_handleRotation] (lines 149-153);
    [data.handAngleDelta || 0] is the number itself. *)
Definition twist_target (twistDelta : Q) : Q :=
  if Num.gtb (Num.abs twistDelta) _twistDeadZone
  then twistDelta * _twistSensitivity else 0.

(** [_handleRotation(data)]. *)
Definition _handleRotation (c : GestureControls) (data : GestureSample)
  : GestureControls * list Event :=
  let b := setIdle (brain c) false in
  let twistDelta := handAngleDelta data in
  let targetVel := twist_target twistDelta in
  let vel :=
    _rotationVelocityY c + (targetVel - _rotationVelocityY c) * _twistAccel in
  let b := with_rotation_y b (rotation_y b + vel) in
  let '(tilt, b) :=
    match palmDelta data with
    | Some (_, dy) =>
        let tilt := _smoothTiltDY c + (dy - _smoothTiltDY c) * _tiltSmoothing in
        if Num.gtb (Num.abs tilt) 0.0015 then
          let tiltStep :=
            Num.max (- _maxTiltStep)
              (Num.min _maxTiltStep (tilt * _tiltSensitivity)) in
          let b := with_rotation_x b (rotation_x b + tiltStep) in
          (tilt,
           with_rotation_x b (Num.max (- 0.8) (Num.min 0.8 (rotation_x b))))
        else (tilt, b)
    | None => (_smoothTiltDY c, b)
    end in
  let b := with_targetRotationY b (rotation_y b) in
  let b := with_targetRotationX b (rotation_x b) in
  let c := with_rotationVelocityY c vel in
  let c := with_smoothTiltDY c tilt in
  (clear_triggers (with_brain c b), [Call_setIdle false]).

(** [_decayRotation()]: writes fields of the model, calls none of its
    methods. *)
Definition _decayRotation (c : GestureControls) : GestureControls :=
  let vel := _rotationVelocityY c + (0 - _rotationVelocityY c) * _twistDecel in
  let tilt := _smoothTiltDY c + (0 - _smoothTiltDY c) * _twistDecel in
  let b := brain c in
  let '(vel, b) :=
    if Num.gtb (Num.abs vel) 0.00005
    then (vel, with_rotation_y b (rotation_y b + vel))
    else (0, b) in
  let b := with_targetRotationY b (rotation_y b) in
  let b := with_targetRotationX b (rotation_x b) in
  with_brain (with_smoothTiltDY (with_rotationVelocityY c vel) tilt) b.

(** The auto-expand tail shared by [_handlePinch] and [_handleSwipe]. *)
Definition auto_expand (c : GestureControls) : GestureControls * list Event :=
  if Num.ltb (targetExplosion (brain c)) 0.15 then
    (with_brain c (setExplosion (brain c) 0.2),
     Call_setExplosion 0.2 :: notify (onExplosionChange c) (Notify_explosionChange 0.2))
  else (c, []).

(** [_handlePinch(now)]. *)
Definition _handlePinch (c : GestureControls) (now : Z)
  : GestureControls * list Event :=
  if _pinchTriggered c then (c, [])
  else if (now - _lastPinchTime c <? _pinchCooldown)%Z then (c, [])
  else
    let c := with_pinchTriggered c true in
    let c := with_lastPinchTime c now in
    let c := with_brain c (setIdle (brain c) false) in
    let '(b, selected) := selectNext (brain c) in
    let c := with_brain c b in
    let '(c, ev) := auto_expand c in
    (c, Call_setIdle false :: Call_selectNext
        :: notify (onRegionSelect c) (Notify_regionSelect selected) ++ ev).

(** [_handleFist(now)]. *)
Definition _handleFist (c : GestureControls) (now : Z)
  : GestureControls * list Event :=
  if _fistTriggered c then (c, [])
  else if (gestureDuration c <? _fistHoldRequired)%Z then (c, [])
  else if (now - _lastFistTime c <? 1500)%Z then (c, [])
  else
    let c := with_fistTriggered c true in
    let c := with_lastFistTime c now in
    let c := with_brain c (setIdle (reset (brain c)) true) in
    (c, Call_reset :: Call_setIdle true
        :: notify (onRegionSelect c) (Notify_regionSelect None)
        ++ notify (onExplosionChange c) (Notify_explosionChange 0)
        ++ notify (onGestureChange c) (Notify_gestureChange none)).

(** [_handleExpansion(data, direction)]. *)
Definition _handleExpansion (c : GestureControls) (data : GestureSample)
    (direction : Q) : GestureControls * list Event :=
  let b := setIdle (brain c) false in
  let rawDelta := Num.abs (twoHandDelta data) * direction in
  let smooth :=
    _smoothExpansionDelta c
    + (rawDelta - _smoothExpansionDelta c) * _expansionSmoothing in
  let b := addExplosion b (smooth * 3.0) in
  let c := with_brain (with_smoothExpansionDelta c smooth) b in
  (clear_triggers c,
   Call_setIdle false :: Call_addExplosion (smooth * 3.0)
     :: notify (onExplosionChange c) (Notify_explosionChange (targetExplosion b))).

(** [_handleSwipe(direction)]: [right] selects the next region. *)
Definition _handleSwipe (c : GestureControls) (right : bool)
  : GestureControls * list Event :=
  let '(b, selected) :=
    if right then selectNext (brain c) else selectPrevious (brain c) in
  let c := with_brain c b in
  let '(c, ev) := auto_expand c in
  (c, (if right then Call_selectNext else Call_selectPrevious)
      :: notify (onRegionSelect c) (Notify_regionSelect selected) ++ ev).

(** The transition tracking at the head of [update] (lines 66-75). *)
Definition track_transition (c : GestureControls) (g : Gesture) (now : Z)
  : GestureControls :=
  let changed := negb (Gesture_eqb g (currentGesture c)) in
  let c :=
    if changed && Gesture_eqb (currentGesture c) pinch
    then with_pinchTriggered c false else c in
  let c :=
    if changed && Gesture_eqb (currentGesture c) fist
    then with_fistTriggered c false else c in
  let start := if changed then now else gestureStartTime c in
  {| brain := brain c;
     currentGesture := if changed then g else currentGesture c;
     gestureStartTime := start;
     gestureDuration := (now - start)%Z;
     _rotationVelocityY := _rotationVelocityY c;
     _smoothTiltDY := _smoothTiltDY c;
     _pinchTriggered := _pinchTriggered c;
     _lastPinchTime := _lastPinchTime c;
     _fistTriggered := _fistTriggered c;
     _lastFistTime := _lastFistTime c;
     _smoothExpansionDelta := _smoothExpansionDelta c;
     _lastActiveTime := _lastActiveTime c;
     onGestureChange := onGestureChange c;
     onRegionSelect := onRegionSelect c;
     onExplosionChange := onExplosionChange c |}.

(** [update(gestureData)], with its [Date.now()] reading [now]. *)
Definition update (c : GestureControls) (gestureData : GestureSample) (now : Z)
  : GestureControls * list Event :=
  let g := gesture gestureData in
  let c := track_transition c g now in
  let ev0 := notify (onGestureChange c) (Notify_gestureChange g) in
  if Nat.eqb (handsDetected gestureData) 0 then
    let c := _decayRotation c in
    let c := clear_triggers c in
    if (_idleTimeout <? now - _lastActiveTime c)%Z
    then (with_brain c (setIdle (brain c) true), ev0 ++ [Call_setIdle true])
    else (c, ev0)
  else
    let c := with_lastActiveTime c now in
    let '(c, ev) :=
      match g with
      | pinch =>
          let '(c, ev) := _handlePinch c now in
          if twistPoseActive gestureData then
            let '(c, ev') := _handleRotation c gestureData in (c, ev ++ ev')
          else (_decayRotation c, ev)
      | fist => _handleFist c now
      | spread => _handleExpansion c gestureData 1
      | squeeze => _handleExpansion c gestureData (-1)
      | swipe_left => _handleSwipe c false
      | swipe_right => _handleSwipe c true
      | twist_pose => _handleRotation c gestureData
      | _ => (_decayRotation c, [])
      end in
    (c, ev0 ++ ev).

(** A run of [update] over successive samples with their clock readings,
    collecting the events of every frame. *)
Fixpoint run_updates (c : GestureControls) (samples : list (GestureSample * Z))
  : GestureControls * list (list Event) :=
  match samples with
  | [] => (c, [])
  | (d, now) :: rest =>
      let '(c1, ev) := update c d now in
      let '(c2, evs) := run_updates c1 rest in
      (c2, ev :: evs)
  end.

(** Number of [setIdle(true)] calls and of [reset()] calls in one frame's
    events. *)
Definition is_setIdle_true (e : Event) : bool :=
  match e with Call_setIdle true => true | _ => false end.

Definition is_reset (e : Event) : bool :=
  match e with Call_reset => true | _ => false end.

Definition count_events (p : Event -> bool) (ev : list Event) : nat :=
  List.length (filter p ev).

(** [n] successive frames of [_handleRotation] on the same sample. *)
Fixpoint sustain (n : nat) (c : GestureControls) (data : GestureSample)
  : GestureControls :=
  match n with
  | O => c
  | S k => sustain k (fst (_handleRotation c data)) data
  end.

Fixpoint pow (q : Q) (n : nat) : Q :=
  match n with
  | O => 1
  | S k => q * pow q k
  end.

(** The frames of a run in which [reset()] was called, by clock reading. *)
Fixpoint reset_times (c : GestureControls) (samples : list (GestureSample * Z))
  : list Z :=
  match samples with
  | [] => []
  | (d, now) :: rest =>
      let '(c1, ev) := update c d now in
      if Nat.eqb (count_events is_reset ev) 0
      then reset_times c1 rest
      else now :: reset_times c1 rest
  end.

(** Successive times at least [gap] apart, the first at least [gap] after
    [last]. *)
Fixpoint spaced (gap last : Z) (times : list Z) : Prop :=
  match times with
  | [] => True
  | t :: rest => (gap <= t - last)%Z /\ spaced gap t rest
  end.

(** Successive calls of [_stabilize] on the raw labels [raws], each call
    starting from the buffer and the stable label the previous one left; the
    twist flag is the same on every frame.  Returns the stable labels. *)
Fixpoint stabilize_run (buffer : list Gesture) (lastStable : Gesture)
    (twistActive : bool) (raws : list Gesture) : list Gesture :=
  match raws with
  | [] => []
  | raw :: rest =>
      let '(buffer', g) := _stabilize buffer lastStable twistActive raw in
      g :: stabilize_run buffer' g twistActive rest
  end.

(** The count stored under key [h] in a [counts] object (0 when absent). *)
Fixpoint lookup (counts : list (Gesture * nat)) (h : Gesture) : nat :=
  match counts with
  | [] => 0%nat
  | (k, c) :: t => if Gesture_eqb k h then c else lookup t h
  end.

(** Occurrences of a label in the buffer. *)
Definition occurrences (buffer : list Gesture) (h : Gesture) : nat :=
  count_occ Gesture_eq_dec buffer h.

Definition is_swipe (g : Gesture) : bool :=
  Gesture_eqb g swipe_left || Gesture_eqb g swipe_right.

Section RecognizerRuns.

Variable Math_sqrt : Q -> Q.
Variable Math_atan2 : Q -> Q -> Q.

(** The raw label [recognize] hands to [_stabilize] on a frame ([None] when
    there is no hand or the frame throws). *)
Definition raw_label (self : GestureRecognizer) (fr : Frame) : option Gesture :=
  match present_hands (fr_results fr) with
  | [] => None
  | lm :: others =>
      option_map c_rawGesture
        (classify Math_sqrt Math_atan2 self lm others (fr_now fr)
           (fr_now_swipe fr))
  end.

(** Did [_detectSwipe] fire on this frame? *)
Definition swipe_fired (self : GestureRecognizer) (fr : Frame) : bool :=
  match raw_label self fr with
  | Some g => is_swipe g
  | None => false
  end.

(** The clock readings of the frames of a run on which a swipe fired. *)
Fixpoint swipe_times (self : GestureRecognizer) (frames : list Frame) : list Z :=
  match frames with
  | [] => []
  | fr :: rest =>
      match recognize Math_sqrt Math_atan2 self (fr_results fr) (fr_now fr)
              (fr_now_swipe fr) with
      | None => []
      | Some (self', _) =>
          (if swipe_fired self fr then [fr_now_swipe fr] else [])
          ++ swipe_times self' rest
      end
  end.

(** A run of frames with hands, none of which throws, fires a swipe or ends
    with the twist-pose flag active, and after each of which the
    stabilization buffer satisfies [P]. *)
Fixpoint steady_run (P : list Gesture -> Prop) (self : GestureRecognizer)
    (frames : list Frame) : Prop :=
  match frames with
  | [] => True
  | fr :: rest =>
      exists self' out raw,
        recognize Math_sqrt Math_atan2 self (fr_results fr) (fr_now fr)
          (fr_now_swipe fr) = Some (self', out) /\
        raw_label self fr = Some raw /\
        is_swipe raw = false /\
        _twistPoseActive self' = false /\
        P (_gestureBuffer self') /\
        steady_run P self' rest
  end.

End RecognizerRuns.

(** No label has reached the majority of 3 in the buffer. *)
Definition no_majority (buffer : list Gesture) : Prop :=
  forall h, (occurrences buffer h < 3)%nat.

(** A computable instance of the two math functions, for running the
    recognizer on concrete frames: the square root rounded down to four
    decimals, and the angle of a vector rounded to a quarter turn. *)
Definition sqrt_4dp (q : Q) : Q :=
  Z.sqrt (Qnum q * 100000000 / Zpos (Qden q)) # 10000.

Definition atan2_quadrant (y x : Q) : Q :=
  if Num.ltb 0 x then 0
  else if Num.ltb 0 y then Math_PI / 2
  else if Num.ltb y 0 then - (Math_PI / 2)
  else if Num.ltb x 0 then Math_PI else 0.

Definition lm3 (x y : Q) : Landmark := {| p_x := x; p_y := y; p_z := 0 |}.

(** An open hand, fingers up, and the same hand closed to a fist. *)
Definition open_hand : Hand :=
  [ lm3 0.50 0.90;
    lm3 0.42 0.85; lm3 0.36 0.80; lm3 0.31 0.75; lm3 0.26 0.70;
    lm3 0.45 0.70; lm3 0.45 0.60; lm3 0.45 0.55; lm3 0.45 0.50;
    lm3 0.50 0.70; lm3 0.50 0.60; lm3 0.50 0.52; lm3 0.50 0.45;
    lm3 0.55 0.70; lm3 0.55 0.60; lm3 0.55 0.55; lm3 0.55 0.50;
    lm3 0.60 0.72; lm3 0.60 0.65; lm3 0.60 0.60; lm3 0.60 0.55 ].

Definition closed_hand : Hand :=
  [ lm3 0.50 0.90;
    lm3 0.46 0.86; lm3 0.52 0.84; lm3 0.58 0.82; lm3 0.62 0.80;
    lm3 0.45 0.70; lm3 0.45 0.66; lm3 0.46 0.72; lm3 0.46 0.78;
    lm3 0.50 0.70; lm3 0.50 0.66; lm3 0.50 0.72; lm3 0.50 0.78;
    lm3 0.55 0.70; lm3 0.55 0.66; lm3 0.55 0.72; lm3 0.55 0.78;
    lm3 0.60 0.72; lm3 0.60 0.68; lm3 0.60 0.74; lm3 0.60 0.79 ].

(** The open hand with the index finger folded in. *)
Definition index_folded_hand : Hand :=
  [ lm3 0.50 0.90;
    lm3 0.42 0.85; lm3 0.36 0.80; lm3 0.31 0.75; lm3 0.26 0.70;
    lm3 0.45 0.70; lm3 0.45 0.66; lm3 0.46 0.72; lm3 0.46 0.78;
    lm3 0.50 0.70; lm3 0.50 0.60; lm3 0.50 0.52; lm3 0.50 0.45;
    lm3 0.55 0.70; lm3 0.55 0.60; lm3 0.55 0.55; lm3 0.55 0.50;
    lm3 0.60 0.72; lm3 0.60 0.65; lm3 0.60 0.60; lm3 0.60 0.55 ].

(** A hand moved sideways by [dx]. *)
Definition shift_hand (dx : Q) (hand : Hand) : Hand :=
  map (fun p => {| p_x := p_x p + dx; p_y := p_y p; p_z := p_z p |}) hand.

Definition frame_of (hands : list Hand) (now : Z) : Frame :=
  {| fr_results := Some {| landmarks := Some hands |};
     fr_now := now; fr_now_swipe := now |}.

(** A recognizer whose palm history holds four entries of a hand moving
    right at 1.5 units per second, the last at 1120 ms, and whose last swipe
    was at [lastSwipe]. *)
Definition mid_sweep (lastSwipe : Z) : GestureRecognizer :=
  {| _gestureBuffer := [open_palm; open_palm; open_palm; open_palm];
     _palmHistory :=
       [ mkPalmEntry 0.50 0.77 1000; mkPalmEntry 0.56 0.77 1040;
         mkPalmEntry 0.62 0.77 1080; mkPalmEntry 0.68 0.77 1120 ];
     _lastSwipeTime := lastSwipe;
     _smoothTwoHandDist := None;
     _prevHandAngle := None;
     _angleDeltaHistory := [];
     _filteredHandAngleDelta := 0;
     _prevPinchAxisAngle := None;
     _filteredPinchAxisDelta := 0;
     _twistPoseActive := false;
     _lastStableGesture := open_palm |}.

(** The state a run ends in (the initial one if a frame throws). *)
Definition run_state (Math_sqrt : Q -> Q) (Math_atan2 : Q -> Q -> Q)
    (self : GestureRecognizer) (frames : list Frame) : GestureRecognizer :=
  match run Math_sqrt Math_atan2 self frames with
  | Some (s, _) => s
  | None => self
  end.

(** The labels a run outputs. *)
Definition run_labels (Math_sqrt : Q -> Q) (Math_atan2 : Q -> Q -> Q)
    (self : GestureRecognizer) (frames : list Frame) : option (list Gesture) :=
  option_map (fun r => map gesture (snd r))
    (run Math_sqrt Math_atan2 self frames).

(** A hand sweeping to the right at 1.5 units per second, one frame every
    40 ms from [start]. *)
Fixpoint sweep (hand : Hand) (start : Z) (n : nat) : list Frame :=
  match n with
  | O => []
  | S k =>
      frame_of [hand] start :: sweep (shift_hand 0.06 hand) (start + 40) k
  end.

(** The buffers of the recognizer are within their capacities. *)
Definition bounded (self : GestureRecognizer) : Prop :=
  (length (_palmHistory self) <= 20)%nat /\
  (length (_angleDeltaHistory self) <= 7)%nat /\
  (length (_gestureBuffer self) <= 5)%nat.

Definition is_selectNext (e : Event) : bool :=
  match e with Call_selectNext => true | _ => false end.

(** Did this frame's pinch advance the selection? *)
Definition selected_by_pinch (d : GestureSample) (ev : list Event) : bool :=
  Gesture_eqb (gesture d) pinch
  && negb (Nat.eqb (handsDetected d) 0)
  && negb (Nat.eqb (count_events is_selectNext ev) 0).

(** The frames of a run on which a pinch advanced the selection, by clock
    reading. *)
Fixpoint pinch_times (c : GestureControls) (samples : list (GestureSample * Z))
  : list Z :=
  match samples with
  | [] => []
  | (d, now) :: rest =>
      let '(c1, ev) := update c d now in
      if selected_by_pinch d ev
      then now :: pinch_times c1 rest
      else pinch_times c1 rest
  end.

(** [BrainModel._updateExplosion(dt)] (part_002, lines 86-95), on the two
    fields it reads: returns the new [explosionAmount]. *)
Definition explosionSpeed : Q := 2.0.

Definition _updateExplosion (explosionAmount targetExplosion dt : Q) : Q :=
  let diff := targetExplosion - explosionAmount in
  if Num.ltb (Num.abs diff) 0.001 then targetExplosion
  else explosionAmount + diff * Num.min 1 (explosionSpeed * dt * 3).

(** The rotation part of [BrainModel.update(dt, elapsedTime)] (part_002,
    lines 236-246): idle spin or lerp towards the targets, then the clamp of
    the tilt. *)
Definition idleRotationSpeed : Q := 0.15.

Definition update_rotation (b : BrainModel) (dt : Q) : BrainModel :=
  let b :=
    if isIdle b then
      with_rotation_y b (rotation_y b + idleRotationSpeed * dt)
    else
      let b :=
        with_rotation_y b
          (rotation_y b
           + (targetRotationY b - rotation_y b) * Num.min 1 (5 * dt)) in
      with_rotation_x b
        (rotation_x b
         + (targetRotationX b - rotation_x b) * Num.min 1 (5 * dt)) in
  with_rotation_x b (Num.max (- 0.8) (Num.min 0.8 (rotation_x b))).

(** The ids of [BRAIN_REGIONS] (regionData.js), in order: the [regionList]
    that [_buildRegions] fills. *)
Definition BRAIN_REGION_IDS : list String.string :=
  [ "frontal_lobe"; "parietal_lobe"; "temporal_lobe_left";
    "temporal_lobe_right"; "occipital_lobe"; "cerebellum"; "brain_stem";
    "thalamus"; "hypothalamus"; "hippocampus"; "amygdala"; "corpus_callosum";
    "basal_ganglia" ]%string.

(** The model as its constructor leaves it (a new [THREE.Group] has rotation
    zero). *)
Definition new_BrainModel : BrainModel :=
  {| regionList := BRAIN_REGION_IDS;
     selectedIndex := (-1)%Z;
     selectedId := None;
     targetExplosion := 0;
     targetRotationY := 0;
     targetRotationX := 0;
     rotation_y := 0;
     rotation_x := 0;
     isIdle := true |}.

(** [n] successive calls of [selectNext]. *)
Fixpoint select_next_n (n : nat) (b : BrainModel) : BrainModel :=
  match n with
  | O => b
  | S k => select_next_n k (fst (selectNext b))
  end.

(** The clock readings of the frames whose emitted sample carries a swipe
    label, given the samples [outs] that a run over [frames] returned. *)
Definition emitted_swipe_times (frames : list Frame)
    (outs : list GestureSample) : list Z :=
  map snd
    (filter (fun p => is_swipe (gesture (fst p)))
       (combine outs (map fr_now_swipe frames))).

(** A hand sweeps to the right for five frames from 1000 ms, is out of the
    picture at 1200 ms, and is back, at rest, for three frames from
    1240 ms. *)
Definition swipe_then_hand_loss : list Frame :=
  sweep index_folded_hand 1000 5
  ++ [ frame_of [] 1200 ]
  ++ [ frame_of [index_folded_hand] 1240; frame_of [index_folded_hand] 1280;
       frame_of [index_folded_hand] 1320 ].

(** The samples of a run handed, frame by frame, to a new controller on a new
    model: the controller at the end and the number of [selectNext] calls of
    each frame. *)
Definition feed_controller (frames : list Frame) (outs : list GestureSample)
  : GestureControls * list nat :=
  let '(c, evs) :=
    run_updates (new_GestureControls new_BrainModel true true true)
      (combine outs (map fr_now frames)) in
  (c, map (count_events is_selectNext) evs).

(** [n] successive frames of [_decayRotation]. *)
Fixpoint coast (n : nat) (c : GestureControls) : GestureControls :=
  match n with
  | O => c
  | S k => coast k (_decayRotation c)
  end.

(** Controller states a session can be in: the constructor's, and those
    [update] produces. *)
Inductive reachable : GestureControls -> Prop :=
  | reach_new (b : BrainModel) (cbGesture cbRegion cbExplosion : bool) :
      reachable (new_GestureControls b cbGesture cbRegion cbExplosion)
  | reach_update (c : GestureControls) (d : GestureSample) (now : Z) :
      reachable c -> reachable (fst (update c d now)).

(** * Properties *)

(** ** Comparisons, [max], [min], [abs] *)

Module NumFacts.
Import Num.

Lemma ltb_true a b : ltb a b = true <-> a < b.
Proof.
  unfold ltb. rewrite negb_true_iff, <- not_true_iff_false, Qle_bool_iff.
  split; intro H; [apply Qnot_le_lt | apply Qlt_not_le]; exact H.
Qed.

Lemma ltb_false a b : ltb a b = false <-> b <= a.
Proof.
  unfold ltb. rewrite negb_false_iff. apply Qle_bool_iff.
Qed.

Lemma leb_true a b : leb a b = true <-> a <= b.
Proof. apply Qle_bool_iff. Qed.

Lemma leb_false a b : leb a b = false <-> b < a.
Proof.
  unfold leb. rewrite <- not_true_iff_false, Qle_bool_iff.
  split; intro H; [apply Qnot_le_lt | apply Qlt_not_le]; exact H.
Qed.

Lemma max_cases a b : (a < b /\ max a b = b) \/ (b <= a /\ max a b = a).
Proof.
  unfold max. destruct (ltb a b) eqn:E.
  - left. split; [apply ltb_true, E | reflexivity].
  - right. split; [apply ltb_false, E | reflexivity].
Qed.

Lemma min_cases a b : (b < a /\ min a b = b) \/ (a <= b /\ min a b = a).
Proof.
  unfold min. destruct (ltb b a) eqn:E.
  - left. split; [apply ltb_true, E | reflexivity].
  - right. split; [apply ltb_false, E | reflexivity].
Qed.

Lemma abs_cases a : (a < 0 /\ abs a = - a) \/ (0 <= a /\ abs a = a).
Proof.
  unfold abs. destruct (ltb a 0) eqn:E.
  - left. split; [apply ltb_true, E | reflexivity].
  - right. split; [apply ltb_false, E | reflexivity].
Qed.

End NumFacts.

(** Case analysis on every comparison, [max], [min] and [abs] in sight. *)
Ltac num_cases :=
  repeat match goal with
  | |- context [Num.max ?a ?b] =>
      let H := fresh "Hmax" in
      destruct (NumFacts.max_cases a b) as [[? H] | [? H]]; rewrite H in *
  | |- context [Num.min ?a ?b] =>
      let H := fresh "Hmin" in
      destruct (NumFacts.min_cases a b) as [[? H] | [? H]]; rewrite H in *
  | |- context [Num.abs ?a] =>
      let H := fresh "Habs" in
      destruct (NumFacts.abs_cases a) as [[? H] | [? H]]; rewrite H in *
  end.

Ltac cmp_hyps :=
  repeat match goal with
  | H : Num.ltb _ _ = true |- _ => apply NumFacts.ltb_true in H
  | H : Num.ltb _ _ = false |- _ => apply NumFacts.ltb_false in H
  | H : Num.leb _ _ = true |- _ => apply NumFacts.leb_true in H
  | H : Num.leb _ _ = false |- _ => apply NumFacts.leb_false in H
  | H : Num.gtb _ _ = true |- _ => apply NumFacts.ltb_true in H
  | H : Num.gtb _ _ = false |- _ => apply NumFacts.ltb_false in H
  | H : Num.geb _ _ = true |- _ => apply NumFacts.leb_true in H
  | H : Num.geb _ _ = false |- _ => apply NumFacts.leb_false in H
  end.

(** ** wrapAngleDelta *)

Lemma Math_PI_bounds : 3.14 < Math_PI /\ Math_PI < 3.15.
Proof. split; reflexivity. Qed.

(** The result of [wrapAngleDelta] lies in the half-open interval
    (-pi, pi]. *)
Definition in_half_open (d : Q) : Prop := - Math_PI < d /\ d <= Math_PI.

(** C2, as stated, fails: a single correction does not bring 10 rad into
    range, and -pi itself is returned unchanged although it is outside the
    half-open interval. *)
Lemma wrapAngleDelta_half_open_fails :
  ~ in_half_open (wrapAngleDelta 10) /\
  ~ in_half_open (wrapAngleDelta (- Math_PI)).
Proof.
  split; intros [H1 H2]; vm_compute in H1, H2; try discriminate.
  apply H2. reflexivity.
Qed.

Lemma wrapAngleDelta_cases (delta : Q) :
  (Math_PI < delta /\ wrapAngleDelta delta = delta - 2 * Math_PI
     /\ wrapAngleDelta_steps delta = 1%nat) \/
  (delta < - Math_PI /\ wrapAngleDelta delta = delta + 2 * Math_PI
     /\ wrapAngleDelta_steps delta = 1%nat) \/
  (- Math_PI <= delta <= Math_PI /\ wrapAngleDelta delta = delta
     /\ wrapAngleDelta_steps delta = 0%nat).
Proof.
  pose proof Math_PI_bounds as [Hlo Hhi].
  unfold wrapAngleDelta, wrapAngleDelta_steps, Num.gtb.
  destruct (Num.ltb Math_PI delta) eqn:E1.
  - left. cmp_hyps.
    destruct (Num.ltb (delta - 2 * Math_PI) (- Math_PI)) eqn:E2; cmp_hyps.
    + exfalso. lra.
    + auto.
  - right. cmp_hyps.
    destruct (Num.ltb delta (- Math_PI)) eqn:E2; cmp_hyps.
    + left. auto.
    + right. auto.
Qed.

(** C2 (amended).  [wrapAngleDelta] applies at most one correction of 2*pi
    to any input: it returns delta - 2*pi when delta is above pi,
    delta + 2*pi when delta is below -pi, and delta itself otherwise (-pi
    included).  Hence for an input in [-3*pi, 3*pi] (in particular the
    difference of two [atan2] angles) the result lies in the closed interval
    [-pi, pi]; and when the previous and the current angle straddle the seam,
    each within 0.05 rad of it, the wrapped difference is below 0.1 rad in
    magnitude. *)
Theorem wrapAngleDelta_correct (prev cur : Q) :
  ((Math_PI < cur - prev /\
    wrapAngleDelta (cur - prev) = cur - prev - 2 * Math_PI /\
    wrapAngleDelta_steps (cur - prev) = 1%nat) \/
   (cur - prev < - Math_PI /\
    wrapAngleDelta (cur - prev) = cur - prev + 2 * Math_PI /\
    wrapAngleDelta_steps (cur - prev) = 1%nat) \/
   (- Math_PI <= cur - prev <= Math_PI /\
    wrapAngleDelta (cur - prev) = cur - prev /\
    wrapAngleDelta_steps (cur - prev) = 0%nat)) /\
  (wrapAngleDelta_steps (cur - prev) <= 1)%nat /\
  (- (3 * Math_PI) <= cur - prev <= 3 * Math_PI ->
   - Math_PI <= wrapAngleDelta (cur - prev) <= Math_PI) /\
  (Math_PI - 0.05 < prev <= Math_PI -> - Math_PI <= cur < - Math_PI + 0.05 ->
   Num.abs (wrapAngleDelta (cur - prev)) < 0.1) /\
  (- Math_PI <= prev < - Math_PI + 0.05 -> Math_PI - 0.05 < cur <= Math_PI ->
   Num.abs (wrapAngleDelta (cur - prev)) < 0.1).
Proof.
  pose proof Math_PI_bounds as [Hlo Hhi].
  split; [apply wrapAngleDelta_cases|].
  destruct (wrapAngleDelta_cases (cur - prev))
    as [(H & -> & ->) | [(H & -> & ->) | (H & -> & ->)]].
  - split; [lia|]. repeat split; intros; num_cases; lra.
  - split; [lia|]. repeat split; intros; num_cases; lra.
  - split; [lia|]. repeat split; intros; num_cases; lra.
Qed.

(** The seam example of the specification: 3.13 rad followed by -3.13 rad
    is wrapped to -6.26 + 2*pi, about 0.023 rad. *)
Lemma wrapAngleDelta_correct_witness :
  wrapAngleDelta (- 3.13 - 3.13) = - 3.13 - 3.13 + 2 * Math_PI /\
  Num.abs (wrapAngleDelta (- 3.13 - 3.13)) < 0.1.
Proof.
  split.
  - destruct (proj1 (wrapAngleDelta_correct 3.13 (- 3.13)))
      as [(H & _) | [(_ & E & _) | ((H & _) & _)]].
    + vm_compute in H. discriminate H.
    + exact E.
    + exfalso. apply H. reflexivity.
  - apply (proj1 (proj2 (proj2 (proj2 (wrapAngleDelta_correct 3.13 (- 3.13))))));
      split; vm_compute; first [reflexivity | discriminate].
Defined.

(** ** The controller: rotation velocity *)

Lemma handleRotation_velocity (c : GestureControls) (data : GestureSample) :
  _rotationVelocityY (fst (_handleRotation c data))
  = _rotationVelocityY c
    + (twist_target (handAngleDelta data) - _rotationVelocityY c) * _twistAccel.
Proof.
  unfold _handleRotation.
  destruct (palmDelta data) as [[dx dy]|]; [|reflexivity].
  destruct (Num.gtb _ 0.0015); reflexivity.
Qed.

Lemma twist_target_cases (delta : Q) :
  (_twistDeadZone < Num.abs delta /\ twist_target delta = delta * _twistSensitivity)
  \/ (Num.abs delta <= _twistDeadZone /\ twist_target delta = 0).
Proof.
  unfold twist_target.
  destruct (Num.gtb (Num.abs delta) _twistDeadZone) eqn:E; cmp_hyps; auto.
Qed.

Lemma sustain_velocity (n : nat) (data : GestureSample) :
  _twistDeadZone < Num.abs (handAngleDelta data) ->
  forall c : GestureControls,
  _rotationVelocityY (sustain n c data) - 2.8 * handAngleDelta data
  == (_rotationVelocityY c - 2.8 * handAngleDelta data) * pow 0.55 n.
Proof.
  intros Hdz. induction n as [|n IH]; intros c; simpl.
  - ring.
  - rewrite IH, handleRotation_velocity.
    destruct (twist_target_cases (handAngleDelta data)) as [[_ ->] | [H _]];
      [|lra].
    unfold _twistSensitivity, _twistAccel. ring.
Qed.

(** C7, as stated, fails below the dead zone: from rest, a twist of 0.001 rad
    per frame gives target velocity 0, so the velocity stays at 0 instead of
    moving towards 0.001 * 2.8. *)
Lemma twist_target_dead_zone_fails :
  let c := new_GestureControls (mkBrain [] (-1) None 0 0 0 0 0 true)
             false false false in
  let data := mkSample twist_pose 1 None None 0 (0.001) 0 1 true 1 None 0 None in
  ~ (_rotationVelocityY (fst (_handleRotation c data))
     == _rotationVelocityY c
        + (handAngleDelta data * _twistSensitivity - _rotationVelocityY c)
          * _twistAccel).
Proof. vm_compute. discriminate. Qed.

(** C7 (amended).  In [_handleRotation] the Y velocity moves towards the
    target velocity by the factor 0.45 and is never clamped; the target is
    handAngleDelta * 2.8 when |handAngleDelta| exceeds the dead zone 0.0012
    and 0 otherwise.  For a sustained input above the dead zone the distance
    to 2.8 * handAngleDelta shrinks by 0.55 every frame, 2.8 * handAngleDelta
    is the only velocity a frame leaves unchanged, doubling the input doubles
    it, and it exceeds every bound for a large enough input. *)
Theorem twist_velocity_proportional (c : GestureControls)
    (data : GestureSample) (n : nat) (bound : Q) :
  let delta := handAngleDelta data in
  let v := _rotationVelocityY c in
  let v' := _rotationVelocityY (fst (_handleRotation c data)) in
  v' == v + (twist_target delta - v) * 0.45 /\
  (Num.abs delta <= _twistDeadZone -> twist_target delta == 0) /\
  (_twistDeadZone < Num.abs delta ->
     twist_target delta == delta * 2.8 /\
     twist_target (2 * delta) == 2 * twist_target delta /\
     _rotationVelocityY (sustain n c data) - 2.8 * delta
       == (v - 2.8 * delta) * pow 0.55 n /\
     (v' == v <-> v == 2.8 * delta)) /\
  (exists big : Q, _twistDeadZone < Num.abs big /\ bound < twist_target big).
Proof.
  cbv zeta. rewrite handleRotation_velocity.
  split; [reflexivity|]. split; [|split].
  - intros H. destruct (twist_target_cases (handAngleDelta data))
      as [[H' _] | [_ ->]]; [lra | reflexivity].
  - intros H.
    destruct (twist_target_cases (handAngleDelta data)) as [[_ E] | [H' _]];
      [|lra].
    destruct (twist_target_cases (2 * handAngleDelta data))
      as [[_ E2] | [H2 _]].
    + rewrite E, E2. unfold _twistSensitivity, _twistAccel.
      repeat split; try lra; try ring.
      apply sustain_velocity, H.
    + exfalso. revert H H2. unfold _twistDeadZone. num_cases; lra.
  - exists (Num.max 1 bound).
    destruct (twist_target_cases (Num.max 1 bound)) as [[H E] | [H _]].
    + split; [exact H|]. rewrite E. unfold _twistSensitivity.
      num_cases; lra.
    + exfalso. revert H. unfold _twistDeadZone. num_cases; lra.
Qed.

Lemma twist_velocity_proportional_witness :
  let data := mkSample twist_pose 1 None None 0 (0.05) 0 1 true 1 None 0 None in
  twist_target (handAngleDelta data) == 0.05 * 2.8.
Proof.
  intros data.
  apply (proj1 (proj2 (proj2 (twist_velocity_proportional
    (new_GestureControls (mkBrain [] (-1) None 0 0 0 0 0 true) false false false)
    data 3 100))));
  vm_compute; reflexivity.
Defined.

(** ** The controller: idle fallback *)

Lemma decayRotation_fields (c : GestureControls) :
  let c' := _decayRotation c in
  _lastActiveTime c' = _lastActiveTime c /\
  _fistTriggered c' = _fistTriggered c /\
  _lastFistTime c' = _lastFistTime c /\
  currentGesture c' = currentGesture c /\
  gestureStartTime c' = gestureStartTime c /\
  gestureDuration c' = gestureDuration c /\
  onGestureChange c' = onGestureChange c /\
  isIdle (brain c') = isIdle (brain c).
Proof.
  unfold _decayRotation.
  destruct (Num.gtb _ 0.00005); cbn; repeat split; reflexivity.
Qed.

Lemma track_transition_fields (c : GestureControls) (g : Gesture) (now : Z) :
  let c' := track_transition c g now in
  _lastActiveTime c' = _lastActiveTime c /\
  _lastFistTime c' = _lastFistTime c /\
  onGestureChange c' = onGestureChange c /\
  brain c' = brain c /\
  currentGesture c' = g.
Proof.
  unfold track_transition, Gesture_eqb.
  destruct (Gesture_eq_dec g (currentGesture c)) as [E|E]; cbn.
  - repeat split; congruence.
  - repeat match goal with
    | |- context [Gesture_eq_dec ?a ?b] => destruct (Gesture_eq_dec a b); cbn
    end; repeat split; reflexivity.
Qed.

Lemma count_events_notify (p : Event -> bool) (set : bool) (e : Event) :
  p e = false -> count_events p (notify set e) = 0%nat.
Proof. intros H. destruct set; cbn; [rewrite H|]; reflexivity. Qed.

Lemma count_events_app (p : Event -> bool) (l1 l2 : list Event) :
  count_events p (l1 ++ l2) = (count_events p l1 + count_events p l2)%nat.
Proof. unfold count_events. rewrite filter_app, length_app. reflexivity. Qed.

(** A frame without hands requests idle mode exactly when the idle timeout
    has elapsed, and leaves the last-active time alone. *)
Lemma update_no_hands (c : GestureControls) (d : GestureSample) (now : Z) :
  handsDetected d = 0%nat ->
  _lastActiveTime (fst (update c d now)) = _lastActiveTime c /\
  count_events is_setIdle_true (snd (update c d now))
  = (if (_idleTimeout <? now - _lastActiveTime c)%Z then 1%nat else 0%nat) /\
  ((_idleTimeout < now - _lastActiveTime c)%Z ->
   isIdle (brain (fst (update c d now))) = true).
Proof.
  intros H0.
  pose proof (track_transition_fields c (gesture d) now) as (T1 & _).
  pose proof (decayRotation_fields (track_transition c (gesture d) now))
    as (D1 & _).
  cbv zeta in T1, D1.
  assert (E1 : _lastActiveTime
                 (clear_triggers
                    (_decayRotation (track_transition c (gesture d) now)))
               = _lastActiveTime c).
  { unfold clear_triggers, with_fistTriggered, with_pinchTriggered.
    cbn [_lastActiveTime]. congruence. }
  unfold update. rewrite H0. cbn [Nat.eqb]. cbv zeta.
  revert E1.
  generalize (clear_triggers
                (_decayRotation (track_transition c (gesture d) now))).
  intros c1 E1. rewrite E1.
  destruct (_idleTimeout <? now - _lastActiveTime c)%Z eqn:E; cbn [fst snd].
  - split; [|split].
    + unfold with_brain. cbn [_lastActiveTime]. exact E1.
    + rewrite count_events_app, count_events_notify by reflexivity.
      reflexivity.
    + intros _. unfold with_brain, setIdle, with_isIdle. reflexivity.
  - split; [|split].
    + exact E1.
    + apply count_events_notify. reflexivity.
    + intros H. apply Z.ltb_ge in E. lia.
Qed.

(** C1, as stated, fails: after an active frame at 1000 ms, frames without
    hands at 3600 ms and at 3650 ms, both past the timeout and in the same
    episode, each request idle mode. *)
Lemma idle_requested_every_frame :
  let c := new_GestureControls (mkBrain [] (-1) None 0 0 0 0 0 false)
             false false false in
  let hand := mkSample none 0 None None 0 0 0 0 false 1 None 0 None in
  let evs := snd (run_updates c
      [(hand, 1000%Z); (initial_output, 3400%Z); (initial_output, 3600%Z);
       (initial_output, 3650%Z)]) in
  map (count_events is_setIdle_true) evs = [0; 0; 1; 1]%nat /\
  count_events is_setIdle_true (concat evs) <> 1%nat.
Proof. vm_compute. split; [reflexivity | discriminate]. Qed.

(** C1 (amended).  Over a run of frames with handsDetected = 0 the
    controller calls setIdle(true) once on every frame whose clock reading is
    more than 2500 ms after the last active frame, and on no other frame; the
    last-active time is not moved by such frames, and after each request the
    model is in idle mode. *)
Theorem idle_requested_on_each_late_frame (c : GestureControls)
    (samples : list (GestureSample * Z)) :
  Forall (fun s => handsDetected (fst s) = 0%nat) samples ->
  map (count_events is_setIdle_true) (snd (run_updates c samples))
  = map (fun s =>
           if (_idleTimeout <? snd s - _lastActiveTime c)%Z
           then 1%nat else 0%nat) samples /\
  _lastActiveTime (fst (run_updates c samples)) = _lastActiveTime c /\
  (forall d now, last samples (d, now) = (d, now) -> samples <> [] ->
     (_idleTimeout < now - _lastActiveTime c)%Z ->
     isIdle (brain (fst (run_updates c samples))) = true).
Proof.
  intros H. revert c. induction H as [|[d now] rest Hd Hrest IH]; intros c.
  - cbn. repeat split; auto; intros; congruence.
  - cbn [run_updates]. cbn [fst] in Hd.
    destruct (update_no_hands c d now Hd) as (U1 & U2 & U3).
    destruct (update c d now) as [c1 ev] eqn:Eu. cbn [fst snd] in *.
    destruct (IH c1) as (I1 & I2 & I3).
    destruct (run_updates c1 rest) as [c2 evs] eqn:Er. cbn [fst snd] in *.
    rewrite U1 in *.
    split; [|split].
    + cbn [map fst snd]. rewrite U2, I1. reflexivity.
    + exact I2.
    + intros d' now' Hl _ Hlate. destruct rest as [|s rest'].
      * cbn in Hl. injection Hl as <- <-. cbn in Er. injection Er as <- <-.
        apply U3, Hlate.
      * apply (I3 d' now'); [exact Hl | discriminate | exact Hlate].
Qed.

Lemma idle_requested_on_each_late_frame_witness :
  let c := new_GestureControls (mkBrain [] (-1) None 0 0 0 0 0 false)
             false false false in
  map (count_events is_setIdle_true)
    (snd (run_updates c [(initial_output, 2400%Z); (initial_output, 2600%Z);
                         (initial_output, 2650%Z)]))
  = [0; 1; 1]%nat.
Proof.
  intros c.
  apply (proj1 (idle_requested_on_each_late_frame c
    [(initial_output, 2400%Z); (initial_output, 2600%Z);
     (initial_output, 2650%Z)]
    ltac:(repeat constructor))).
Defined.

(** ** The controller: fist hold and cooldown *)

(** What a frame that is not a fist frame with hands does to the fist
    bookkeeping: nothing, except possibly clearing the trigger flag. *)
Definition fist_inert (c c' : GestureControls) (ev : list Event) : Prop :=
  _lastFistTime c' = _lastFistTime c /\
  gestureDuration c' = gestureDuration c /\
  gestureStartTime c' = gestureStartTime c /\
  currentGesture c' = currentGesture c /\
  count_events is_reset ev = 0%nat /\
  (_fistTriggered c' = false \/ _fistTriggered c' = _fistTriggered c).

Ltac case_split :=
  repeat (match goal with
          | |- context [if ?b then _ else _] => destruct b
          | |- context [let '(_, _) := ?p in _] => destruct p
          | |- context [match ?x with Some _ => _ | None => _ end] => destruct x
          end; cbn).

Ltac inert := unfold fist_inert; cbn; case_split; repeat split; auto.

Lemma decayRotation_inert (c : GestureControls) :
  fist_inert c (_decayRotation c) [].
Proof. unfold _decayRotation. inert. Qed.

Lemma handleRotation_inert (c : GestureControls) (d : GestureSample) :
  fist_inert c (fst (_handleRotation c d)) (snd (_handleRotation c d)).
Proof. unfold _handleRotation. inert. Qed.

Lemma handlePinch_inert (c : GestureControls) (now : Z) :
  fist_inert c (fst (_handlePinch c now)) (snd (_handlePinch c now)).
Proof. unfold _handlePinch, auto_expand, notify, count_events. inert. Qed.

Lemma handleExpansion_inert (c : GestureControls) (d : GestureSample) (dir : Q) :
  fist_inert c (fst (_handleExpansion c d dir)) (snd (_handleExpansion c d dir)).
Proof.
  unfold _handleExpansion, notify, count_events, fist_inert. cbn.
  destruct (onExplosionChange c); cbn; repeat split; auto.
Qed.

Lemma handleSwipe_inert (c : GestureControls) (right : bool) :
  fist_inert c (fst (_handleSwipe c right)) (snd (_handleSwipe c right)).
Proof. unfold _handleSwipe, auto_expand, notify, count_events. inert. Qed.

Lemma count_reset_gestureChange (set : bool) (g : Gesture) (ev : list Event) :
  count_events is_reset (notify set (Notify_gestureChange g) ++ ev)
  = count_events is_reset ev.
Proof. destruct set; reflexivity. Qed.

Lemma fist_inert_trans (a b c : GestureControls) (e1 e2 : list Event) :
  fist_inert a b e1 -> fist_inert b c e2 -> fist_inert a c (e1 ++ e2).
Proof.
  unfold fist_inert. intros (A1 & A2 & A3 & A4 & A5 & A6)
    (B1 & B2 & B3 & B4 & B5 & B6).
  rewrite count_events_app, A5, B5.
  repeat split; try congruence.
  destruct B6 as [B6|B6]; [left; exact B6|].
  destruct A6 as [A6|A6]; [left | right]; congruence.
Qed.

(** Does [_handleFist] fire on a controller whose transition tracking for
    this frame is done? *)
Definition fist_fires (c : GestureControls) (now : Z) : bool :=
  negb (_fistTriggered c)
  && (_fistHoldRequired <=? gestureDuration c)%Z
  && (1500 <=? now - _lastFistTime c)%Z.

Lemma handleFist_spec (c : GestureControls) (now : Z) :
  count_events is_reset (snd (_handleFist c now))
    = (if fist_fires c now then 1%nat else 0%nat) /\
  _fistTriggered (fst (_handleFist c now))
    = (_fistTriggered c || fist_fires c now) /\
  _lastFistTime (fst (_handleFist c now))
    = (if fist_fires c now then now else _lastFistTime c) /\
  currentGesture (fst (_handleFist c now)) = currentGesture c /\
  gestureStartTime (fst (_handleFist c now)) = gestureStartTime c /\
  gestureDuration (fst (_handleFist c now)) = gestureDuration c.
Proof.
  unfold _handleFist, fist_fires. rewrite !Z.leb_antisym.
  destruct (_fistTriggered c) eqn:Et; cbn [negb andb orb fst snd];
    [repeat split; auto|].
  destruct (gestureDuration c <? _fistHoldRequired)%Z;
    cbn [negb andb orb fst snd]; [repeat split; auto|].
  destruct (now - _lastFistTime c <? 1500)%Z; cbn [negb andb orb fst snd];
    [repeat split; auto|].
  unfold notify, count_events. cbn. case_split; repeat split; auto.
Qed.

(** A frame with hands whose label is [fist]. *)
Definition fist_frame (d : GestureSample) : Prop :=
  gesture d = fist /\ handsDetected d <> 0%nat.

Lemma update_fist (c : GestureControls) (d : GestureSample) (now : Z) :
  fist_frame d ->
  let c1 := with_lastActiveTime (track_transition c fist now) now in
  update c d now
  = (fst (_handleFist c1 now),
     notify (onGestureChange c1) (Notify_gestureChange fist)
       ++ snd (_handleFist c1 now)).
Proof.
  intros [Hg Hh]. unfold update. rewrite Hg.
  destruct (handsDetected d); [congruence|]. cbn [Nat.eqb]. cbv zeta.
  destruct (_handleFist _ now). reflexivity.
Qed.

Lemma update_other (c : GestureControls) (d : GestureSample) (now : Z) :
  ~ fist_frame d ->
  fist_inert (track_transition c (gesture d) now)
    (fst (update c d now)) (snd (update c d now)).
Proof.
  intros Hn. unfold update. cbv zeta.
  set (c0 := track_transition c (gesture d) now).
  destruct (Nat.eqb (handsDetected d) 0) eqn:Eh.
  - pose proof (decayRotation_inert c0) as (D1 & D2 & D3 & D4 & D5 & D6).
    clearbody c0.
    destruct (_idleTimeout <? _)%Z; cbn [fst snd];
      unfold fist_inert, clear_triggers; cbn;
      rewrite ?count_events_app, ?count_events_notify by reflexivity;
      repeat split; auto.
  - assert (I1 : fist_inert c0 (with_lastActiveTime c0 now) [])
      by (unfold fist_inert; cbn; repeat split; auto).
    set (c1 := with_lastActiveTime c0 now) in *.
    assert (Hev : forall (c2 : GestureControls) (ev : list Event),
      fist_inert c1 c2 ev ->
      fist_inert c0 c2
        (notify (onGestureChange c0) (Notify_gestureChange (gesture d)) ++ ev)).
    { intros c2 ev H.
      pose proof (fist_inert_trans _ _ _ _ _ I1 H) as (A & B & C & D & E & F).
      unfold fist_inert. rewrite count_reset_gestureChange.
      repeat split; auto. }
    clearbody c1 c0.
    assert (Hcall : forall r : GestureControls * list Event,
      fist_inert c1 (fst r) (snd r) ->
      fist_inert c0
        (fst (let '(c, ev) := r in
              (c, notify (onGestureChange c0)
                    (Notify_gestureChange (gesture d)) ++ ev)))
        (snd (let '(c, ev) := r in
              (c, notify (onGestureChange c0)
                    (Notify_gestureChange (gesture d)) ++ ev)))).
    { intros [c2 ev] H. apply Hev, H. }
    destruct (gesture d) eqn:Eg.
    + apply (Hcall (_decayRotation c1, [])), decayRotation_inert.
    + (* pinch *)
      pose proof (handlePinch_inert c1 now) as P.
      destruct (_handlePinch c1 now) as [c2 ev]. cbn [fst snd] in P.
      destruct (twistPoseActive d).
      * pose proof (handleRotation_inert c2 d) as R.
        destruct (_handleRotation c2 d) as [c3 ev']. cbn [fst snd] in *.
        apply Hev. eapply fist_inert_trans; eassumption.
      * cbn [fst snd]. apply Hev. rewrite <- (app_nil_r ev).
        eapply fist_inert_trans; [exact P | apply decayRotation_inert].
    + (* fist: without hands it was handled above, with hands it is a fist
         frame *)
      exfalso. apply Hn. split; [exact Eg|].
      intros H0. rewrite H0 in Eh. discriminate.
    + apply (Hcall (_decayRotation c1, [])), decayRotation_inert.
    + apply (Hcall (_decayRotation c1, [])), decayRotation_inert.
    + apply (Hcall (_handleRotation c1 d)), handleRotation_inert.
    + apply (Hcall (_handleExpansion c1 d 1)), handleExpansion_inert.
    + apply (Hcall (_handleExpansion c1 d (-1))), handleExpansion_inert.
    + apply (Hcall (_handleSwipe c1 false)), handleSwipe_inert.
    + apply (Hcall (_handleSwipe c1 true)), handleSwipe_inert.
Qed.

Lemma fist_frame_dec (d : GestureSample) : {fist_frame d} + {~ fist_frame d}.
Proof.
  unfold fist_frame.
  destruct (Gesture_eq_dec (gesture d) fist) as [E|E];
    [|right; intros [H _]; contradiction].
  destruct (Nat.eq_dec (handsDetected d) 0) as [E0|E0];
    [right; intros [_ H]; contradiction | left; auto].
Qed.

(** Every frame either leaves the fist cooldown timer alone and calls no
    reset, or it is a fist frame held for at least 800 ms, at least 1500 ms
    after the previous reset, that calls reset once and restarts the timer. *)
Lemma update_reset_cases (c : GestureControls) (d : GestureSample) (now : Z) :
  (count_events is_reset (snd (update c d now)) = 0%nat /\
   _lastFistTime (fst (update c d now)) = _lastFistTime c) \/
  (count_events is_reset (snd (update c d now)) = 1%nat /\
   _lastFistTime (fst (update c d now)) = now /\
   (1500 <= now - _lastFistTime c)%Z /\
   (_fistHoldRequired <= gestureDuration (fst (update c d now)))%Z /\
   fist_frame d).
Proof.
  pose proof (track_transition_fields c (gesture d) now) as (_ & T2 & _).
  cbv zeta in T2.
  destruct (fist_frame_dec d) as [Hf|Hf].
  - rewrite (update_fist c d now Hf). cbv zeta. cbn [fst snd].
    rewrite count_reset_gestureChange.
    set (c1 := with_lastActiveTime (track_transition c fist now) now).
    destruct (handleFist_spec c1 now) as (F1 & F2 & F3 & F4 & F5 & F6).
    assert (L1 : _lastFistTime c1 = _lastFistTime c).
    { destruct Hf as [Hg _]. rewrite Hg in T2. exact T2. }
    rewrite F1, F3, F6.
    destruct (fist_fires c1 now) eqn:Ef.
    + right. unfold fist_fires in Ef.
      apply andb_prop in Ef as [Ef E3]. apply andb_prop in Ef as [E1 E2].
      apply Z.leb_le in E2, E3. rewrite L1 in E3. auto.
    + left. auto.
  - left. destruct (update_other c d now Hf) as (A & _ & _ & _ & E & _).
    split; [exact E | congruence].
Qed.

Lemma reset_times_spaced (samples : list (GestureSample * Z)) :
  forall c : GestureControls,
  spaced 1500 (_lastFistTime c) (reset_times c samples).
Proof.
  induction samples as [|[d now] rest IH]; intros c; cbn [reset_times].
  - exact I.
  - pose proof (update_reset_cases c d now) as H.
    destruct (update c d now) as [c1 ev]. cbn [fst snd] in H.
    destruct H as [[H0 HL] | (H1 & HL & Hc & _)].
    + rewrite H0. cbn [Nat.eqb]. rewrite <- HL. apply IH.
    + rewrite H1. cbn [Nat.eqb spaced]. split; [exact Hc|].
      rewrite <- HL. apply IH.
Qed.

(** A frame on which the hold is still below 800 ms calls no reset. *)
Lemma short_hold_no_reset (c : GestureControls) (d : GestureSample) (now : Z) :
  (gestureDuration (fst (update c d now)) < _fistHoldRequired)%Z ->
  count_events is_reset (snd (update c d now)) = 0%nat.
Proof.
  intros H. destruct (update_reset_cases c d now) as [[H0 _] | (_ & _ & _ & Hd & _)];
    [exact H0 | lia].
Qed.

(** The clock reading at which the hold a fist frame continues began. *)
Definition hold_start (c : GestureControls) (now : Z) : Z :=
  if Gesture_eqb fist (currentGesture c) then gestureStartTime c else now.

(** A frame at which the hold has lasted 800 ms and the cooldown is over. *)
Definition qualifies (start lastFist : Z) (s : GestureSample * Z) : bool :=
  (_fistHoldRequired <=? snd s - start)%Z && (1500 <=? snd s - lastFist)%Z.

Lemma track_transition_fist (c : GestureControls) (now : Z) :
  let c0 := track_transition c fist now in
  currentGesture c0 = fist /\
  gestureStartTime c0 = hold_start c now /\
  gestureDuration c0 = (now - hold_start c now)%Z /\
  _lastFistTime c0 = _lastFistTime c /\
  _fistTriggered c0 = _fistTriggered c.
Proof.
  unfold track_transition, hold_start, Gesture_eqb,
    with_pinchTriggered, with_fistTriggered.
  destruct (currentGesture c) eqn:Ec; cbn; rewrite ?Ec; cbn;
    repeat split; congruence.
Qed.

Lemma fist_frame_step (c : GestureControls) (d : GestureSample) (now : Z) :
  fist_frame d ->
  let fires :=
    negb (_fistTriggered c)
    && qualifies (hold_start c now) (_lastFistTime c) (d, now) in
  let c' := fst (update c d now) in
  count_events is_reset (snd (update c d now))
    = (if fires then 1%nat else 0%nat) /\
  currentGesture c' = fist /\
  gestureStartTime c' = hold_start c now /\
  _fistTriggered c' = (_fistTriggered c || fires) /\
  _lastFistTime c' = (if fires then now else _lastFistTime c).
Proof.
  intros Hf. cbv zeta. rewrite (update_fist c d now Hf). cbv zeta.
  cbn [fst snd]. rewrite count_reset_gestureChange.
  set (c1 := with_lastActiveTime (track_transition c fist now) now).
  destruct (handleFist_spec c1 now) as (F1 & F2 & F3 & F4 & F5 & F6).
  destruct (track_transition_fist c now) as (T1 & T2 & T3 & T4 & T5).
  cbv zeta in *.
  assert (Ef : fist_fires c1 now
               = negb (_fistTriggered c)
                 && qualifies (hold_start c now) (_lastFistTime c) (d, now)).
  { unfold fist_fires, qualifies, c1, with_lastActiveTime.
    cbn [gestureDuration _lastFistTime _fistTriggered snd].
    rewrite T3, T4, T5, andb_assoc. reflexivity. }
  rewrite F1, F2, F3, F4, F5, Ef. unfold c1, with_lastActiveTime.
  cbn [currentGesture gestureStartTime _lastFistTime _fistTriggered].
  rewrite T1, T2, T4, T5. auto.
Qed.

Definition fist_hold (samples : list (GestureSample * Z)) : Prop :=
  Forall (fun s => fist_frame (fst s)) samples.

Lemma fist_hold_fired (samples : list (GestureSample * Z)) :
  fist_hold samples ->
  forall c, currentGesture c = fist -> _fistTriggered c = true ->
  reset_times c samples = [].
Proof.
  induction 1 as [|[d now] rest Hd _ IH]; intros c Hg Ht; cbn [reset_times];
    [reflexivity|].
  destruct (fist_frame_step c d now Hd) as (S1 & S2 & S3 & S4 & S5).
  cbv zeta in *. rewrite Ht in *. cbn in S1, S4.
  destruct (update c d now) as [c1 ev]. cbn [fst snd] in *.
  rewrite S1. cbn. apply IH; assumption.
Qed.

Lemma fist_hold_armed (samples : list (GestureSample * Z)) :
  fist_hold samples ->
  forall c, currentGesture c = fist -> _fistTriggered c = false ->
  reset_times c samples
  = match find (qualifies (gestureStartTime c) (_lastFistTime c)) samples with
    | Some s => [snd s]
    | None => []
    end.
Proof.
  induction 1 as [|[d now] rest Hd Hrest IH]; intros c Hg Ht;
    cbn [reset_times find]; [reflexivity|].
  destruct (fist_frame_step c d now Hd) as (S1 & S2 & S3 & S4 & S5).
  cbv zeta in *. rewrite Ht in *. cbn [negb andb orb] in *.
  assert (Hs : hold_start c now = gestureStartTime c).
  { unfold hold_start, Gesture_eqb. rewrite Hg.
    destruct (Gesture_eq_dec fist fist); congruence. }
  rewrite Hs in *.
  destruct (update c d now) as [c1 ev]. cbn [fst snd] in *.
  rewrite S1.
  destruct (qualifies (gestureStartTime c) (_lastFistTime c) (d, now)).
  - cbn. f_equal. apply fist_hold_fired; assumption.
  - cbn [Nat.eqb]. rewrite (IH c1 S2 S4), S3, S5. reflexivity.
Qed.

Lemma track_transition_triggered (c : GestureControls) (g : Gesture) (now : Z) :
  _fistTriggered (track_transition c g now)
  = if negb (Gesture_eqb g (currentGesture c))
       && Gesture_eqb (currentGesture c) fist
    then false else _fistTriggered c.
Proof.
  unfold track_transition, Gesture_eqb, with_pinchTriggered, with_fistTriggered.
  destruct (currentGesture c) eqn:Ec, g; cbn; rewrite ?Ec; reflexivity.
Qed.

(** Outside a fist the trigger flag is clear. *)
Lemma reachable_flag_clear (c : GestureControls) :
  reachable c -> currentGesture c <> fist -> _fistTriggered c = false.
Proof.
  induction 1 as [|c d now Hr IH]; [reflexivity|].
  intros Hg. destruct (fist_frame_dec d) as [Hf|Hf].
  - destruct (fist_frame_step c d now Hf) as (_ & S2 & _). contradiction.
  - destruct (update_other c d now Hf) as (_ & _ & _ & A4 & _ & A6).
    pose proof (track_transition_fields c (gesture d) now) as (_ & _ & _ & _ & T5).
    cbv zeta in T5. rewrite A4, T5 in Hg.
    destruct A6 as [A6|A6]; [exact A6|].
    rewrite A6, track_transition_triggered.
    unfold Gesture_eqb.
    destruct (Gesture_eq_dec (gesture d) (currentGesture c)) as [E|E];
      destruct (Gesture_eq_dec (currentGesture c) fist) as [E'|E'];
      cbn; try reflexivity; try (apply IH; assumption).
    congruence.
Qed.

(** C5.  (1) A frame on which the hold has lasted less than 800 ms calls no
    reset.  (2) Over a continuous hold of fist frames entered with the trigger
    flag clear, reset is called exactly once, on the first frame at which the
    hold has lasted at least 800 ms and at least 1500 ms have passed since
    the last fist reset, and never if there is no such frame.  (3) The flag
    is clear whenever a reachable controller is outside a fist, that is at
    the start of every fist instance.  (4) In any run of updates, successive
    resets are at least 1500 ms apart, the first at least 1500 ms after the
    previous one. *)
Theorem fist_reset_hold_and_cooldown (c : GestureControls)
    (samples : list (GestureSample * Z)) :
  (forall d now,
     (gestureDuration (fst (update c d now)) < 800)%Z ->
     count_events is_reset (snd (update c d now)) = 0%nat) /\
  (fist_hold samples -> _fistTriggered c = false ->
   reset_times c samples
   = match samples with
     | [] => []
     | (_, t0) :: _ =>
         match find (qualifies (hold_start c t0) (_lastFistTime c)) samples with
         | Some s => [snd s]
         | None => []
         end
     end) /\
  (reachable c -> currentGesture c <> fist -> _fistTriggered c = false) /\
  spaced 1500 (_lastFistTime c) (reset_times c samples).
Proof.
  split; [|split; [|split]].
  - intros d now. apply short_hold_no_reset.
  - intros Hh Ht. destruct Hh as [|[d0 t0] rest Hd Hrest]; [reflexivity|].
    cbn [reset_times find]. cbn [fst] in Hd.
    destruct (fist_frame_step c d0 t0 Hd) as (S1 & S2 & S3 & S4 & S5).
    cbv zeta in *. rewrite Ht in *. cbn [negb andb orb] in *.
    destruct (update c d0 t0) as [c1 ev]. cbn [fst snd] in *. rewrite S1.
    destruct (qualifies (hold_start c t0) (_lastFistTime c) (d0, t0)).
    + cbn. f_equal. apply fist_hold_fired; assumption.
    + cbn [Nat.eqb]. rewrite (fist_hold_armed rest Hrest c1 S2 S4), S3, S5.
      reflexivity.
  - apply reachable_flag_clear.
  - apply reset_times_spaced.
Qed.

(** The scenario of the specification: a fist entered at 10000 ms does not
    reset at 10799 ms, resets at 10801 ms, and not again while it lasts. *)
Lemma fist_reset_hold_and_cooldown_witness :
  let c := new_GestureControls (mkBrain [] (-1) None 0 0 0 0 0 false)
             false false false in
  let fistS := mkSample fist 1 None None 0 0 0 0 false 1 None 0 None in
  reset_times c [(fistS, 10000%Z); (fistS, 10799%Z); (fistS, 10801%Z);
                 (fistS, 10850%Z)]
  = [10801%Z].
Proof.
  intros c fistS.
  refine (proj1 (proj2 (fist_reset_hold_and_cooldown c
    [(fistS, 10000%Z); (fistS, 10799%Z); (fistS, 10801%Z); (fistS, 10850%Z)]))
    _ eq_refl).
  repeat constructor; discriminate.
Defined.

(** A second fist right after a reset: released at 10850 ms and closed again
    at 10900 ms, it has been held 850 ms at 11750 ms but the cooldown blocks
    it until 1500 ms after the first reset. *)
Example fist_cooldown_scenario :
  let c := new_GestureControls (mkBrain [] (-1) None 0 0 0 0 0 false)
             false false false in
  let fistS := mkSample fist 1 None None 0 0 0 0 false 1 None 0 None in
  let noneS := mkSample none 0 None None 0 0 0 0 false 1 None 0 None in
  reset_times c [(fistS, 10000%Z); (fistS, 10801%Z); (noneS, 10850%Z);
                 (fistS, 10900%Z); (fistS, 11750%Z); (fistS, 12300%Z);
                 (fistS, 12301%Z)]
  = [10801%Z; 12301%Z].
Proof. vm_compute. reflexivity. Qed.

(** ** The stabilization buffer *)

Lemma Gesture_eqb_eq (a b : Gesture) : Gesture_eqb a b = true <-> a = b.
Proof.
  unfold Gesture_eqb. destruct (Gesture_eq_dec a b); split; congruence.
Qed.

Lemma Gesture_eqb_refl (a : Gesture) : Gesture_eqb a a = true.
Proof. apply Gesture_eqb_eq. reflexivity. Qed.

Lemma Gesture_eqb_neq (a b : Gesture) : Gesture_eqb a b = false <-> a <> b.
Proof.
  unfold Gesture_eqb. destruct (Gesture_eq_dec a b); split; congruence.
Qed.

Lemma push_bounded_shape {A : Type} (cap : nat) (l : list A) (v : A) :
  (0 < cap)%nat -> (length l <= cap)%nat ->
  (push_bounded cap l v = l ++ [v] /\ (length l < cap)%nat) \/
  (push_bounded cap l v = tl l ++ [v] /\ length l = cap /\ l <> []).
Proof.
  intros Hc H. unfold push_bounded. rewrite length_app. cbn [length].
  destruct (Nat.ltb cap (length l + 1)) eqn:E.
  - right. apply Nat.ltb_lt in E. destruct l as [|a l].
    + cbn in *. lia.
    + cbn in *. repeat split; [lia | discriminate].
  - left. apply Nat.ltb_ge in E. split; [reflexivity | lia].
Qed.

Lemma push_bounded_length {A : Type} (cap : nat) (l : list A) (v : A) :
  (0 < cap)%nat -> (length l <= cap)%nat ->
  (length (push_bounded cap l v) <= cap)%nat.
Proof.
  intros Hc H. destruct (push_bounded_shape cap l v Hc H) as [[-> H1] | (-> & H1 & H2)];
    rewrite length_app; cbn [length].
  - lia.
  - destruct l; [congruence | cbn in *; lia].
Qed.

Lemma lookup_count_incr (g h : Gesture) (counts : list (Gesture * nat)) :
  lookup (count_incr g counts) h
  = (lookup counts h + (if Gesture_eqb g h then 1 else 0))%nat.
Proof.
  induction counts as [|[k c] t IH]; cbn.
  - destruct (Gesture_eqb g h); reflexivity.
  - destruct (Gesture_eqb k g) eqn:Ekg; cbn.
    + apply Gesture_eqb_eq in Ekg. subst k.
      destruct (Gesture_eqb g h); lia.
    + destruct (Gesture_eqb k h) eqn:Ekh; [|exact IH].
      apply Gesture_eqb_eq in Ekh. subst k. apply Gesture_eqb_neq in Ekg.
      destruct (Gesture_eqb g h) eqn:Egh; [|lia].
      apply Gesture_eqb_eq in Egh. congruence.
Qed.

Lemma keys_count_incr (g : Gesture) (counts : list (Gesture * nat)) :
  NoDup (map fst counts) -> NoDup (map fst (count_incr g counts)).
Proof.
  intros H.
  assert (K : map fst (count_incr g counts) = map fst counts \/
              (map fst (count_incr g counts) = map fst counts ++ [g] /\
               ~ In g (map fst counts))).
  { clear H. induction counts as [|[k c] t IH]; cbn.
    - right. split; [reflexivity | tauto].
    - destruct (Gesture_eqb k g) eqn:E; cbn; [left; reflexivity|].
      apply Gesture_eqb_neq in E.
      destruct IH as [-> | [-> Hn]]; [left; reflexivity|].
      right. split; [reflexivity|]. intros [?|?]; contradiction. }
  destruct K as [-> | [-> Hn]]; [exact H|].
  apply NoDup_app; [exact H | repeat constructor; intros [] |].
  intros x Hx [<-|[]]. contradiction.
Qed.

Lemma count_all_acc (buffer : list Gesture) :
  forall acc : list (Gesture * nat),
  NoDup (map fst acc) ->
  let counts := fold_left (fun counts g => count_incr g counts) buffer acc in
  NoDup (map fst counts) /\
  forall h, lookup counts h = (lookup acc h + occurrences buffer h)%nat.
Proof.
  unfold occurrences.
  induction buffer as [|g rest IH]; intros acc Hacc; cbn [fold_left count_occ].
  - split; [exact Hacc | intros; lia].
  - destruct (IH (count_incr g acc) (keys_count_incr g acc Hacc)) as [N L].
    split; [exact N|]. intros h. rewrite L, lookup_count_incr.
    unfold Gesture_eqb. destruct (Gesture_eq_dec g h); lia.
Qed.

Lemma count_all_spec (buffer : list Gesture) :
  NoDup (map fst (count_all buffer)) /\
  forall h, lookup (count_all buffer) h = occurrences buffer h.
Proof.
  destruct (count_all_acc buffer [] (NoDup_nil _)) as [N L].
  split; [exact N | intros h; exact (L h)].
Qed.

Lemma lookup_In (counts : list (Gesture * nat)) (h : Gesture) (c : nat) :
  NoDup (map fst counts) -> In (h, c) counts -> lookup counts h = c.
Proof.
  induction counts as [|[k c'] t IH]; cbn; intros N Hin; [contradiction|].
  inversion N as [|? ? Hk Nt]; subst.
  destruct Hin as [E|Hin].
  - injection E as -> ->. rewrite Gesture_eqb_refl. reflexivity.
  - destruct (Gesture_eqb k h) eqn:E; [|apply IH; assumption].
    apply Gesture_eqb_eq in E. subst k. exfalso. apply Hk.
    apply (in_map fst) in Hin. exact Hin.
Qed.

Lemma In_lookup (counts : list (Gesture * nat)) (h : Gesture) :
  (0 < lookup counts h)%nat -> In (h, lookup counts h) counts.
Proof.
  induction counts as [|[k c] t IH]; cbn; intros H; [lia|].
  destruct (Gesture_eqb k h) eqn:E.
  - apply Gesture_eqb_eq in E. subst k. left. reflexivity.
  - right. apply IH, H.
Qed.

Lemma most_common_acc (counts : list (Gesture * nat)) :
  forall acc : Gesture * nat,
  let r := fold_left
             (fun (acc : Gesture * nat) (e : Gesture * nat) =>
                if Nat.ltb (snd acc) (snd e) then e else acc) counts acc in
  (snd acc <= snd r)%nat /\
  (forall e, In e counts -> (snd e <= snd r)%nat) /\
  (r = acc \/ In r counts).
Proof.
  induction counts as [|e t IH]; intros acc; cbn [fold_left].
  - repeat split; [lia | intros ? [] | left; reflexivity].
  - destruct (Nat.ltb (snd acc) (snd e)) eqn:E.
    + apply Nat.ltb_lt in E. destruct (IH e) as (A & B & C).
      repeat split.
      * lia.
      * intros e' [<-|H]; [exact A | apply B, H].
      * right. destruct C as [-> | C]; [left; reflexivity | right; exact C].
    + apply Nat.ltb_ge in E. destruct (IH acc) as (A & B & C).
      repeat split.
      * exact A.
      * intros e' [<-|H]; [lia | apply B, H].
      * destruct C as [C|C]; [left; exact C | right; right; exact C].
Qed.

Lemma occurrences_two (buffer : list Gesture) (a b : Gesture) :
  a <> b -> (occurrences buffer a + occurrences buffer b <= length buffer)%nat.
Proof.
  intros H. unfold occurrences. induction buffer as [|g t IH]; cbn; [lia|].
  destruct (Gesture_eq_dec g a), (Gesture_eq_dec g b); try lia. congruence.
Qed.

Lemma stability_threshold_is_3 : stability_threshold = 3%nat.
Proof. reflexivity. Qed.

(** The vote of [_stabilize] on the buffer it has just pushed to. *)
Lemma most_common_vote (buffer : list Gesture) :
  (length buffer <= 5)%nat ->
  (forall h, (3 <= occurrences buffer h)%nat ->
     fst (most_common (count_all buffer)) = h /\
     (3 <= snd (most_common (count_all buffer)))%nat) /\
  ((forall h, (occurrences buffer h < 3)%nat) ->
     (snd (most_common (count_all buffer)) < 3)%nat).
Proof.
  intros Hlen.
  destruct (count_all_spec buffer) as [N L].
  destruct (most_common_acc (count_all buffer) (none, 0%nat)) as (_ & B & C).
  fold (most_common (count_all buffer)) in B, C.
  destruct (most_common (count_all buffer)) as [best bc] eqn:Em.
  cbn [fst snd] in *.
  assert (Hbc : (0 < bc)%nat -> bc = occurrences buffer best).
  { intros Hpos. destruct C as [C|C]; [injection C as _ ->; lia|].
    rewrite <- L. symmetry. apply lookup_In; assumption. }
  split.
  - intros h Hh.
    assert (Hle : (occurrences buffer h <= bc)%nat).
    { rewrite <- L in Hh |- *.
      apply (B (h, lookup (count_all buffer) h)), In_lookup. lia. }
    split; [|lia].
    destruct (Gesture_eq_dec best h) as [E|E]; [exact E|].
    pose proof (occurrences_two buffer best h E).
    rewrite <- Hbc in H by lia. lia.
  - intros Hall. destruct (Nat.eq_dec bc 0) as [->|Hz]; [lia|].
    rewrite Hbc by lia. apply Hall.
Qed.

Lemma stabilize_step (buffer : list Gesture) (lastStable raw : Gesture) :
  (length buffer <= 5)%nat -> is_swipe raw = false ->
  let buffer' := push_bounded 5 buffer raw in
  let g := snd (_stabilize buffer lastStable false raw) in
  fst (_stabilize buffer lastStable false raw) = buffer' /\
  (length buffer' <= 5)%nat /\
  (forall h, (3 <= occurrences buffer' h)%nat -> g = h) /\
  ((forall h, (occurrences buffer' h < 3)%nat) -> g = lastStable).
Proof.
  intros Hlen Hs. cbv zeta.
  assert (Hlen' : (length (push_bounded 5 buffer raw) <= 5)%nat)
    by (apply push_bounded_length; [lia | exact Hlen]).
  destruct (most_common_vote _ Hlen') as [V1 V2].
  unfold _stabilize, STABILITY_BUFFER_SIZE. fold (is_swipe raw). rewrite Hs.
  rewrite stability_threshold_is_3. cbn [andb].
  destruct (most_common (count_all (push_bounded 5 buffer raw)))
    as [best bc] eqn:Em.
  cbn [fst snd] in *.
  split; [reflexivity|]. split; [exact Hlen'|]. split.
  - intros h Hh. destruct (V1 h Hh) as [-> Hbc].
    destruct (Nat.leb 3 bc) eqn:E; [reflexivity|].
    apply Nat.leb_gt in E. lia.
  - intros Hall. specialize (V2 Hall).
    destruct (Nat.leb 3 bc) eqn:E; [|reflexivity].
    apply Nat.leb_le in E. lia.
Qed.

Lemma stabilize_run_cons (buffer : list Gesture) (lastStable : Gesture)
    (twist : bool) (raw : Gesture) (rest : list Gesture) :
  stabilize_run buffer lastStable twist (raw :: rest)
  = snd (_stabilize buffer lastStable twist raw)
    :: stabilize_run (fst (_stabilize buffer lastStable twist raw))
         (snd (_stabilize buffer lastStable twist raw)) twist rest.
Proof.
  cbn [stabilize_run]. destruct (_stabilize buffer lastStable twist raw).
  reflexivity.
Qed.

Ltac buffer_shapes b H :=
  destruct b as [|? [|? [|? [|? [|? [|? ?]]]]]];
  cbn [length] in H; try lia; clear H.

Ltac count_labels :=
  unfold occurrences; cbn;
  repeat match goal with
  | |- context [Gesture_eq_dec ?a ?b] => destruct (Gesture_eq_dec a b)
  end; try lia; try congruence.

(** One step of a stabilized run without twist pose and without swipe. *)
Ltac run_step H :=
  rewrite stabilize_run_cons;
  match goal with
  | |- context [_stabilize ?b ?l false ?r] =>
      let Hb := fresh "Hb" in
      let Hl := fresh "Hl" in
      let Hmaj := fresh "Hmaj" in
      let Hno := fresh "Hno" in
      destruct (stabilize_step b l r H eq_refl) as (Hb & Hl & Hmaj & Hno);
      cbv zeta in Hb, Hl, Hmaj, Hno; rewrite Hb;
      generalize dependent (snd (_stabilize b l false r))
  end.

(** C3.  With the twist-pose flag inactive and a raw label that is no swipe,
    [_stabilize] outputs the label that occurs at least 3 times in the
    5-entry buffer (there is at most one), and the previously stable label
    when no label does.  Hence five frames of raw open_palm give open_palm
    from the third frame on (and the previous label before, from an empty
    buffer), and on the last frame of open_palm, fist, open_palm, fist, point
    the output is the label that was stable on the frame before. *)
Theorem majority_vote_stabilization (buffer : list Gesture)
    (lastStable : Gesture) :
  (length buffer <= 5)%nat ->
  (forall raw, is_swipe raw = false ->
     let buffer' := fst (_stabilize buffer lastStable false raw) in
     let g := snd (_stabilize buffer lastStable false raw) in
     buffer' = push_bounded 5 buffer raw /\
     (forall h, (3 <= occurrences buffer' h)%nat -> g = h) /\
     ((forall h, (occurrences buffer' h < 3)%nat) -> g = lastStable)) /\
  (exists g1 g2,
     stabilize_run buffer lastStable false
       [open_palm; open_palm; open_palm; open_palm; open_palm]
     = [g1; g2; open_palm; open_palm; open_palm]) /\
  stabilize_run [] lastStable false
    [open_palm; open_palm; open_palm; open_palm; open_palm]
  = [lastStable; lastStable; open_palm; open_palm; open_palm] /\
  (exists g1 g2 g3 previous,
     stabilize_run buffer lastStable false
       [open_palm; fist; open_palm; fist; point]
     = [g1; g2; g3; previous; previous]).
Proof.
  intros Hlen. split; [|split; [|split]].
  - intros raw Hs. cbv zeta.
    destruct (stabilize_step buffer lastStable raw Hlen Hs) as (A & B & C & D).
    cbv zeta in *. rewrite A. auto.
  - run_step Hlen. intros g1 _ _.
    run_step Hl. intros g2 _ _.
    run_step Hl0. intros g3 Hm3 _.
    run_step Hl1. intros g4 Hm4 _.
    run_step Hl2. intros g5 Hm5 _.
    exists g1, g2.
    rewrite (Hm3 open_palm), (Hm4 open_palm), (Hm5 open_palm);
      [reflexivity | | |];
      clear - Hlen; buffer_shapes buffer Hlen; count_labels.
  - reflexivity.
  - run_step Hlen. intros g1 _ _.
    run_step Hl. intros g2 _ _.
    run_step Hl0. intros g3 _ _.
    run_step Hl1. intros g4 _ _.
    run_step Hl2. intros g5 _ Hn5.
    exists g1, g2, g3, g4. rewrite Hn5; [reflexivity|].
    clear - Hlen. intros h. buffer_shapes buffer Hlen; destruct h; count_labels.
Qed.

(** Witness for C3: from a buffer of three pinch labels, the alternating
    sequence ends on the label that was stable one frame earlier. *)
Lemma majority_vote_stabilization_witness :
  exists g1 g2 g3 previous,
    stabilize_run [pinch; pinch; pinch] pinch false
      [open_palm; fist; open_palm; fist; point]
    = [g1; g2; g3; previous; previous].
Proof.
  apply (proj2 (proj2 (proj2
    (majority_vote_stabilization [pinch; pinch; pinch] pinch
       ltac:(cbn; lia))))).
Defined.

(** ** The recognizer *)

Lemma detectSwipe_cases (history : list PalmEntry) (lastSwipe now : Z) :
  _detectSwipe history lastSwipe now = (history, lastSwipe, None) \/
  (exists g, _detectSwipe history lastSwipe now = ([], now, Some g) /\
             is_swipe g = true /\ (700 <= now - lastSwipe)%Z).
Proof.
  unfold _detectSwipe.
  destruct (now - lastSwipe <? 700)%Z eqn:E; [left; reflexivity|].
  apply Z.ltb_ge in E.
  destruct (Nat.ltb (length history) 5); [left; reflexivity|].
  destruct (Nat.ltb _ 4); [left; reflexivity|].
  destruct (filter _ history) as [|first rest]; [left; reflexivity|].
  destruct (_ <? 50)%Z; [left; reflexivity|].
  destruct (_ && _); [|left; reflexivity].
  right. eexists. split; [reflexivity|]. split; [|exact E].
  destruct (Num.gtb _ 0); reflexivity.
Qed.

Lemma classify_single_no_swipe (f : Features) (active : bool) :
  is_swipe (fst (classify_single f active)) = false.
Proof.
  unfold classify_single.
  repeat match goal with
  | |- context [if ?b then _ else _] => destruct b
  end; reflexivity.
Qed.

Section RecognizerFacts.

Variable Math_sqrt : Q -> Q.
Variable Math_atan2 : Q -> Q -> Q.

Local Abbreviation classify' := (classify Math_sqrt Math_atan2).
Local Abbreviation recognize' := (recognize Math_sqrt Math_atan2).
Local Abbreviation features' := (features Math_sqrt Math_atan2).
Local Abbreviation run' := (run Math_sqrt Math_atan2).

(** What a frame with hands leaves in the recognizer and in the sample when
    it reaches [_stabilize]. *)
Lemma classify_fields (self : GestureRecognizer) (lm : Hand)
    (others : list Hand) (now now_swipe : Z) (c : Classified) :
  classify' self lm others now now_swipe = Some c ->
  exists f,
    features' lm = Some f /\
    _twistPoseActive (c_self c)
      = twist_hysteresis (_twistPoseActive self) (f_twistPoseScore f) /\
    twistPoseActive (c_output c) = _twistPoseActive (c_self c) /\
    twistPoseScore (c_output c) = f_twistPoseScore f /\
    _gestureBuffer (c_self c) = _gestureBuffer self /\
    _lastStableGesture (c_self c) = _lastStableGesture self /\
    handsDetected (c_output c) = S (length others) /\
    ((is_swipe (c_rawGesture c) = false /\
      _lastSwipeTime (c_self c) = _lastSwipeTime self) \/
     (is_swipe (c_rawGesture c) = true /\
      _palmHistory (c_self c) = [] /\
      _lastSwipeTime (c_self c) = now_swipe /\
      confidence (c_output c) = 0.85 /\
      (700 <= now_swipe - _lastSwipeTime self)%Z)).
Proof.
  unfold classify, bind.
  destruct (features' lm) as [f|]; [|discriminate].
  destruct (palm_step _ _ _ now) as [pDelta history].
  destruct (two_hand_step _ _ lm others) as [[[[smooth twoDist] twoDelta] early]|];
    [|discriminate].
  destruct early.
  - intros H. injection H as <-. exists f. cbn.
    repeat split; try reflexivity. left.
    destruct (Num.gtb twoDelta 0); auto.
  - pose proof (classify_single_no_swipe f
        (twist_hysteresis (_twistPoseActive self) (f_twistPoseScore f))) as Hn.
    destruct (classify_single f _) as [rawGesture conf]. cbn [fst] in Hn.
    destruct (detectSwipe_cases history (_lastSwipeTime self) now_swipe)
      as [-> | (g & -> & Hg & Ht)].
    + intros H. injection H as <-. exists f.
      destruct conf; cbn; repeat split; auto.
    + intros H. injection H as <-. exists f.
      destruct conf; cbn; repeat split; auto;
        right; repeat split; auto.
Qed.

(** A frame with hands goes through [classify] and [_stabilize]. *)
Lemma recognize_hands (self self' : GestureRecognizer) (results : option Results)
    (now now_swipe : Z) (out : GestureSample) :
  present_hands results <> [] ->
  recognize' self results now now_swipe = Some (self', out) ->
  exists lm others c,
    present_hands results = lm :: others /\
    classify' self lm others now now_swipe = Some c /\
    stabilize_call c = (self', out).
Proof.
  unfold recognize, bind. intros Hp.
  destruct (present_hands results) as [|lm others]; [congruence|].
  destruct (classify' self lm others now now_swipe) as [c|] eqn:Ec;
    [|discriminate].
  intros H. exists lm, others, c. repeat split; congruence.
Qed.

Lemma stabilize_call_fields (c : Classified) :
  let r := _stabilize (_gestureBuffer (c_self c))
             (_lastStableGesture (c_self c)) (_twistPoseActive (c_self c))
             (c_rawGesture c) in
  _gestureBuffer (fst (stabilize_call c)) = fst r /\
  _lastStableGesture (fst (stabilize_call c)) = snd r /\
  gesture (snd (stabilize_call c)) = snd r /\
  _twistPoseActive (fst (stabilize_call c)) = _twistPoseActive (c_self c) /\
  _palmHistory (fst (stabilize_call c)) = _palmHistory (c_self c) /\
  _lastSwipeTime (fst (stabilize_call c)) = _lastSwipeTime (c_self c) /\
  confidence (snd (stabilize_call c)) = confidence (c_output c) /\
  twistPoseScore (snd (stabilize_call c)) = twistPoseScore (c_output c) /\
  twistPoseActive (snd (stabilize_call c)) = twistPoseActive (c_output c) /\
  handsDetected (snd (stabilize_call c)) = handsDetected (c_output c).
Proof.
  unfold stabilize_call. cbv zeta.
  destruct (_stabilize _ _ _ _) as [buffer g]. cbn. repeat split.
Qed.

(** C8.  On a frame without hands ([results] null, [results.landmarks]
    missing or empty) [recognize] returns, without throwing, the initial
    sample (gesture none, confidence 0, handsDetected 0) and leaves the palm
    history, the angle-delta history, the two-hand smoothing state, both
    previous angles and both filtered deltas, the twist-pose flag and the
    stabilization buffer cleared. *)
Theorem recognize_no_hands (self : GestureRecognizer)
    (results : option Results) (now now_swipe : Z) :
  results = None \/
  (exists r, results = Some r /\ (landmarks r = None \/ landmarks r = Some [])) ->
  exists self' out,
    recognize' self results now now_swipe = Some (self', out) /\
    gesture out = none /\ confidence out = 0 /\ handsDetected out = 0%nat /\
    _palmHistory self' = [] /\
    _angleDeltaHistory self' = [] /\
    _smoothTwoHandDist self' = None /\
    _prevHandAngle self' = None /\
    _prevPinchAxisAngle self' = None /\
    _filteredHandAngleDelta self' = 0 /\
    _filteredPinchAxisDelta self' = 0 /\
    _twistPoseActive self' = false /\
    _gestureBuffer self' = [].
Proof.
  intros H.
  assert (Hp : present_hands results = []).
  { destruct H as [-> | (r & -> & [E|E])]; cbn; try rewrite E; reflexivity. }
  exists (hand_loss self), initial_output.
  unfold recognize. rewrite Hp. cbn. repeat split.
Qed.

Lemma twist_hysteresis_spec (active : bool) (score : Q) :
  (0.58 <= score -> twist_hysteresis active score = true) /\
  (score < 0.42 -> twist_hysteresis active score = false) /\
  (0.42 <= score < 0.58 -> twist_hysteresis active score = active).
Proof.
  unfold twist_hysteresis, Num.geb, _twistPoseEnterThreshold,
    _twistPoseExitThreshold.
  destruct active; cbn [negb andb];
    destruct (Num.leb 0.58 score) eqn:E1;
    destruct (Num.ltb score 0.42) eqn:E2; cmp_hyps;
    repeat split; intros; try reflexivity; lra.
Qed.

Lemma recognize_twist (self self' : GestureRecognizer)
    (results : option Results) (now now_swipe : Z) (out : GestureSample) :
  present_hands results <> [] ->
  recognize' self results now now_swipe = Some (self', out) ->
  twistPoseActive out = _twistPoseActive self' /\
  _twistPoseActive self'
    = twist_hysteresis (_twistPoseActive self) (twistPoseScore out).
Proof.
  intros Hp Hr.
  destruct (recognize_hands _ _ _ _ _ _ Hp Hr) as (lm & others & c & _ & Hc & Hs).
  destruct (classify_fields _ _ _ _ _ _ Hc) as (f & _ & F1 & F2 & F3 & _).
  pose proof (stabilize_call_fields c) as (_ & _ & _ & S4 & _ & _ & _ & S8 & S9 & _).
  rewrite Hs in *. cbn [fst snd] in *. split; congruence.
Qed.

(** C4.  On a frame with a hand the twist-pose flag is active afterwards
    when the frame's score is at least 0.58, inactive when it is below 0.42,
    and unchanged when it lies in [0.42, 0.58); the sample reports the flag.
    Over any run of frames with hands whose scores all lie in [0.42, 0.58)
    the flag keeps the value it had before the run. *)
Theorem twist_pose_hysteresis :
  (forall self self' results now now_swipe out,
     present_hands results <> [] ->
     recognize' self results now now_swipe = Some (self', out) ->
     twistPoseActive out = _twistPoseActive self' /\
     (0.58 <= twistPoseScore out -> _twistPoseActive self' = true) /\
     (twistPoseScore out < 0.42 -> _twistPoseActive self' = false) /\
     (0.42 <= twistPoseScore out < 0.58 ->
      _twistPoseActive self' = _twistPoseActive self)) /\
  (forall frames self self' outs,
     run' self frames = Some (self', outs) ->
     Forall (fun fr => present_hands (fr_results fr) <> []) frames ->
     Forall (fun o => 0.42 <= twistPoseScore o < 0.58) outs ->
     _twistPoseActive self' = _twistPoseActive self /\
     Forall (fun o => twistPoseActive o = _twistPoseActive self) outs).
Proof.
  split.
  - intros self self' results now now_swipe out Hp Hr.
    destruct (recognize_twist _ _ _ _ _ _ Hp Hr) as [T1 T2].
    destruct (twist_hysteresis_spec (_twistPoseActive self) (twistPoseScore out))
      as (A & B & C).
    rewrite T2. repeat split; auto. congruence.
  - induction frames as [|fr rest IH]; intros self self' outs Hrun Hh Hb.
    + cbn in Hrun. injection Hrun as <- <-. auto.
    + cbn [run] in Hrun. unfold bind in Hrun.
      destruct (recognize' self _ _ _) as [[s1 o1]|] eqn:Er; [|discriminate].
      cbn [fst snd] in Hrun.
      destruct (run' s1 rest) as [[s2 os]|] eqn:Er2; [|discriminate].
      cbn [fst snd] in Hrun. injection Hrun as <- <-.
      inversion Hh as [|? ? Hh1 Hh2]; subst.
      inversion Hb as [|? ? Hb1 Hb2]; subst.
      destruct (recognize_twist _ _ _ _ _ _ Hh1 Er) as [T1 T2].
      destruct (twist_hysteresis_spec (_twistPoseActive self) (twistPoseScore o1))
        as (_ & _ & C).
      rewrite (C Hb1) in T2.
      destruct (IH s1 s2 os Er2 Hh2 Hb2) as [I1 I2].
      rewrite T2 in *. split; [exact I1|].
      constructor; [congruence | exact I2].
Qed.

Lemma recognize_swipe_cases (self self' : GestureRecognizer) (fr : Frame)
    (out : GestureSample) :
  recognize' self (fr_results fr) (fr_now fr) (fr_now_swipe fr)
    = Some (self', out) ->
  (swipe_fired Math_sqrt Math_atan2 self fr = false /\
   _lastSwipeTime self' = _lastSwipeTime self) \/
  (swipe_fired Math_sqrt Math_atan2 self fr = true /\
   _lastSwipeTime self' = fr_now_swipe fr /\
   _palmHistory self' = [] /\
   (700 <= fr_now_swipe fr - _lastSwipeTime self)%Z /\
   raw_label Math_sqrt Math_atan2 self fr = Some (gesture out) /\
   is_swipe (gesture out) = true /\
   confidence out = 0.85).
Proof.
  intros Hr. unfold swipe_fired, raw_label.
  destruct (present_hands (fr_results fr)) as [|lm others] eqn:Ep.
  - left. unfold recognize in Hr. rewrite Ep in Hr. injection Hr as <- <-.
    auto.
  - assert (Hp : present_hands (fr_results fr) <> []) by (rewrite Ep; discriminate).
    destruct (recognize_hands _ _ _ _ _ _ Hp Hr) as (lm' & others' & c & E & Hc & Hs).
    rewrite Ep in E. injection E as <- <-. rewrite Hc. cbn [option_map].
    destruct (classify_fields _ _ _ _ _ _ Hc)
      as (f & _ & _ & _ & _ & _ & _ & _ & [[Hn HL] | (Hy & HP & HL & HC & HT)]).
    + left. split; [exact Hn|].
      pose proof (stabilize_call_fields c) as (_ & _ & _ & _ & _ & S6 & _).
      rewrite Hs in S6. cbn [fst] in S6. congruence.
    + right.
      pose proof (stabilize_call_fields c)
        as (_ & _ & S3 & _ & S5 & S6 & S7 & _).
      rewrite Hs in *. cbn [fst snd] in *. cbv zeta in S3.
      assert (Hg : gesture out = c_rawGesture c).
      { rewrite S3. unfold _stabilize.
        destruct (most_common _) as [best bc].
        fold (is_swipe (c_rawGesture c)). rewrite Hy. cbn [snd].
        destruct (_twistPoseActive (c_self c)); [|reflexivity].
        cbn [andb]. clear - Hy. destruct (c_rawGesture c); try discriminate;
          reflexivity. }
      rewrite Hg. repeat split; try congruence.
Qed.

(** X23.  In any run of [recognize], the frames on which [_detectSwipe]
    fires are at least 700 ms apart by its clock (the first at least 700 ms
    after the stored cooldown time); on such a frame the palm history is
    emptied, the cooldown timer is set to that frame's clock reading, and the
    sample carries the swipe label with confidence 0.85.  This bounds the
    detector only: the label of later samples is decided by [_stabilize]. *)
Theorem swipe_refractory (self : GestureRecognizer) (frames : list Frame) :
  spaced 700 (_lastSwipeTime self)
    (swipe_times Math_sqrt Math_atan2 self frames) /\
  (forall fr self' out,
     recognize' self (fr_results fr) (fr_now fr) (fr_now_swipe fr)
       = Some (self', out) ->
     swipe_fired Math_sqrt Math_atan2 self fr = true ->
     _palmHistory self' = [] /\
     _lastSwipeTime self' = fr_now_swipe fr /\
     is_swipe (gesture out) = true /\
     confidence out = 0.85).
Proof.
  split.
  - revert self. induction frames as [|fr rest IH]; intros self;
      cbn [swipe_times]; [exact I|].
    destruct (recognize' self _ _ _) as [[s1 o1]|] eqn:Er; [|exact I].
    destruct (recognize_swipe_cases _ _ _ _ Er)
      as [[-> HL] | (-> & HL & _ & HT & _)]; cbn [app spaced].
    + rewrite <- HL. apply IH.
    + split; [exact HT|]. rewrite <- HL. apply IH.
  - intros fr self' out Hr Hf.
    destruct (recognize_swipe_cases _ _ _ _ Hr)
      as [[Hn _] | (_ & HL & HP & _ & _ & Hs & HC)]; [congruence|]. auto.
Qed.

Lemma run_no_hands (lost : list Frame) :
  Forall (fun fr => present_hands (fr_results fr) = []) lost ->
  forall self, exists s0 outs0,
    run' self lost = Some (s0, outs0) /\
    Forall (fun o => gesture o = none) outs0 /\
    _lastStableGesture s0 = _lastStableGesture self /\
    (lost <> [] \/ _gestureBuffer self = [] -> _gestureBuffer s0 = []).
Proof.
  induction 1 as [|fr rest Hfr _ IH]; intros self.
  - exists self, []. cbn. repeat split; auto. intros [H|H]; congruence.
  - destruct (IH (hand_loss self)) as (s0 & outs0 & R & F & L & B).
    exists s0, (initial_output :: outs0).
    cbn [run]. unfold recognize at 1. rewrite Hfr. cbn [bind fst snd].
    rewrite R. cbn [bind fst snd]. repeat split.
    + constructor; [reflexivity | exact F].
    + exact L.
    + intros _. apply B. right. reflexivity.
Qed.

Lemma steady_frame (self self' : GestureRecognizer)
    (fr : Frame) (out : GestureSample) (raw : Gesture) :
  recognize' self (fr_results fr) (fr_now fr) (fr_now_swipe fr)
    = Some (self', out) ->
  raw_label Math_sqrt Math_atan2 self fr = Some raw ->
  _gestureBuffer self'
    = fst (_stabilize (_gestureBuffer self) (_lastStableGesture self)
             (_twistPoseActive self') raw) /\
  gesture out
    = snd (_stabilize (_gestureBuffer self) (_lastStableGesture self)
             (_twistPoseActive self') raw) /\
  _lastStableGesture self' = gesture out.
Proof.
  intros Hr Hraw. unfold raw_label in Hraw.
  destruct (present_hands (fr_results fr)) as [|lm others] eqn:Ep;
    [discriminate|].
  assert (Hp : present_hands (fr_results fr) <> []) by (rewrite Ep; discriminate).
  destruct (recognize_hands _ _ _ _ _ _ Hp Hr) as (lm' & others' & c & E & Hc & Hs).
  rewrite Ep in E. injection E as <- <-. rewrite Hc in Hraw.
  injection Hraw as <-.
  destruct (classify_fields _ _ _ _ _ _ Hc) as (f & _ & _ & _ & _ & F5 & F6 & _).
  pose proof (stabilize_call_fields c) as (S1 & S2 & S3 & S4 & _).
  rewrite Hs in *. cbn [fst snd] in *. cbv zeta in *.
  rewrite F5, F6, <- S4 in *. repeat split; congruence.
Qed.

Lemma steady_run_stale (back : list Frame) :
  forall self,
  (length (_gestureBuffer self) <= 5)%nat ->
  steady_run Math_sqrt Math_atan2 no_majority self back ->
  exists s1 outs,
    run' self back = Some (s1, outs) /\
    length outs = length back /\
    Forall (fun o => gesture o = _lastStableGesture self) outs.
Proof.
  induction back as [|fr rest IH]; intros self Hlen Hs.
  - exists self, []. repeat split; auto.
  - cbn [steady_run] in Hs.
    destruct Hs as (s' & out & raw & Hr & Hraw & Hsw & Htw & Hno & Hrest).
    destruct (steady_frame _ _ _ _ _ Hr Hraw) as (B & G & L).
    rewrite Htw in B, G.
    destruct (stabilize_step (_gestureBuffer self) (_lastStableGesture self)
                raw Hlen Hsw) as (S1 & S2 & _ & S4).
    cbv zeta in *. rewrite <- B in S1. rewrite <- S1 in S2, S4.
    rewrite <- G in S4. specialize (S4 Hno).
    destruct (IH s' S2 Hrest) as (s1 & outs & R & Ln & F).
    exists s1, (out :: outs). cbn [run]. rewrite Hr. cbn [bind fst snd].
    rewrite R. cbn [bind fst snd length]. repeat split; [congruence|].
    constructor; [exact S4|]. rewrite L, S4 in F. exact F.
Qed.

Lemma occurrences_le_length (buffer : list Gesture) (h : Gesture) :
  (occurrences buffer h <= length buffer)%nat.
Proof. apply count_occ_bound. Qed.

Lemma steady_run_short (back : list Frame) :
  forall self,
  (length (_gestureBuffer self) + length back <= 2)%nat ->
  steady_run Math_sqrt Math_atan2 (fun _ => True) self back ->
  steady_run Math_sqrt Math_atan2 no_majority self back.
Proof.
  induction back as [|fr rest IH]; intros self Hlen Hs; [exact I|].
  cbn [steady_run length] in *.
  destruct Hs as (s' & out & raw & Hr & Hraw & Hsw & Htw & _ & Hrest).
  destruct (steady_frame _ _ _ _ _ Hr Hraw) as (B & _ & _).
  rewrite Htw in B.
  assert (H5 : (length (_gestureBuffer self) <= 5)%nat) by lia.
  destruct (stabilize_step (_gestureBuffer self) (_lastStableGesture self)
              raw H5 Hsw) as (S1 & _).
  cbv zeta in S1. rewrite <- B in S1.
  assert (Hl : (length (_gestureBuffer s') <= S (length (_gestureBuffer self)))%nat).
  { rewrite S1.
    destruct (push_bounded_shape 5 (_gestureBuffer self) raw ltac:(lia) H5)
      as [[-> _] | (_ & E & _)]; [rewrite length_app; cbn; lia | lia]. }
  exists s', out, raw. repeat split; auto.
  - intros h. pose proof (occurrences_le_length (_gestureBuffer s') h). lia.
  - apply IH; [lia | exact Hrest].
Qed.

(** C10.  The hand-loss reset empties the stabilization buffer but keeps the
    last stable label.  After one or more frames without hands (each of which
    outputs none), every following frame with hands outputs the label that
    was stable before the loss, as long as the twist-pose flag is inactive,
    no swipe fires and no raw label has reached 3 occurrences in the buffer;
    on the first two frames after reacquisition no label can have. *)
Theorem stale_label_after_hand_loss (self : GestureRecognizer)
    (lost back : list Frame) :
  lost <> [] ->
  Forall (fun fr => present_hands (fr_results fr) = []) lost ->
  exists s0 outs0,
    run' self lost = Some (s0, outs0) /\
    Forall (fun o => gesture o = none) outs0 /\
    _gestureBuffer s0 = [] /\
    _lastStableGesture s0 = _lastStableGesture self /\
    (steady_run Math_sqrt Math_atan2 no_majority s0 back ->
     exists s1 outs,
       run' s0 back = Some (s1, outs) /\
       length outs = length back /\
       Forall (fun o => gesture o = _lastStableGesture self) outs) /\
    ((length back <= 2)%nat ->
     steady_run Math_sqrt Math_atan2 (fun _ => True) s0 back ->
     steady_run Math_sqrt Math_atan2 no_majority s0 back).
Proof.
  intros Hne Hlost.
  destruct (run_no_hands lost Hlost self) as (s0 & outs0 & R & F & L & B).
  specialize (B (or_introl Hne)).
  exists s0, outs0. repeat split; auto.
  - intros Hs. rewrite <- L. apply steady_run_stale; [rewrite B; cbn; lia | exact Hs].
  - intros Hlen Hs. apply steady_run_short; [rewrite B; cbn; lia | exact Hs].
Qed.

(** *** Confidence *)

Hypothesis sqrt_nonneg : forall x : Q, 0 <= Math_sqrt x.

Lemma quotient_nonneg (a b : Q) : 0 <= a -> 0 < b -> 0 <= a / b.
Proof. intros Ha Hb. apply Qle_shift_div_l; [exact Hb | lra]. Qed.

Lemma clamp_bounds (v lo hi : Q) : lo <= hi -> lo <= clamp v lo hi <= hi.
Proof. intros H. unfold clamp. num_cases; lra. Qed.

Lemma getPalmSize_positive (lm : Hand) (p : Q) :
  getPalmSize Math_sqrt lm = Some p -> 0 < p.
Proof.
  unfold getPalmSize, bind.
  destruct (at_index lm WRIST) as [w|]; [|discriminate].
  destruct (at_index lm MIDDLE_MCP) as [m|]; [|discriminate].
  intros H. injection H as <-.
  pose proof (sqrt_nonneg (sq (p_x w - p_x m) + sq (p_y w - p_y m)
                           + sq (p_z w - p_z m))) as Hd.
  fold (dist Math_sqrt w m) in Hd.
  destruct (Qeq_bool (dist Math_sqrt w m) 0) eqn:E; [reflexivity|].
  apply Qeq_bool_neq in E.
  destruct (Qlt_le_dec 0 (dist Math_sqrt w m)) as [H|H]; [exact H|].
  exfalso. apply E. lra.
Qed.

Lemma features_bounds (lm : Hand) (f : Features) :
  features' lm = Some f ->
  0 <= f_pinchDist f /\ 0 <= f_twistPoseScore f <= 1.
Proof.
  unfold features, bind.
  destruct (getPalmSize Math_sqrt lm) as [palmSize|] eqn:Ep; [|discriminate].
  apply getPalmSize_positive in Ep.
  repeat match goal with
  | |- match ?x with Some _ => _ | None => _ end = _ -> _ =>
      destruct x; [|discriminate]
  end.
  intros H. injection H as <-. cbn [f_pinchDist f_twistPoseScore]. split.
  - apply quotient_nonneg; [apply sqrt_nonneg | exact Ep].
  - apply clamp_bounds. lra.
Qed.

Ltac const_bounds :=
  split; vm_compute; let Hcmp := fresh "Hcmp" in intros Hcmp; discriminate Hcmp.

Lemma classify_single_confidence (f : Features) (active : bool) (g : Gesture)
    (q : Q) :
  0 <= f_pinchDist f -> 0 <= f_twistPoseScore f <= 1 ->
  classify_single f active = (g, Some q) -> 0 <= q <= 1.
Proof.
  intros Hp Hs. unfold classify_single, extendedCount.
  destruct (Num.ltb (f_pinchDist f) 0.35 && Num.gtb (f_middleCurl f) 0.3).
  - intros H. injection H as _ <-.
    pose proof (quotient_nonneg (f_pinchDist f) 0.35 Hp ltac:(reflexivity)).
    num_cases; lra.
  - destruct (f_thumbExt f), (indexExtended f), (middleExtended f),
      (ringExtended f), (pinkyExtended f), active; cbn;
      intros H;
      first [ discriminate H
            | injection H as _ <-; first [exact Hs | const_bounds] ].
Qed.

Lemma classify_confidence (self : GestureRecognizer) (lm : Hand)
    (others : list Hand) (now now_swipe : Z) (c : Classified) :
  classify' self lm others now now_swipe = Some c ->
  0 <= confidence (c_output c) <= 1.
Proof.
  unfold classify, bind.
  destruct (features' lm) as [f|] eqn:Ef; [|discriminate].
  destruct (features_bounds lm f Ef) as [Hp Hs].
  destruct (palm_step _ _ _ now) as [pDelta history].
  destruct (two_hand_step _ _ lm others) as [[[[smooth twoDist] twoDelta] early]|]
    eqn:E2; [|discriminate].
  destruct early.
  - intros H. injection H as <-. cbn [c_output set_confidence confidence].
    unfold two_hand_step, bind in E2.
    num_cases; lra.
  - pose proof (classify_single_confidence f
        (twist_hysteresis (_twistPoseActive self) (f_twistPoseScore f))) as Hc.
    destruct (classify_single f _) as [rawGesture conf].
    destruct (_detectSwipe history (_lastSwipeTime self) now_swipe)
      as [[history' lastSwipe] [s|]];
      intros H; injection H as <-; cbn [c_output].
    + cbn. const_bounds.
    + destruct conf as [q|]; cbn; [|const_bounds].
      apply (Hc rawGesture q Hp Hs). reflexivity.
Qed.

(** C9.  Whenever [recognize] returns a sample, its confidence lies in
    [0, 1], whatever the frame and the recognizer state: 0 without hands,
    min(1, 15 * |delta|) for spread and squeeze, max(0, 1 - pinchDist / 0.35)
    for pinch, 1 - n / 5 with n <= 1 for fist, the clamped score for
    twist_pose, 0.9 for point, n / 5 with 3 <= n <= 5 for open_palm, 0.85
    for a swipe, and 0 when no rule matches. *)
Theorem confidence_in_unit_interval (self self' : GestureRecognizer)
    (results : option Results) (now now_swipe : Z) (out : GestureSample) :
  recognize' self results now now_swipe = Some (self', out) ->
  0 <= confidence out <= 1.
Proof.
  intros Hr.
  destruct (present_hands results) as [|lm others] eqn:Ep.
  - unfold recognize in Hr. rewrite Ep in Hr. injection Hr as _ <-.
    const_bounds.
  - assert (Hp : present_hands results <> []) by (rewrite Ep; discriminate).
    destruct (recognize_hands _ _ _ _ _ _ Hp Hr) as (lm' & others' & c & _ & Hc & Hs).
    pose proof (stabilize_call_fields c) as (_ & _ & _ & _ & _ & _ & S7 & _).
    rewrite Hs in S7. cbn [snd] in S7. rewrite S7.
    apply (classify_confidence _ _ _ _ _ _ Hc).
Qed.

End RecognizerFacts.

(** ** The recognizer on concrete frames *)

Lemma sqrt_4dp_nonneg (x : Q) : 0 <= sqrt_4dp x.
Proof.
  unfold sqrt_4dp, Qle. cbn. rewrite Z.mul_1_r. apply Z.sqrt_nonneg.
Qed.

Lemma recognize_no_hands_witness :
  exists self' out,
    recognize sqrt_4dp atan2_quadrant (mid_sweep 0)
      (Some {| landmarks := Some [] |}) 1160 1160 = Some (self', out) /\
    gesture out = none /\ _palmHistory self' = [] /\ _gestureBuffer self' = [].
Proof.
  destruct (recognize_no_hands sqrt_4dp atan2_quadrant (mid_sweep 0)
              (Some {| landmarks := Some [] |}) 1160 1160)
    as (s & o & H);
    [right; eexists; split; [reflexivity | right; reflexivity]|].
  exists s, o. tauto.
Defined.

(** The open hand scores 0.68, above the enter threshold. *)
Lemma twist_pose_hysteresis_witness :
  match recognize sqrt_4dp atan2_quadrant new_GestureRecognizer
          (Some {| landmarks := Some [open_hand] |}) 1000 1000 with
  | Some (self', out) => _twistPoseActive self' = true
  | None => False
  end.
Proof.
  destruct (recognize sqrt_4dp atan2_quadrant new_GestureRecognizer
              (Some {| landmarks := Some [open_hand] |}) 1000 1000)
    as [[self' out]|] eqn:E.
  - pose proof E as E'. vm_compute in E'. injection E' as _ Eo.
    refine (proj1 (proj2 (proj1 (twist_pose_hysteresis sqrt_4dp atan2_quadrant)
              _ _ _ _ _ _ _ E)) _).
    + discriminate.
    + rewrite <- Eo. vm_compute. discriminate.
  - vm_compute in E. discriminate E.
Defined.

(** The fifth frame of a sweep to the right fires a swipe. *)
Lemma swipe_refractory_witness :
  let fr := frame_of [shift_hand 0.24 index_folded_hand] 1160 in
  match recognize sqrt_4dp atan2_quadrant (mid_sweep 0) (fr_results fr)
          (fr_now fr) (fr_now_swipe fr) with
  | Some (self', out) =>
      _palmHistory self' = [] /\ _lastSwipeTime self' = 1160%Z /\
      is_swipe (gesture out) = true
  | None => False
  end.
Proof.
  intros fr.
  destruct (recognize sqrt_4dp atan2_quadrant (mid_sweep 0) (fr_results fr)
              (fr_now fr) (fr_now_swipe fr)) as [[self' out]|] eqn:E.
  - destruct (proj2 (swipe_refractory sqrt_4dp atan2_quadrant (mid_sweep 0) [])
                fr self' out E) as (A & B & C & _);
      [vm_compute; reflexivity | auto].
  - vm_compute in E. discriminate E.
Defined.

(** The same motion 500 ms after the last swipe fires nothing; 700 ms after
    it, it does. *)
Example swipe_cooldown_scenario :
  let fr := frame_of [shift_hand 0.24 index_folded_hand] 1160 in
  swipe_fired sqrt_4dp atan2_quadrant (mid_sweep 660) fr = false /\
  swipe_fired sqrt_4dp atan2_quadrant (mid_sweep 461) fr = false /\
  swipe_fired sqrt_4dp atan2_quadrant (mid_sweep 460) fr = true.
Proof. vm_compute. repeat split. Qed.

Lemma confidence_in_unit_interval_witness :
  match recognize sqrt_4dp atan2_quadrant new_GestureRecognizer
          (Some {| landmarks := Some [closed_hand] |}) 1000 1000 with
  | Some (_, out) => 0 <= confidence out <= 1
  | None => False
  end.
Proof.
  destruct (recognize sqrt_4dp atan2_quadrant new_GestureRecognizer
              (Some {| landmarks := Some [closed_hand] |}) 1000 1000)
    as [[self' out]|] eqn:E.
  - exact (confidence_in_unit_interval sqrt_4dp atan2_quadrant sqrt_4dp_nonneg
             _ _ _ _ _ _ E).
  - vm_compute in E. discriminate E.
Defined.

(** The hand is lost for one frame while open_palm is the stable label; the
    two frames of a fist that follow still output open_palm. *)
Lemma stale_label_after_hand_loss_witness :
  exists s0 outs0 s1 outs,
    run sqrt_4dp atan2_quadrant (mid_sweep 0) [frame_of [] 1160]
      = Some (s0, outs0) /\
    run sqrt_4dp atan2_quadrant s0
      [frame_of [closed_hand] 1200; frame_of [closed_hand] 1240]
      = Some (s1, outs) /\
    map gesture outs0 = [none] /\
    map gesture outs = [open_palm; open_palm].
Proof.
  destruct (stale_label_after_hand_loss sqrt_4dp atan2_quadrant (mid_sweep 0)
              [frame_of [] 1160]
              [frame_of [closed_hand] 1200; frame_of [closed_hand] 1240]
              ltac:(discriminate) ltac:(repeat constructor))
    as (s0 & outs0 & R & F & B & L & Hstale & Hshort).
  assert (Hs : steady_run sqrt_4dp atan2_quadrant (fun _ => True) s0
                 [frame_of [closed_hand] 1200; frame_of [closed_hand] 1240]).
  { pose proof R as R'. vm_compute in R'. injection R' as <- _.
    cbn [steady_run].
    do 3 eexists. split; [vm_compute; reflexivity|].
    split; [vm_compute; reflexivity|].
    split; [reflexivity|]. split; [reflexivity|]. split; [exact I|].
    do 3 eexists. split; [vm_compute; reflexivity|].
    split; [vm_compute; reflexivity|].
    split; [reflexivity|]. split; [reflexivity|]. split; [exact I|]. exact I. }
  destruct (Hstale (Hshort ltac:(cbn; lia) Hs)) as (s1 & outs & R1 & Ln & Fo).
  exists s0, outs0, s1, outs. split; [exact R|]. split; [exact R1|].
  split.
  - pose proof R as R'. vm_compute in R'. injection R' as _ <-. reflexivity.
  - destruct outs as [|o1 [|o2 [|o3 rest]]]; try discriminate Ln.
    inversion Fo as [|? ? E1 Fo']; subst. inversion Fo' as [|? ? E2 _]; subst.
    cbn [map]. rewrite E1, E2. reflexivity.
Defined.

(** The scenario of C10 run on the recognizer: three fist frames make fist
    the stable label, a frame without hands outputs none, and the first two
    frames of an open palm still output fist. *)
Example stale_label_scenario :
  run_labels sqrt_4dp atan2_quadrant new_GestureRecognizer
    [ frame_of [closed_hand] 1000; frame_of [closed_hand] 1050;
      frame_of [closed_hand] 1100; frame_of [] 1150;
      frame_of [index_folded_hand] 1200; frame_of [index_folded_hand] 1250;
      frame_of [index_folded_hand] 1300 ]
  = Some [none; none; fist; none; fist; fist; open_palm].
Proof. vm_compute. reflexivity. Qed.

(** A swipe label that is still the last stable label is output again on the
    next frame when the buffer holds no majority, although [_detectSwipe] did
    not fire on that frame. *)
Remark stale_swipe_label_repeats :
  _stabilize [none; point; open_palm; fist; swipe_right] swipe_right false none
  = ([point; open_palm; fist; swipe_right; none], swipe_right).
Proof. reflexivity. Qed.

(** C6.  The samples of the recognizer carry swipe labels less than 700 ms
    apart.  A hand sweeps right for five frames, leaves the picture for one
    frame and is back at rest: [_detectSwipe] fires once, at 1160 ms, but the
    samples of the frames at 1240 and 1280 ms carry swipe_right again, 80 and
    120 ms later, because the hand-loss reset empties the buffer and keeps
    the last stable label, which [_stabilize] returns until a label reaches
    three occurrences.  The controller, which does not debounce swipes,
    calls [selectNext] on each of the three frames. *)
Theorem swipe_emitted_within_cooldown :
  exists self' outs,
    run sqrt_4dp atan2_quadrant new_GestureRecognizer swipe_then_hand_loss
      = Some (self', outs) /\
    map gesture outs
      = [none; none; open_palm; open_palm; swipe_right; none; swipe_right;
         swipe_right; open_palm] /\
    swipe_times sqrt_4dp atan2_quadrant new_GestureRecognizer
      swipe_then_hand_loss = [1160%Z] /\
    emitted_swipe_times swipe_then_hand_loss outs
      = [1160%Z; 1240%Z; 1280%Z] /\
    ~ spaced 700 (_lastSwipeTime new_GestureRecognizer)
        (emitted_swipe_times swipe_then_hand_loss outs) /\
    snd (feed_controller swipe_then_hand_loss outs)
      = [0; 0; 0; 0; 1; 0; 1; 1; 0]%nat /\
    selectedIndex (brain (fst (feed_controller swipe_then_hand_loss outs)))
      = 2%Z.
Proof.
  destruct (run sqrt_4dp atan2_quadrant new_GestureRecognizer
              swipe_then_hand_loss) as [[self' outs]|] eqn:E;
    vm_compute in E; [|discriminate E].
  injection E as <- <-. do 2 eexists. split; [reflexivity|].
  split; [vm_compute; reflexivity|].
  split; [vm_compute; reflexivity|].
  split; [vm_compute; reflexivity|].
  split; [|split; vm_compute; reflexivity].
  intros H. vm_compute in H. destruct H as (_ & H & _). apply H. reflexivity.
Qed.

(** * Further properties of the recognizer *)

Section RecognizerMore.

Variable Math_sqrt : Q -> Q.
Variable Math_atan2 : Q -> Q -> Q.

Local Abbreviation classify' := (classify Math_sqrt Math_atan2).
Local Abbreviation recognize' := (recognize Math_sqrt Math_atan2).
Local Abbreviation features' := (features Math_sqrt Math_atan2).
Local Abbreviation run' := (run Math_sqrt Math_atan2).

(** *** When [recognize] throws *)

Ltac bind_cases :=
  repeat match goal with
  | |- context [match ?x with Some _ => _ | None => _ end] =>
      destruct x; try reflexivity
  | |- context [if ?b then _ else _] => destruct b; try reflexivity
  end.

Lemma features_short (lm : Hand) :
  (length lm < 21)%nat -> features' lm = None.
Proof.
  intros H.
  assert (E : at_index lm PINKY_TIP = None)
    by (apply nth_error_None; unfold PINKY_TIP; lia).
  unfold features, bind.
  assert (Ec : getFingerCurl Math_sqrt lm PINKY_PIP PINKY_TIP = None)
    by (unfold getFingerCurl, bind; rewrite E; reflexivity).
  rewrite Ec. bind_cases.
Qed.

Lemma features_full (lm : Hand) :
  (21 <= length lm)%nat -> exists f, features' lm = Some f.
Proof.
  intros H.
  do 21 (destruct lm as [|? lm]; [cbn in H; lia|]). clear H.
  unfold features, getPalmSize, getFingerCurl, isThumbExtended, bind, at_index.
  cbn [nth_error WRIST THUMB_CMC THUMB_TIP INDEX_MCP INDEX_PIP INDEX_TIP
       MIDDLE_MCP MIDDLE_PIP MIDDLE_TIP RING_PIP RING_TIP PINKY_MCP PINKY_PIP
       PINKY_TIP].
  repeat match goal with
  | |- context [if Num.ltb ?a 0.001 then Some 0 else _] =>
      destruct (Num.ltb a 0.001)
  end; eexists; reflexivity.
Qed.

Lemma two_hand_step_throws (smooth : option Q) (lm : Hand) (others : list Hand) :
  lm <> [] ->
  (two_hand_step Math_sqrt smooth lm others = None <->
   exists rest, others = [] :: rest).
Proof.
  intros Hlm. destruct lm as [|w lm]; [congruence|].
  unfold two_hand_step, bind, at_index. cbn [nth_error WRIST].
  destruct others as [|[|w2 lm2] rest]; cbn [nth_error].
  - split; [discriminate | intros [? ?]; discriminate].
  - split; [intros _; eexists; reflexivity | reflexivity].
  - destruct smooth; (split; [discriminate | intros [? ?]; discriminate]).
Qed.

(** X1.  [recognize] throws exactly when the primary hand has fewer than 21
    landmarks or a second hand is present and has none; hands beyond the
    second are never read. *)
Theorem recognize_throws_iff (self : GestureRecognizer)
    (results : option Results) (now now_swipe : Z) :
  recognize' self results now now_swipe = None <->
  exists lm others,
    present_hands results = lm :: others /\
    ((length lm < 21)%nat \/ exists rest, others = [] :: rest).
Proof.
  unfold recognize, bind.
  destruct (present_hands results) as [|lm others].
  - split; [discriminate | intros (? & ? & ? & _); discriminate].
  - destruct (Nat.lt_ge_cases (length lm) 21) as [Hs|Hl].
    + unfold classify, bind. rewrite (features_short lm Hs).
      split; [|reflexivity]. intros _. exists lm, others. auto.
    + destruct (features_full lm Hl) as [f Hf].
      assert (Hne : lm <> []) by (destruct lm; [cbn in Hl; lia | discriminate]).
      pose proof (two_hand_step_throws (_smoothTwoHandDist self) lm others Hne)
        as Ht.
      unfold classify, bind. rewrite Hf.
      destruct (palm_step _ _ _ now) as [pDelta history].
      destruct (two_hand_step _ _ lm others)
        as [[[[smooth twoDist] twoDelta] early]|].
      * split.
        -- destruct early; [discriminate|].
           destruct (classify_single f _) as [raw conf].
           destruct (_detectSwipe _ _ _) as [[h l] [s|]]; discriminate.
        -- intros (lm' & others' & E & [Hs | Hr]).
           ++ injection E as <- <-. lia.
           ++ injection E as <- <-. apply Ht in Hr. discriminate.
      * split; [|reflexivity]. intros _. exists lm, others.
        split; [reflexivity|]. right. apply Ht. reflexivity.
Qed.

(** *** Bounded buffers *)

Lemma angle_step_length (self : GestureRecognizer) (f : Features) :
  (length (_angleDeltaHistory self) <= 7)%nat ->
  (length (a_angleDeltaHistory (angle_step Math_sqrt self f)) <= 7)%nat.
Proof.
  intros H. unfold angle_step.
  destruct (_prevHandAngle self); cbn [a_angleDeltaHistory]; [|exact H].
  apply push_bounded_length; [lia | exact H].
Qed.

Lemma classify_bounded (self : GestureRecognizer) (lm : Hand)
    (others : list Hand) (now now_swipe : Z) (c : Classified) :
  classify' self lm others now now_swipe = Some c ->
  bounded self -> bounded (c_self c).
Proof.
  unfold bounded. intros Hc (B1 & B2 & B3).
  destruct (classify_fields _ _ _ _ _ _ _ _ Hc) as (f & Hf & _ & _ & _ & F5 & _).
  rewrite F5. revert Hc. unfold classify, bind, palm_step. rewrite Hf.
  pose proof (angle_step_length self f B2) as Ha.
  pose proof (push_bounded_length 20 (_palmHistory self)
                {| e_x := f_palmX f; e_y := f_palmY f; e_time := now |}
                ltac:(lia) B1) as Hp.
  destruct (two_hand_step _ _ lm others)
    as [[[[smooth twoDist] twoDelta] early]|]; [|discriminate].
  destruct early.
  - intros H. injection H as <-. cbn. auto.
  - destruct (classify_single f _) as [raw conf].
    destruct (detectSwipe_cases
                (push_bounded 20 (_palmHistory self)
                   {| e_x := f_palmX f; e_y := f_palmY f; e_time := now |})
                (_lastSwipeTime self) now_swipe)
      as [-> | (g & -> & _)];
      intros H; injection H as <-; cbn; repeat split; auto; lia.
Qed.

Lemma stabilize_buffer (buffer : list Gesture) (lastStable : Gesture)
    (twist : bool) (raw : Gesture) :
  fst (_stabilize buffer lastStable twist raw) = push_bounded 5 buffer raw.
Proof.
  unfold _stabilize, STABILITY_BUFFER_SIZE. destruct (most_common _).
  reflexivity.
Qed.

Lemma recognize_bounded (self self' : GestureRecognizer)
    (results : option Results) (now now_swipe : Z) (out : GestureSample) :
  recognize' self results now now_swipe = Some (self', out) ->
  bounded self -> bounded self'.
Proof.
  intros Hr Hb.
  destruct (present_hands results) as [|lm others] eqn:Ep.
  - unfold recognize in Hr. rewrite Ep in Hr. injection Hr as <- _.
    unfold bounded. cbn. lia.
  - assert (Hp : present_hands results <> []) by (rewrite Ep; discriminate).
    destruct (recognize_hands _ _ _ _ _ _ _ _ Hp Hr)
      as (lm' & others' & c & _ & Hc & Hs).
    destruct (classify_bounded _ _ _ _ _ _ Hc Hb) as (C1 & C2 & C3).
    unfold stabilize_call in Hs.
    pose proof (stabilize_buffer (_gestureBuffer (c_self c))
                  (_lastStableGesture (c_self c))
                  (_twistPoseActive (c_self c)) (c_rawGesture c)) as Hbuf.
    destruct (_stabilize _ _ _ _) as [buffer g].
    injection Hs as <- _. cbn [fst] in Hbuf. subst buffer.
    unfold bounded. cbn. repeat split; auto.
    apply push_bounded_length; [lia | exact C3].
Qed.

(** X2.  The palm history never holds more than 20 entries, the angle-delta
    history never more than 7 and the stabilization buffer never more than 5:
    every run of [recognize] that starts within these bounds (as the
    constructor does) ends within them. *)
Theorem buffers_stay_bounded (frames : list Frame) :
  forall (self self' : GestureRecognizer) (outs : list GestureSample),
  bounded self ->
  run' self frames = Some (self', outs) ->
  bounded self' /\ bounded new_GestureRecognizer.
Proof.
  induction frames as [|fr rest IH]; intros self self' outs Hb Hrun.
  - cbn in Hrun. injection Hrun as <- _. split; [exact Hb|].
    unfold bounded. cbn. lia.
  - cbn [run] in Hrun. unfold bind in Hrun.
    destruct (recognize' self _ _ _) as [[s1 o1]|] eqn:Er; [|discriminate].
    cbn [fst snd] in Hrun.
    destruct (run' s1 rest) as [[s2 os]|] eqn:Er2; [|discriminate].
    cbn [fst snd] in Hrun. injection Hrun as <- _.
    apply (IH s1 s2 os); [|exact Er2].
    apply (recognize_bounded _ _ _ _ _ _ Er Hb).
Qed.

(** *** Finger curls and score *)

Lemma getFingerCurl_bounds (lm : Hand) (pipIdx tipIdx : nat) (q : Q) :
  getFingerCurl Math_sqrt lm pipIdx tipIdx = Some q -> 0 <= q <= 1.
Proof.
  unfold getFingerCurl, bind.
  destruct (at_index lm tipIdx); [|discriminate].
  destruct (at_index lm WRIST); [|discriminate].
  destruct (at_index lm pipIdx); [|discriminate].
  destruct (Num.ltb _ 0.001); intros H; injection H as <-.
  - split; discriminate.
  - num_cases; lra.
Qed.

Lemma twist_score_bounds (t : bool) (i m r p d : Q) :
  0 <= twist_score t i m r p d <= 1.
Proof. unfold twist_score. apply clamp_bounds. lra. Qed.

Lemma features_curls (lm : Hand) (f : Features) :
  features' lm = Some f ->
  0 <= f_indexCurl f <= 1 /\ 0 <= f_middleCurl f <= 1 /\
  0 <= f_ringCurl f <= 1 /\ 0 <= f_pinkyCurl f <= 1 /\
  0 <= f_twistPoseScore f <= 1.
Proof.
  unfold features, bind.
  destruct (getPalmSize Math_sqrt lm); [|discriminate].
  destruct (at_index lm WRIST); [|discriminate].
  destruct (at_index lm INDEX_MCP); [|discriminate].
  destruct (at_index lm PINKY_MCP); [|discriminate].
  destruct (getFingerCurl Math_sqrt lm INDEX_PIP INDEX_TIP) eqn:E1; [|discriminate].
  destruct (getFingerCurl Math_sqrt lm MIDDLE_PIP MIDDLE_TIP) eqn:E2; [|discriminate].
  destruct (getFingerCurl Math_sqrt lm RING_PIP RING_TIP) eqn:E3; [|discriminate].
  destruct (getFingerCurl Math_sqrt lm PINKY_PIP PINKY_TIP) eqn:E4; [|discriminate].
  destruct (isThumbExtended Math_sqrt lm); [|discriminate].
  destruct (at_index lm THUMB_TIP); [|discriminate].
  destruct (at_index lm INDEX_TIP); [|discriminate].
  intros H. injection H as <-. cbn.
  apply getFingerCurl_bounds in E1, E2, E3, E4.
  repeat split; try tauto; apply twist_score_bounds.
Qed.

(** The parts of the sample that [classify] copies from the features, the
    palm history and the two filters. *)
Lemma classify_output (self : GestureRecognizer) (lm : Hand)
    (others : list Hand) (now now_swipe : Z) (c : Classified) :
  classify' self lm others now now_swipe = Some c ->
  exists f,
    features' lm = Some f /\
    fingerCurls (c_output c)
      = Some {| fc_index := f_indexCurl f; fc_middle := f_middleCurl f;
                fc_ring := f_ringCurl f; fc_pinky := f_pinkyCurl f;
                fc_thumbExtended := f_thumbExt f |} /\
    handAngleDelta (c_output c)
      = a_handAngleDelta (angle_step Math_sqrt self f) /\
    rawHandAngleDelta (c_output c)
      = a_rawHandAngleDelta (angle_step Math_sqrt self f) /\
    palmDelta (c_output c)
      = fst (palm_step (_palmHistory self) (f_palmX f) (f_palmY f) now) /\
    handPosition (c_output c) = Some (f_palmX f, f_palmY f).
Proof.
  unfold classify, bind.
  destruct (features' lm) as [f|]; [|discriminate].
  destruct (palm_step _ _ _ now) as [pDelta history] eqn:Epalm.
  destruct (two_hand_step _ _ lm others)
    as [[[[smooth twoDist] twoDelta] early]|]; [|discriminate].
  destruct early.
  - intros H. injection H as <-. exists f. rewrite Epalm. cbn. repeat split.
  - destruct (classify_single f _) as [raw conf].
    destruct (_detectSwipe _ _ _) as [[h l] [s|]];
      intros H; injection H as <-; exists f; rewrite Epalm;
      destruct conf; cbn; repeat split.
Qed.

Lemma stabilize_call_output (c : Classified) :
  fingerCurls (snd (stabilize_call c)) = fingerCurls (c_output c) /\
  handAngleDelta (snd (stabilize_call c)) = handAngleDelta (c_output c) /\
  rawHandAngleDelta (snd (stabilize_call c)) = rawHandAngleDelta (c_output c) /\
  palmDelta (snd (stabilize_call c)) = palmDelta (c_output c) /\
  twoHandDelta (snd (stabilize_call c)) = twoHandDelta (c_output c) /\
  twoHandDistance (snd (stabilize_call c)) = twoHandDistance (c_output c).
Proof.
  unfold stabilize_call. destruct (_stabilize _ _ _ _). cbn. repeat split.
Qed.

(** X3.  Every finger curl a sample reports lies in [0, 1], and so does its
    twist-pose score, whatever the landmarks and whatever [Math.sqrt]
    returns. *)
Theorem curls_and_score_in_unit_interval (self self' : GestureRecognizer)
    (results : option Results) (now now_swipe : Z) (out : GestureSample) :
  recognize' self results now now_swipe = Some (self', out) ->
  0 <= twistPoseScore out <= 1 /\
  forall fc, fingerCurls out = Some fc ->
    0 <= fc_index fc <= 1 /\ 0 <= fc_middle fc <= 1 /\
    0 <= fc_ring fc <= 1 /\ 0 <= fc_pinky fc <= 1.
Proof.
  intros Hr.
  destruct (present_hands results) as [|lm others] eqn:Ep.
  - unfold recognize in Hr. rewrite Ep in Hr. injection Hr as _ <-.
    split; [split; discriminate | discriminate].
  - assert (Hp : present_hands results <> []) by (rewrite Ep; discriminate).
    destruct (recognize_hands _ _ _ _ _ _ _ _ Hp Hr)
      as (lm' & others' & c & _ & Hc & Hs).
    destruct (classify_output _ _ _ _ _ _ Hc) as (f & Hf & O1 & _).
    destruct (classify_fields _ _ _ _ _ _ _ _ Hc) as (f' & Hf' & _ & _ & F3 & _).
    rewrite Hf in Hf'. injection Hf' as <-.
    destruct (features_curls lm' f Hf) as (B1 & B2 & B3 & B4 & B5).
    pose proof (stabilize_call_output c) as (S1 & _).
    pose proof (stabilize_call_fields c) as (_ & _ & _ & _ & _ & _ & _ & S8 & _).
    rewrite Hs in *. cbn [snd] in *. rewrite S8, F3. split; [exact B5|].
    intros fc Hfc. rewrite S1, O1 in Hfc. injection Hfc as <-. cbn. auto.
Qed.

(** *** Hands and labels *)

(** X4.  The sample counts the hands of the frame, and a label other than
    none is only ever reported with at least one hand detected: what the
    controller's no-hands test sees is consistent with the label. *)
Theorem label_needs_hands (self self' : GestureRecognizer)
    (results : option Results) (now now_swipe : Z) (out : GestureSample) :
  recognize' self results now now_swipe = Some (self', out) ->
  handsDetected out = length (present_hands results) /\
  (gesture out <> none -> handsDetected out <> 0%nat).
Proof.
  intros Hr.
  destruct (present_hands results) as [|lm others] eqn:Ep.
  - unfold recognize in Hr. rewrite Ep in Hr. injection Hr as _ <-.
    cbn. split; [reflexivity | congruence].
  - assert (Hp : present_hands results <> []) by (rewrite Ep; discriminate).
    destruct (recognize_hands _ _ _ _ _ _ _ _ Hp Hr)
      as (lm' & others' & c & E & Hc & Hs).
    rewrite Ep in E. injection E as <- <-.
    destruct (classify_fields _ _ _ _ _ _ _ _ Hc)
      as (f & _ & _ & _ & _ & _ & _ & F7 & _).
    pose proof (stabilize_call_fields c)
      as (_ & _ & _ & _ & _ & _ & _ & _ & _ & S10).
    rewrite Hs in S10. cbn [snd] in S10. rewrite S10, F7. cbn.
    split; [reflexivity | discriminate].
Qed.

(** *** The two-hand signal *)

Lemma classify_single_one_hand_label (f : Features) (active : bool) :
  fst (classify_single f active) <> spread /\
  fst (classify_single f active) <> squeeze.
Proof.
  unfold classify_single.
  repeat match goal with
  | |- context [if ?b then _ else _] => destruct b
  end; split; discriminate.
Qed.

Lemma classify_two_hand (self : GestureRecognizer) (lm : Hand)
    (others : list Hand) (now now_swipe : Z) (c : Classified) :
  classify' self lm others now now_swipe = Some c ->
  (others = [] -> _smoothTwoHandDist (c_self c) = None) /\
  (_smoothTwoHandDist self = None \/ others = [] ->
   twoHandDelta (c_output c) = 0 /\
   c_rawGesture c <> spread /\ c_rawGesture c <> squeeze).
Proof.
  unfold classify, bind.
  destruct (features' lm) as [f|]; [|discriminate].
  destruct (palm_step _ _ _ now) as [pDelta history].
  destruct (two_hand_step _ _ lm others)
    as [[[[smooth twoDist] twoDelta] early]|] eqn:E2; [|discriminate].
  assert (H2 : (others = [] -> smooth = None) /\
               (_smoothTwoHandDist self = None \/ others = [] ->
                twoDelta = 0 /\ early = false)).
  { revert E2. unfold two_hand_step, bind.
    destruct others as [|lm2 rest].
    - intros H. injection H as <- <- <- <-. auto.
    - destruct (at_index lm WRIST); [|discriminate].
      destruct (at_index lm2 WRIST); [|discriminate].
      destruct (_smoothTwoHandDist self) as [prev|].
      + intros _. split; [discriminate|]. intros [H|H]; discriminate.
      + intros H. injection H as <- <- <- <-.
        split; [discriminate|]. auto. }
  destruct H2 as [Ha Hb].
  destruct early.
  - intros H. injection H as <-. cbn. split; [exact Ha|].
    intros Hn. destruct (Hb Hn) as [_ Hf]. discriminate.
  - pose proof (classify_single_one_hand_label f
        (twist_hysteresis (_twistPoseActive self) (f_twistPoseScore f)))
      as [N1 N2].
    destruct (classify_single f _) as [raw conf]. cbn [fst] in N1, N2.
    destruct (detectSwipe_cases history (_lastSwipeTime self) now_swipe)
      as [-> | (g & -> & Hg & _)];
      intros H; injection H as <-; destruct conf; cbn;
      (split; [exact Ha|]); intros Hn; destruct (Hb Hn) as [-> _];
      repeat split; auto;
      intros ->; discriminate.
Qed.

(** X5.  The raw label is spread or squeeze only on a frame with two hands
    whose smoothing state was initialised by an earlier two-hand frame: a
    frame with fewer than two hands resets the smoothing state, and the frame
    after it can be neither. *)
Theorem spread_needs_two_frames (self s0 : GestureRecognizer)
    (results : option Results) (now now_swipe : Z) (o0 : GestureSample)
    (fr : Frame) :
  recognize' self results now now_swipe = Some (s0, o0) ->
  (length (present_hands results) < 2)%nat ->
  _smoothTwoHandDist s0 = None /\
  raw_label Math_sqrt Math_atan2 s0 fr <> Some spread /\
  raw_label Math_sqrt Math_atan2 s0 fr <> Some squeeze.
Proof.
  intros Hr Hlen.
  assert (Hs0 : _smoothTwoHandDist s0 = None).
  { destruct (present_hands results) as [|lm others] eqn:Ep.
    - unfold recognize in Hr. rewrite Ep in Hr. injection Hr as <- _.
      reflexivity.
    - assert (Hp : present_hands results <> []) by (rewrite Ep; discriminate).
      destruct (recognize_hands _ _ _ _ _ _ _ _ Hp Hr)
        as (lm' & others' & c & E & Hc & Hs).
      rewrite Ep in E. injection E as <- <-.
      destruct others; [|cbn in Hlen; lia].
      destruct (classify_two_hand _ _ _ _ _ _ Hc) as [Ha _].
      unfold stabilize_call in Hs. destruct (_stabilize _ _ _ _).
      injection Hs as <- _. cbn. apply Ha. reflexivity. }
  split; [exact Hs0|].
  unfold raw_label.
  destruct (present_hands (fr_results fr)) as [|lm others];
    [split; discriminate|].
  destruct (classify' s0 lm others _ _) as [c|] eqn:Hc;
    [|split; discriminate].
  destruct (classify_two_hand _ _ _ _ _ _ Hc) as [_ Hb].
  destruct (Hb (or_introl Hs0)) as (_ & N1 & N2).
  cbn. split; congruence.
Qed.

(** *** The first frame after a loss *)

(** X6.  On the frame that follows a frame without hands, the sample reports
    no palm delta, a zero hand-angle delta (raw and filtered) and a zero
    two-hand delta: reacquiring a hand never produces a jump. *)
Theorem no_jump_after_hand_loss (self s0 s1 : GestureRecognizer)
    (r0 r1 : option Results) (t0 t0' t1 t1' : Z) (o0 o1 : GestureSample) :
  present_hands r0 = [] ->
  recognize' self r0 t0 t0' = Some (s0, o0) ->
  recognize' s0 r1 t1 t1' = Some (s1, o1) ->
  palmDelta o1 = None /\ handAngleDelta o1 = 0 /\
  rawHandAngleDelta o1 = 0 /\ twoHandDelta o1 = 0.
Proof.
  intros H0 Hr0 Hr1.
  unfold recognize in Hr0. rewrite H0 in Hr0. injection Hr0 as <- _.
  destruct (present_hands r1) as [|lm others] eqn:Ep.
  - unfold recognize in Hr1. rewrite Ep in Hr1. injection Hr1 as _ <-.
    cbn. auto.
  - assert (Hp : present_hands r1 <> []) by (rewrite Ep; discriminate).
    destruct (recognize_hands _ _ _ _ _ _ _ _ Hp Hr1)
      as (lm' & others' & c & _ & Hc & Hs).
    destruct (classify_output _ _ _ _ _ _ Hc) as (f & _ & _ & O2 & O3 & O4 & _).
    destruct (classify_two_hand _ _ _ _ _ _ Hc) as [_ Hb].
    destruct (Hb (or_introl eq_refl)) as (T & _).
    pose proof (stabilize_call_output c) as (_ & S2 & S3 & S4 & S5 & _).
    rewrite Hs in *. cbn [snd] in *.
    rewrite S2, S3, S4, S5, O2, O3, O4, T. cbn. auto.
Qed.

End RecognizerMore.

(** ** The stabilizer's two exceptions *)

(** X7.  A raw swipe label is output at once, whatever the buffer and the
    twist flag; with the twist flag active every raw label outside the
    high-priority set is replaced by twist_pose; and for the other
    high-priority labels the twist flag changes nothing. *)
Theorem stabilize_overrides (buffer : list Gesture) (lastStable raw : Gesture)
    (twist : bool) :
  (is_swipe raw = true ->
   snd (_stabilize buffer lastStable twist raw) = raw) /\
  (twist = true -> includes highPriority raw = false ->
   snd (_stabilize buffer lastStable twist raw) = twist_pose) /\
  (includes highPriority raw = true ->
   snd (_stabilize buffer lastStable twist raw)
   = snd (_stabilize buffer lastStable false raw)).
Proof.
  unfold _stabilize. destruct (most_common _) as [best bc]. cbn [snd].
  repeat split.
  - intros H. destruct raw; try discriminate H; destruct twist; reflexivity.
  - intros -> H. rewrite H. reflexivity.
  - intros H. rewrite H. destruct twist; reflexivity.
Qed.

Lemma stabilize_overrides_witness :
  snd (_stabilize [fist; fist; fist; fist] fist true point) = twist_pose.
Proof.
  apply (proj1 (proj2 (stabilize_overrides [fist; fist; fist; fist] fist point
                         true))); reflexivity.
Defined.

(** * Further properties of the controller *)

(** A property every step of [update] preserves is preserved by [update]. *)
Lemma update_invariant (P : GestureControls -> Prop) (d : GestureSample)
    (now : Z) :
  (forall c, P c -> P (track_transition c (gesture d) now)) ->
  (forall c, P c -> P (with_lastActiveTime c now)) ->
  (forall c, P c -> P (_decayRotation c)) ->
  (forall c, P c -> P (clear_triggers c)) ->
  (forall c, P c -> P (with_brain c (setIdle (brain c) true))) ->
  (gesture d = pinch -> handsDetected d <> 0%nat ->
   forall c, P c -> P (fst (_handlePinch c now))) ->
  (forall c, P c -> P (fst (_handleRotation c d))) ->
  (forall c, P c -> P (fst (_handleFist c now))) ->
  (forall c dir, P c -> P (fst (_handleExpansion c d dir))) ->
  (forall c right, P c -> P (fst (_handleSwipe c right))) ->
  forall c, P c -> P (fst (update c d now)).
Proof.
  intros Ht Ha Hd Hc Hi Hp Hr Hf He Hs c Hc0. unfold update. cbv zeta.
  specialize (Ht c Hc0).
  generalize dependent (track_transition c (gesture d) now).
  intros c0 Hc0' . clear c Hc0.
  generalize (notify (onGestureChange c0) (Notify_gestureChange (gesture d))).
  intros ev0.
  destruct (Nat.eqb (handsDetected d) 0) eqn:Eh.
  - specialize (Hc _ (Hd _ Hc0')).
    destruct (_idleTimeout <? _)%Z; cbn [fst]; [apply Hi|]; exact Hc.
  - specialize (Ha _ Hc0'). apply Nat.eqb_neq in Eh.
    generalize dependent (with_lastActiveTime c0 now). intros c1 Hc1.
    destruct (gesture d) eqn:Eg.
    + cbn [fst]. apply Hd, Hc1.
    + specialize (Hp eq_refl Eh _ Hc1).
      destruct (_handlePinch c1 now) as [c2 ev].
      cbn [fst] in Hp. destruct (twistPoseActive d).
      * specialize (Hr _ Hp). destruct (_handleRotation c2 d). exact Hr.
      * cbn [fst]. apply Hd, Hp.
    + specialize (Hf _ Hc1). destruct (_handleFist c1 now). exact Hf.
    + cbn [fst]. apply Hd, Hc1.
    + cbn [fst]. apply Hd, Hc1.
    + specialize (Hr _ Hc1). destruct (_handleRotation c1 d). exact Hr.
    + specialize (He _ 1 Hc1). destruct (_handleExpansion c1 d 1). exact He.
    + specialize (He _ (-1) Hc1). destruct (_handleExpansion c1 d (-1)).
      exact He.
    + specialize (Hs _ false Hc1). destruct (_handleSwipe c1 false). exact Hs.
    + specialize (Hs _ true Hc1). destruct (_handleSwipe c1 true). exact Hs.
Qed.

(** ** What the controller does to the model's expansion and tilt *)

Lemma selectNext_keeps (b : BrainModel) :
  targetExplosion (fst (selectNext b)) = targetExplosion b /\
  rotation_x (fst (selectNext b)) = rotation_x b /\
  regionList (fst (selectNext b)) = regionList b.
Proof. unfold selectNext. destruct (_ =? 0)%Z; cbn; auto. Qed.

Lemma selectPrevious_keeps (b : BrainModel) :
  targetExplosion (fst (selectPrevious b)) = targetExplosion b /\
  rotation_x (fst (selectPrevious b)) = rotation_x b /\
  regionList (fst (selectPrevious b)) = regionList b.
Proof. unfold selectPrevious. destruct (_ =? 0)%Z; cbn; auto. Qed.

Lemma decayRotation_brain (c : GestureControls) :
  targetExplosion (brain (_decayRotation c)) = targetExplosion (brain c) /\
  rotation_x (brain (_decayRotation c)) = rotation_x (brain c) /\
  targetRotationX (brain (_decayRotation c)) = rotation_x (brain c) /\
  targetRotationY (brain (_decayRotation c)) = rotation_y (brain (_decayRotation c)).
Proof. unfold _decayRotation. destruct (Num.gtb _ _); cbn; auto. Qed.

Lemma handleRotation_brain (c : GestureControls) (d : GestureSample) :
  let b' := brain (fst (_handleRotation c d)) in
  targetExplosion b' = targetExplosion (brain c) /\
  targetRotationX b' = rotation_x b' /\
  targetRotationY b' = rotation_y b' /\
  isIdle b' = false /\
  (rotation_x b' = rotation_x (brain c) \/
   exists step, - 0.01 <= step <= 0.01 /\
     rotation_x b'
     = Num.max (- 0.8) (Num.min 0.8 (rotation_x (brain c) + step))).
Proof.
  unfold _handleRotation. cbv zeta.
  destruct (palmDelta d) as [[dx dy]|]; [|cbn; auto 6].
  destruct (Num.gtb _ 0.0015); [|cbn; auto 6].
  cbn. repeat split. right. eexists. split; [|reflexivity].
  unfold _maxTiltStep. num_cases; lra.
Qed.

Lemma auto_expand_brain (c : GestureControls) :
  let c' := fst (auto_expand c) in
  rotation_x (brain c') = rotation_x (brain c) /\
  targetExplosion (brain c')
  = if Num.ltb (targetExplosion (brain c)) 0.15 then 0.2
    else targetExplosion (brain c).
Proof.
  unfold auto_expand. destruct (Num.ltb _ 0.15); cbn; auto.
Qed.

Lemma handlePinch_brain (c : GestureControls) (now : Z) :
  let c' := fst (_handlePinch c now) in
  rotation_x (brain c') = rotation_x (brain c) /\
  (targetExplosion (brain c') = targetExplosion (brain c) \/
   targetExplosion (brain c') = 0.2).
Proof.
  unfold _handlePinch. cbv zeta.
  destruct (_pinchTriggered c); [cbn; auto|].
  destruct (_ <? _pinchCooldown)%Z; [cbn; auto|].
  pose proof (selectNext_keeps (brain
    (with_brain (with_lastPinchTime (with_pinchTriggered c true) now)
       (setIdle (brain (with_lastPinchTime (with_pinchTriggered c true) now))
          false)))) as (K1 & K2 & _).
  destruct (selectNext _) as [b sel]. cbn [fst] in K1, K2.
  match goal with
  | |- context [auto_expand ?x] =>
      pose proof (auto_expand_brain x) as [A1 A2]; destruct (auto_expand x)
  end.
  cbn [fst] in *. cbn in A1, A2, K1, K2. rewrite A1, A2, K1, K2.
  repeat match goal with
  | |- context [if ?x then _ else _] => destruct x
  end; auto.
Qed.

Lemma handleSwipe_brain (c : GestureControls) (right : bool) :
  let c' := fst (_handleSwipe c right) in
  rotation_x (brain c') = rotation_x (brain c) /\
  (targetExplosion (brain c') = targetExplosion (brain c) \/
   targetExplosion (brain c') = 0.2).
Proof.
  unfold _handleSwipe. cbv zeta.
  assert (K : targetExplosion (fst (if right then selectNext (brain c)
                                    else selectPrevious (brain c)))
              = targetExplosion (brain c) /\
              rotation_x (fst (if right then selectNext (brain c)
                               else selectPrevious (brain c)))
              = rotation_x (brain c)).
  { destruct right; [destruct (selectNext_keeps (brain c)) as (? & ? & _)
                    | destruct (selectPrevious_keeps (brain c)) as (? & ? & _)];
      auto. }
  destruct (if right then selectNext (brain c) else selectPrevious (brain c))
    as [b sel].
  cbn [fst] in K. destruct K as [K1 K2].
  match goal with
  | |- context [auto_expand ?x] =>
      pose proof (auto_expand_brain x) as [A1 A2]; destruct (auto_expand x)
  end.
  cbn [fst] in *. cbn in A1, A2. rewrite A1, A2, K1, K2.
  repeat match goal with
  | |- context [if ?x then _ else _] => destruct x
  end; auto.
Qed.

Lemma handleFist_brain (c : GestureControls) (now : Z) :
  let c' := fst (_handleFist c now) in
  rotation_x (brain c') = rotation_x (brain c) /\
  (targetExplosion (brain c') = targetExplosion (brain c) \/
   targetExplosion (brain c') = 0).
Proof.
  unfold _handleFist. cbv zeta.
  destruct (_fistTriggered c); [cbn; auto|].
  destruct (_ <? _fistHoldRequired)%Z; [cbn; auto|].
  destruct (_ <? 1500)%Z; cbn; auto.
Qed.

Lemma handleExpansion_brain (c : GestureControls) (d : GestureSample) (dir : Q) :
  let c' := fst (_handleExpansion c d dir) in
  rotation_x (brain c') = rotation_x (brain c) /\
  0 <= targetExplosion (brain c') <= 1.
Proof.
  unfold _handleExpansion. cbn. split; [reflexivity|]. num_cases; lra.
Qed.

(** X8.  Every [update] keeps the model's expansion target within [0, 1]:
    the controller only writes 0 (reset), 0.2 (auto-expand) or a value the
    model has clamped. *)
Theorem expansion_stays_in_unit_interval (c : GestureControls)
    (d : GestureSample) (now : Z) :
  0 <= targetExplosion (brain c) <= 1 ->
  0 <= targetExplosion (brain (fst (update c d now))) <= 1.
Proof.
  apply (update_invariant
           (fun c => 0 <= targetExplosion (brain c) <= 1) d now).
  - intros c0 H.
    destruct (track_transition_fields c0 (gesture d) now) as (_ & _ & _ & -> & _).
    exact H.
  - intros c0 H. exact H.
  - intros c0 H. destruct (decayRotation_brain c0) as (-> & _). exact H.
  - intros c0 H. exact H.
  - intros c0 H. exact H.
  - intros _ _ c0 H. destruct (handlePinch_brain c0 now) as (_ & [-> | ->]);
      [exact H | split; discriminate].
  - intros c0 H. destruct (handleRotation_brain c0 d) as (-> & _). exact H.
  - intros c0 H. destruct (handleFist_brain c0 now) as (_ & [-> | ->]);
      [exact H | split; discriminate].
  - intros c0 dir _. apply handleExpansion_brain.
  - intros c0 r H. destruct (handleSwipe_brain c0 r) as (_ & [-> | ->]);
      [exact H | split; discriminate].
Qed.

(** X9.  Every [update] keeps the model's tilt within [-0.8, 0.8]; a frame
    of [_handleRotation] moves it by at most 0.01 and leaves the model's
    rotation targets equal to its rotation, with idle mode off. *)
Theorem tilt_stays_clamped (c : GestureControls) (d : GestureSample) (now : Z) :
  - 0.8 <= rotation_x (brain c) <= 0.8 ->
  - 0.8 <= rotation_x (brain (fst (update c d now))) <= 0.8 /\
  (let b' := brain (fst (_handleRotation c d)) in
   - 0.01 <= rotation_x b' - rotation_x (brain c) <= 0.01 /\
   targetRotationX b' = rotation_x b' /\
   targetRotationY b' = rotation_y b' /\
   isIdle b' = false).
Proof.
  intros Hx. split.
  - revert c Hx.
    apply (update_invariant
             (fun c => - 0.8 <= rotation_x (brain c) <= 0.8) d now).
    + intros c0 H.
      destruct (track_transition_fields c0 (gesture d) now) as (_ & _ & _ & -> & _).
      exact H.
    + intros c0 H. exact H.
    + intros c0 H. destruct (decayRotation_brain c0) as (_ & -> & _). exact H.
    + intros c0 H. exact H.
    + intros c0 H. exact H.
    + intros _ _ c0 H. destruct (handlePinch_brain c0 now) as (-> & _).
      exact H.
    + intros c0 H.
      destruct (handleRotation_brain c0 d) as (_ & _ & _ & _ & [-> | (s & Hs & ->)]);
        [exact H | num_cases; lra].
    + intros c0 H. destruct (handleFist_brain c0 now) as (-> & _). exact H.
    + intros c0 dir H. destruct (handleExpansion_brain c0 d dir) as (-> & _).
      exact H.
    + intros c0 r H. destruct (handleSwipe_brain c0 r) as (-> & _). exact H.
  - cbv zeta.
    destruct (handleRotation_brain c d) as (_ & T1 & T2 & T3 & T4).
    cbv zeta in *. split; [|auto].
    destruct T4 as [E | (s & Hs & E)]; rewrite E; [lra|].
    clear - Hx Hs.
    destruct (NumFacts.min_cases 0.8 (rotation_x (brain c) + s))
      as [[? E1] | [? E1]]; rewrite E1;
      match goal with
      | |- context [Num.max ?a ?b] =>
          destruct (NumFacts.max_cases a b) as [[? E2] | [? E2]]; rewrite E2
      end; lra.
Qed.

(** ** The controller: pinch debounce *)

Definition pinch_fires (c : GestureControls) (now : Z) : bool :=
  negb (_pinchTriggered c) && (_pinchCooldown <=? now - _lastPinchTime c)%Z.

Lemma handlePinch_spec (c : GestureControls) (now : Z) :
  let c' := fst (_handlePinch c now) in
  count_events is_selectNext (snd (_handlePinch c now))
    = (if pinch_fires c now then 1%nat else 0%nat) /\
  _pinchTriggered c' = (_pinchTriggered c || pinch_fires c now) /\
  _lastPinchTime c' = (if pinch_fires c now then now else _lastPinchTime c) /\
  targetExplosion (brain c')
    = (if pinch_fires c now && Num.ltb (targetExplosion (brain c)) 0.15
       then 0.2 else targetExplosion (brain c)).
Proof.
  unfold _handlePinch, pinch_fires. cbv zeta. rewrite Z.leb_antisym.
  destruct (_pinchTriggered c) eqn:Et; cbn [negb andb orb fst snd];
    [repeat split; auto|].
  destruct (now - _lastPinchTime c <? _pinchCooldown)%Z;
    cbn [negb andb orb fst snd]; [repeat split; auto|].
  pose proof (selectNext_keeps (brain
    (with_brain (with_lastPinchTime (with_pinchTriggered c true) now)
       (setIdle (brain (with_lastPinchTime (with_pinchTriggered c true) now))
          false)))) as (K1 & _).
  destruct (selectNext _) as [b sel]. cbn [fst] in K1. cbn in K1.
  unfold auto_expand. cbn. rewrite K1.
  destruct (Num.ltb (targetExplosion (brain c)) 0.15); cbn;
    unfold notify, count_events;
    destruct (onRegionSelect c), (onExplosionChange c); cbn; repeat split;
    exact K1.
Qed.

(** A frame with hands whose label is [pinch]. *)
Definition pinch_frame (d : GestureSample) : Prop :=
  gesture d = pinch /\ handsDetected d <> 0%nat.

Lemma track_transition_pinch (c : GestureControls) (now : Z) :
  _pinchTriggered (track_transition c pinch now) = _pinchTriggered c /\
  _lastPinchTime (track_transition c pinch now) = _lastPinchTime c /\
  brain (track_transition c pinch now) = brain c.
Proof.
  unfold track_transition, Gesture_eqb, with_pinchTriggered, with_fistTriggered.
  destruct (currentGesture c) eqn:Ec; cbn; rewrite ?Ec; cbn; auto.
Qed.

Lemma handleRotation_pinch (c : GestureControls) (d : GestureSample) :
  _pinchTriggered (fst (_handleRotation c d)) = false /\
  _lastPinchTime (fst (_handleRotation c d)) = _lastPinchTime c /\
  count_events is_selectNext (snd (_handleRotation c d)) = 0%nat.
Proof.
  unfold _handleRotation. cbv zeta.
  destruct (palmDelta d) as [[dx dy]|]; [|cbn; auto].
  destruct (Num.gtb _ 0.0015); cbn; auto.
Qed.

Lemma decayRotation_pinch (c : GestureControls) :
  _pinchTriggered (_decayRotation c) = _pinchTriggered c /\
  _lastPinchTime (_decayRotation c) = _lastPinchTime c.
Proof. unfold _decayRotation. destruct (Num.gtb _ _); cbn; auto. Qed.

Lemma count_selectNext_gestureChange (set : bool) (g : Gesture)
    (ev : list Event) :
  count_events is_selectNext (notify set (Notify_gestureChange g) ++ ev)
  = count_events is_selectNext ev.
Proof. destruct set; reflexivity. Qed.

Lemma pinch_frame_step (c : GestureControls) (d : GestureSample) (now : Z) :
  pinch_frame d ->
  let c' := fst (update c d now) in
  selected_by_pinch d (snd (update c d now)) = pinch_fires c now /\
  _lastPinchTime c' = (if pinch_fires c now then now else _lastPinchTime c) /\
  _pinchTriggered c'
    = (if twistPoseActive d then false
       else _pinchTriggered c || pinch_fires c now) /\
  targetExplosion (brain c')
    = (if pinch_fires c now && Num.ltb (targetExplosion (brain c)) 0.15
       then 0.2 else targetExplosion (brain c)).
Proof.
  intros [Hg Hh]. cbv zeta. unfold selected_by_pinch, update. rewrite Hg.
  destruct (handsDetected d) as [|n]; [congruence|]. cbn [Nat.eqb negb andb].
  cbv zeta.
  destruct (track_transition_pinch c now) as (T1 & T2 & T3).
  set (c1 := with_lastActiveTime (track_transition c pinch now) now).
  assert (Hf : pinch_fires c1 now = pinch_fires c now).
  { unfold pinch_fires, c1, with_lastActiveTime.
    cbn [_pinchTriggered _lastPinchTime]. rewrite T1, T2. reflexivity. }
  assert (Hb : brain c1 = brain c) by exact T3.
  assert (Hl : _lastPinchTime c1 = _lastPinchTime c) by exact T2.
  assert (Hp : _pinchTriggered c1 = _pinchTriggered c) by exact T1.
  destruct (handlePinch_spec c1 now) as (P1 & P2 & P3 & P4). cbv zeta in *.
  rewrite Hf, Hb, Hl in *. rewrite Hp in P2. clearbody c1.
  destruct (_handlePinch c1 now) as [c2 ev]. cbn [fst snd] in *.
  rewrite Gesture_eqb_refl. cbn [andb].
  destruct (twistPoseActive d).
  - destruct (handleRotation_pinch c2 d) as (R1 & R2 & R3).
    destruct (handleRotation_brain c2 d) as (R4 & _). cbv zeta in R4.
    destruct (_handleRotation c2 d) as [c3 ev']. cbn [fst snd] in *.
    rewrite count_selectNext_gestureChange, count_events_app, P1, R3, R1, R2,
      R4, P3, P4.
    destruct (pinch_fires c now); auto.
  - destruct (decayRotation_pinch c2) as (D1 & D2).
    destruct (decayRotation_brain c2) as (D3 & _).
    cbn [fst snd]. rewrite count_selectNext_gestureChange, P1, D1, D2, D3,
      P2, P3, P4.
    destruct (pinch_fires c now); auto.
Qed.

Lemma lastPinchTime_steps :
  (forall c g now,
     _lastPinchTime (track_transition c g now) = _lastPinchTime c) /\
  (forall c now, _lastPinchTime (fst (_handleFist c now)) = _lastPinchTime c) /\
  (forall c d dir,
     _lastPinchTime (fst (_handleExpansion c d dir)) = _lastPinchTime c) /\
  (forall c right,
     _lastPinchTime (fst (_handleSwipe c right)) = _lastPinchTime c).
Proof.
  split; [|split; [|split]].
  - intros c g now.
    unfold track_transition, Gesture_eqb, with_pinchTriggered,
      with_fistTriggered.
    destruct (currentGesture c) eqn:Ec, g; cbn; rewrite ?Ec; reflexivity.
  - intros c now. unfold _handleFist.
    destruct (_fistTriggered c); [reflexivity|].
    destruct (_ <? _fistHoldRequired)%Z; [reflexivity|].
    destruct (_ <? 1500)%Z; reflexivity.
  - intros c d dir. reflexivity.
  - intros c right. unfold _handleSwipe, auto_expand.
    destruct (if right then selectNext (brain c) else selectPrevious (brain c))
      as [b sel].
    cbn. destruct (Num.ltb _ 0.15); reflexivity.
Qed.

Lemma pinch_frame_dec (d : GestureSample) : {pinch_frame d} + {~ pinch_frame d}.
Proof.
  unfold pinch_frame.
  destruct (Gesture_eq_dec (gesture d) pinch) as [E|E];
    [|right; intros [H _]; contradiction].
  destruct (Nat.eq_dec (handsDetected d) 0) as [E0|E0];
    [right; intros [_ H]; contradiction | left; auto].
Qed.

Lemma update_not_pinch (c : GestureControls) (d : GestureSample) (now : Z) :
  ~ pinch_frame d ->
  _lastPinchTime (fst (update c d now)) = _lastPinchTime c /\
  selected_by_pinch d (snd (update c d now)) = false.
Proof.
  intros Hn. destruct lastPinchTime_steps as (L1 & L2 & L3 & L4). split.
  - apply (update_invariant
             (fun c' => _lastPinchTime c' = _lastPinchTime c) d now).
    + intros c0 H. rewrite L1. exact H.
    + intros c0 H. exact H.
    + intros c0 H. destruct (decayRotation_pinch c0) as [_ ->]. exact H.
    + intros c0 H. exact H.
    + intros c0 H. exact H.
    + intros Hg Hh. exfalso. apply Hn. split; assumption.
    + intros c0 H. destruct (handleRotation_pinch c0 d) as (_ & -> & _).
      exact H.
    + intros c0 H. rewrite L2. exact H.
    + intros c0 dir H. rewrite L3. exact H.
    + intros c0 r H. rewrite L4. exact H.
    + reflexivity.
  - unfold selected_by_pinch.
    destruct (Gesture_eqb (gesture d) pinch) eqn:Eg; [|reflexivity].
    destruct (Nat.eqb (handsDetected d) 0) eqn:Eh; [reflexivity|].
    exfalso. apply Hn. split; [apply Gesture_eqb_eq, Eg|].
    apply Nat.eqb_neq, Eh.
Qed.

Lemma pinch_times_spaced (samples : list (GestureSample * Z)) :
  forall c : GestureControls,
  spaced 700 (_lastPinchTime c) (pinch_times c samples).
Proof.
  induction samples as [|[d now] rest IH]; intros c; cbn [pinch_times];
    [exact I|].
  destruct (pinch_frame_dec d) as [Hp|Hp].
  - destruct (pinch_frame_step c d now Hp) as (S1 & S2 & _). cbv zeta in *.
    destruct (update c d now) as [c1 ev]. cbn [fst snd] in *. rewrite S1.
    destruct (pinch_fires c now) eqn:Ef.
    + cbn [spaced]. split; [|rewrite <- S2; apply IH].
      unfold pinch_fires in Ef. apply andb_prop in Ef as [_ Ef].
      apply Z.leb_le in Ef. exact Ef.
    + rewrite <- S2. apply IH.
  - destruct (update_not_pinch c d now Hp) as [U1 U2].
    destruct (update c d now) as [c1 ev]. cbn [fst snd] in *. rewrite U2.
    rewrite <- U1. apply IH.
Qed.

(** A hold of pinch frames during which the twist-pose flag is off. *)
Definition plain_pinch_hold (samples : list (GestureSample * Z)) : Prop :=
  Forall (fun s => pinch_frame (fst s) /\ twistPoseActive (fst s) = false)
    samples.

Lemma plain_pinch_hold_fired (samples : list (GestureSample * Z)) :
  plain_pinch_hold samples ->
  forall c, _pinchTriggered c = true -> pinch_times c samples = [].
Proof.
  induction 1 as [|[d now] rest [Hd Ht] _ IH]; intros c Hc;
    cbn [pinch_times]; [reflexivity|].
  cbn [fst] in Hd, Ht.
  destruct (pinch_frame_step c d now Hd) as (S1 & _ & S3 & _). cbv zeta in *.
  unfold pinch_fires in *. rewrite Hc, Ht in *. cbn [negb andb orb] in *.
  destruct (update c d now) as [c1 ev]. cbn [fst snd] in *. rewrite S1.
  apply IH, S3.
Qed.

Lemma plain_pinch_hold_armed (samples : list (GestureSample * Z)) :
  plain_pinch_hold samples ->
  forall c, _pinchTriggered c = false ->
  pinch_times c samples
  = match find (fun s => (_pinchCooldown <=? snd s - _lastPinchTime c)%Z)
            samples with
    | Some s => [snd s]
    | None => []
    end.
Proof.
  induction 1 as [|[d now] rest [Hd Ht] Hrest IH]; intros c Hc;
    cbn [pinch_times find]; [reflexivity|].
  cbn [fst snd] in *.
  destruct (pinch_frame_step c d now Hd) as (S1 & S2 & S3 & _). cbv zeta in *.
  unfold pinch_fires in *. rewrite Hc, Ht in *. cbn [negb andb orb] in *.
  destruct (update c d now) as [c1 ev]. cbn [fst snd] in *. rewrite S1.
  destruct (_pinchCooldown <=? now - _lastPinchTime c)%Z.
  - f_equal. apply (plain_pinch_hold_fired rest Hrest c1 S3).
  - rewrite (IH c1 S3), S2. reflexivity.
Qed.

(** X10.  Pinch selections are debounced: in any run of updates the frames
    on which a pinch advances the selection are at least 700 ms apart; during
    a pinch held with the twist-pose flag off the selection advances exactly
    once, on the first frame 700 ms or more after the previous pinch
    selection; but a pinch frame with the twist-pose flag on leaves the
    trigger flag cleared, so a pinch held while twisting selects again as
    soon as the cooldown allows. *)
Theorem pinch_selection_debounced (c : GestureControls)
    (samples : list (GestureSample * Z)) :
  spaced 700 (_lastPinchTime c) (pinch_times c samples) /\
  (plain_pinch_hold samples -> _pinchTriggered c = false ->
   pinch_times c samples
   = match find (fun s => (700 <=? snd s - _lastPinchTime c)%Z) samples with
     | Some s => [snd s]
     | None => []
     end) /\
  (forall d now, pinch_frame d -> twistPoseActive d = true ->
     _pinchTriggered (fst (update c d now)) = false /\
     selected_by_pinch d (snd (update c d now))
     = negb (_pinchTriggered c) && (700 <=? now - _lastPinchTime c)%Z).
Proof.
  split; [apply pinch_times_spaced|]. split.
  - intros Hh Hc. apply (plain_pinch_hold_armed samples Hh c Hc).
  - intros d now Hd Ht.
    destruct (pinch_frame_step c d now Hd) as (S1 & _ & S3 & _).
    cbv zeta in *. rewrite Ht in S3. split; [exact S3 | exact S1].
Qed.

Lemma pinch_selection_debounced_witness :
  let c := new_GestureControls (mkBrain [] (-1) None 0 0 0 0 0 false)
             false false false in
  let pinchS := mkSample pinch 1 None None 0 0 0 0 false 1 None 0 None in
  pinch_times c [(pinchS, 600%Z); (pinchS, 700%Z); (pinchS, 1500%Z)]
  = [700%Z].
Proof.
  intros c pinchS.
  refine (proj1 (proj2 (pinch_selection_debounced c
    [(pinchS, 600%Z); (pinchS, 700%Z); (pinchS, 1500%Z)])) _ eq_refl).
  repeat constructor; discriminate.
Defined.

(** A pinch held while the twist-pose flag is on selects every 700 ms. *)
Example pinch_while_twisting_repeats :
  let c := new_GestureControls (mkBrain [] (-1) None 0 0 0 0 0 false)
             false false false in
  let pinchT := mkSample pinch 1 None None 0 0 0 0 true 1 None 0 None in
  pinch_times c [(pinchT, 1000%Z); (pinchT, 1350%Z); (pinchT, 1700%Z);
                 (pinchT, 2050%Z); (pinchT, 2400%Z)]
  = [1000%Z; 1700%Z; 2400%Z].
Proof. vm_compute. reflexivity. Qed.

(** X11.  A pinch frame changes the model's expansion target only when the
    pinch fires and the target is below 0.15, and then to exactly 0.2; a
    target of 0.15 or more is left as it is. *)
Theorem pinch_auto_expand (c : GestureControls) (d : GestureSample) (now : Z) :
  pinch_frame d ->
  let fires :=
    negb (_pinchTriggered c) && (700 <=? now - _lastPinchTime c)%Z in
  targetExplosion (brain (fst (update c d now)))
  = if fires && Num.ltb (targetExplosion (brain c)) 0.15
    then 0.2 else targetExplosion (brain c).
Proof.
  intros Hd. destruct (pinch_frame_step c d now Hd) as (_ & _ & _ & S4).
  exact S4.
Qed.

Lemma pinch_auto_expand_witness :
  let c := new_GestureControls (mkBrain [] (-1) None 0.1 0 0 0 0 false)
             false false false in
  let pinchS := mkSample pinch 1 None None 0 0 0 0 false 1 None 0 None in
  targetExplosion (brain (fst (update c pinchS 1000))) = 0.2.
Proof.
  intros c pinchS.
  refine (pinch_auto_expand c pinchS 1000 _).
  split; [reflexivity | discriminate].
Defined.

(** * The target model: selection cursor *)

Lemma indexOf_nonneg_or_missing (l : list String.string) (id : String.string) :
  indexOf l id = (-1)%Z \/ (0 <= indexOf l id)%Z.
Proof.
  induction l as [|h t IH]; cbn; [left; reflexivity|].
  destruct (String.eqb h id); [right; lia|].
  destruct (indexOf t id <? 0)%Z eqn:E; [left; reflexivity|].
  right. apply Z.ltb_ge in E. lia.
Qed.

Lemma indexOf_nth (l : list String.string) (i : nat) (id : String.string) :
  NoDup l -> nth_error l i = Some id -> indexOf l id = Z.of_nat i.
Proof.
  intros N. revert i. induction N as [|h t Hh Nt IH]; intros i H.
  - destruct i; discriminate.
  - destruct i as [|i]; cbn in H |- *.
    + injection H as ->. rewrite String.eqb_refl. reflexivity.
    + destruct (String.eqb h id) eqn:E.
      * apply String.eqb_eq in E. subst h. exfalso. apply Hh.
        apply nth_error_In in H. exact H.
      * rewrite (IH i H).
        destruct (Z.of_nat i <? 0)%Z eqn:E'; [apply Z.ltb_lt in E'; lia|].
        lia.
Qed.

Lemma mod_minus_one (len : Z) : (0 < len)%Z -> ((-1) mod len = len - 1)%Z.
Proof.
  intros H. rewrite <- (Z.mod_add (-1) 1 len) by lia.
  replace (-1 + 1 * len)%Z with (len - 1)%Z by lia.
  apply Z.mod_small. lia.
Qed.

(** Selecting the region at a valid index of a duplicate-free list. *)
Lemma highlight_at (b : BrainModel) (i : Z) :
  NoDup (regionList b) ->
  (0 <= i < Z.of_nat (length (regionList b)))%Z ->
  let b' := highlightRegion b (region_at b i) in
  selectedIndex b' = i /\
  selectedId b' = region_at b i /\
  selectedId b' <> None /\
  regionList b' = regionList b.
Proof.
  intros N Hi. unfold region_at.
  destruct (i <? 0)%Z eqn:E; [apply Z.ltb_lt in E; lia|].
  destruct (nth_error (regionList b) (Z.to_nat i)) as [id|] eqn:En.
  - cbn. rewrite (indexOf_nth _ _ _ N En).
    repeat split; [lia | discriminate].
  - apply nth_error_None in En. lia.
Qed.

(** X12.  On a model with a non-empty, duplicate-free region list and a
    cursor in range (or -1, nothing selected), [selectNext] moves the cursor
    to the next index modulo the number of regions and returns the id it
    selects; from a selected region [selectPrevious] moves it to the previous
    index modulo the number of regions, and each undoes the other. *)
Theorem selection_cycles (b : BrainModel) :
  NoDup (regionList b) ->
  let len := Z.of_nat (length (regionList b)) in
  (0 < len)%Z -> (-1 <= selectedIndex b < len)%Z ->
  let bn := fst (selectNext b) in
  let bp := fst (selectPrevious b) in
  selectedIndex bn = ((selectedIndex b + 1) mod len)%Z /\
  selectedId bn = region_at b (selectedIndex bn) /\
  snd (selectNext b) = selectedId bn /\
  selectedId bn <> None /\
  ((0 <= selectedIndex b)%Z ->
   selectedIndex bp = ((selectedIndex b - 1) mod len)%Z /\
   selectedId bp = region_at b (selectedIndex bp) /\
   selectedIndex (fst (selectPrevious bn)) = selectedIndex b /\
   selectedIndex (fst (selectNext bp)) = selectedIndex b).
Proof.
  intros N len Hlen Hi.
  assert (Hn : forall b0 : BrainModel,
    NoDup (regionList b0) ->
    Z.of_nat (length (regionList b0)) = len ->
    (-1 <= selectedIndex b0 < len)%Z ->
    selectedIndex (fst (selectNext b0)) = ((selectedIndex b0 + 1) mod len)%Z /\
    selectedId (fst (selectNext b0))
      = region_at b0 (selectedIndex (fst (selectNext b0))) /\
    snd (selectNext b0) = selectedId (fst (selectNext b0)) /\
    selectedId (fst (selectNext b0)) <> None /\
    regionList (fst (selectNext b0)) = regionList b0).
  { intros b0 N0 L0 H0. unfold selectNext. rewrite L0.
    destruct (len =? 0)%Z eqn:E; [apply Z.eqb_eq in E; lia|].
    cbn [fst snd]. rewrite Z.rem_mod_nonneg by lia.
    assert (Hr : (0 <= (selectedIndex b0 + 1) mod len < len)%Z)
      by (apply Z.mod_pos_bound; lia).
    rewrite <- L0 in Hr.
    destruct (highlight_at b0 _ N0 Hr) as (A & B & C & D). cbv zeta in *.
    rewrite L0 in *. rewrite A. auto. }
  assert (Hp : forall b0 : BrainModel,
    NoDup (regionList b0) ->
    Z.of_nat (length (regionList b0)) = len ->
    (0 <= selectedIndex b0 < len)%Z ->
    selectedIndex (fst (selectPrevious b0))
      = ((selectedIndex b0 - 1) mod len)%Z /\
    selectedId (fst (selectPrevious b0))
      = region_at b0 (selectedIndex (fst (selectPrevious b0))) /\
    regionList (fst (selectPrevious b0)) = regionList b0).
  { intros b0 N0 L0 H0. unfold selectPrevious. rewrite L0.
    destruct (len =? 0)%Z eqn:E; [apply Z.eqb_eq in E; lia|].
    cbn [fst snd]. rewrite Z.rem_mod_nonneg by lia.
    assert (Hm : ((selectedIndex b0 - 1 + len) mod len
                  = (selectedIndex b0 - 1) mod len)%Z).
    { rewrite <- (Z.mul_1_l len) at 1. apply Z.mod_add. lia. }
    rewrite Hm.
    assert (Hr : (0 <= (selectedIndex b0 - 1) mod len < len)%Z)
      by (apply Z.mod_pos_bound; lia).
    rewrite <- L0 in Hr.
    destruct (highlight_at b0 _ N0 Hr) as (A & B & C & D). cbv zeta in *.
    rewrite L0 in *. rewrite A. auto. }
  cbv zeta.
  destruct (Hn b N eq_refl Hi) as (N1 & N2 & N3 & N4 & N5).
  repeat split; auto.
  - apply (Hp b N eq_refl). lia.
  - apply (Hp b N eq_refl). lia.
  - destruct (Hp (fst (selectNext b))) as (P1 & _).
    + rewrite N5. exact N.
    + rewrite N5. reflexivity.
    + rewrite N1. apply Z.mod_pos_bound. lia.
    + rewrite P1, N1.
      destruct (Z.eq_dec (selectedIndex b + 1) len) as [E|E].
      * rewrite E, Z.mod_same by lia. change (0 - 1)%Z with (-1)%Z.
        rewrite mod_minus_one by lia. lia.
      * rewrite (Z.mod_small (selectedIndex b + 1) len) by lia.
        rewrite Z.mod_small by lia. lia.
  - destruct (Hp b N eq_refl ltac:(lia)) as (P1 & P2 & P3).
    destruct (Hn (fst (selectPrevious b))) as (Q1 & _).
    + rewrite P3. exact N.
    + rewrite P3. reflexivity.
    + rewrite P1. pose proof (Z.mod_pos_bound (selectedIndex b - 1) len). lia.
    + rewrite Q1, P1.
      destruct (Z.eq_dec (selectedIndex b) 0) as [E|E].
      * rewrite E. change (0 - 1)%Z with (-1)%Z.
        rewrite mod_minus_one by lia.
        replace (len - 1 + 1)%Z with len by lia. apply Z.mod_same. lia.
      * rewrite (Z.mod_small (selectedIndex b - 1) len) by lia.
        replace (selectedIndex b - 1 + 1)%Z with (selectedIndex b) by lia.
        apply Z.mod_small. lia.
Qed.

(** X13.  Edge cases of the selection cursor: with an empty region list
    both methods return undefined and change nothing; with nothing selected
    (cursor -1) [selectNext] selects the first region, while [selectPrevious]
    selects the second-to-last region, not the last, when there are at least
    two. *)
Theorem selection_edge_cases (b : BrainModel) :
  (regionList b = [] ->
   selectNext b = (b, None) /\ selectPrevious b = (b, None)) /\
  (NoDup (regionList b) -> selectedIndex b = (-1)%Z ->
   (2 <= Z.of_nat (length (regionList b)))%Z ->
   selectedIndex (fst (selectNext b)) = 0%Z /\
   selectedIndex (fst (selectPrevious b))
   = (Z.of_nat (length (regionList b)) - 2)%Z).
Proof.
  split.
  - intros E. unfold selectNext, selectPrevious. rewrite E. cbn. auto.
  - intros N Hi Hlen. unfold selectNext, selectPrevious. rewrite Hi.
    destruct (_ =? 0)%Z eqn:E; [apply Z.eqb_eq in E; lia|].
    cbn [fst]. rewrite !Z.rem_mod_nonneg by lia.
    rewrite (Z.mod_small (-1 + 1)) by lia.
    replace (-1 - 1 + Z.of_nat (length (regionList b)))%Z
      with (Z.of_nat (length (regionList b)) - 2)%Z by lia.
    rewrite Z.mod_small by lia.
    split; apply highlight_at; auto; lia.
Qed.

Lemma selection_edge_cases_witness :
  let b := mkBrain ["frontal"; "parietal"; "occipital"]%string (-1) None
             0 0 0 0 0 true in
  selectedIndex (fst (selectPrevious b)) = 1%Z.
Proof.
  intros b.
  refine (proj2 (proj2 (selection_edge_cases b) _ eq_refl _)).
  - repeat constructor; cbn; intuition discriminate.
  - cbn. lia.
Defined.

Lemma selection_cycles_witness :
  let b := mkBrain ["frontal"; "parietal"; "occipital"]%string 2
             (Some "occipital"%string) 0 0 0 0 0 true in
  selectedIndex (fst (selectNext b)) = 0%Z.
Proof.
  intros b.
  refine (proj1 (selection_cycles b _ _ _)).
  - repeat constructor; cbn; intuition discriminate.
  - cbn. lia.
  - cbn. lia.
Defined.

(** * median and its sort *)

Lemma insert_sorted_perm (v : Q) (l : list Q) :
  Permutation (insert_sorted v l) (v :: l).
Proof.
  induction l as [|h t IH]; cbn; [reflexivity|].
  destruct (Num.ltb h v); [|reflexivity].
  rewrite IH. apply perm_swap.
Qed.

Lemma insert_sorted_sorted (v : Q) (l : list Q) :
  Sorted Qle l -> Sorted Qle (insert_sorted v l).
Proof.
  induction 1 as [|h t Ht IH Hh]; cbn; [repeat constructor|].
  destruct (Num.ltb h v) eqn:E; cmp_hyps.
  - constructor; [exact IH|].
    destruct t as [|h' t']; cbn.
    + constructor. lra.
    + destruct (Num.ltb h' v); constructor; [|lra].
      inversion Hh; subst. assumption.
  - repeat constructor; assumption.
Qed.

(** X14.  The sort inside [median] returns its input rearranged in
    ascending order. *)
Theorem sort_ascending_correct (l : list Q) :
  Sorted Qle (sort_ascending l) /\ Permutation (sort_ascending l) l.
Proof.
  unfold sort_ascending. induction l as [|v t [IHs IHp]]; cbn.
  - split; constructor.
  - split; [apply insert_sorted_sorted, IHs|].
    rewrite insert_sorted_perm. constructor. exact IHp.
Qed.

Lemma nth_in_range (l : list Q) (i : nat) (lo hi : Q) :
  (forall v, In v l -> lo <= v <= hi) -> (i < length l)%nat ->
  lo <= nth i l 0 <= hi.
Proof. intros H Hi. apply H, nth_In, Hi. Qed.

Lemma half_sum_between (a b lo hi : Q) :
  lo <= a <= hi -> lo <= b <= hi -> lo <= (a + b) / 2 <= hi.
Proof.
  intros Ha Hb. split.
  - apply Qle_shift_div_l; [reflexivity | lra].
  - apply Qle_shift_div_r; [reflexivity | lra].
Qed.

(** X15.  [median] of no values is 0; for one value it is that value, for
    two their mean; and for any non-empty window it lies between the
    smallest and the largest value. *)
Theorem median_in_range (values : list Q) (lo hi : Q) :
  median [] = 0 /\
  (forall a, median [a] = a) /\
  (forall a b, median [a; b] == (a + b) / 2) /\
  (values <> [] -> (forall v, In v values -> lo <= v <= hi) ->
   lo <= median values <= hi).
Proof.
  split; [reflexivity|]. split; [reflexivity|]. split.
  - intros a b. unfold median, sort_ascending. cbn.
    destruct (Num.ltb b a); cbn; field.
  - intros Hne Hall.
    destruct (sort_ascending_correct values) as [_ Hp].
    assert (Hs : forall v, In v (sort_ascending values) -> lo <= v <= hi).
    { intros v Hv. apply Hall. apply (Permutation_in _ Hp Hv). }
    assert (Hl : length (sort_ascending values) = length values)
      by (apply Permutation_length, Hp).
    unfold median. destruct values as [|v0 rest]; [congruence|].
    set (sorted := sort_ascending (v0 :: rest)) in *.
    assert (Hpos : (0 < length sorted)%nat) by (rewrite Hl; cbn; lia).
    assert (Hmid : (Nat.div (length sorted) 2 < length sorted)%nat)
      by (apply Nat.div_lt; lia).
    destruct (Nat.eqb (Nat.modulo (length sorted) 2) 0).
    + apply half_sum_between; apply nth_in_range; auto; lia.
    + apply nth_in_range; auto.
Qed.

Lemma median_in_range_witness :
  0.01 <= median [0.03; 0.01; 0.5; 0.02] <= 0.5.
Proof.
  apply (proj2 (proj2 (proj2 (median_in_range [0.03; 0.01; 0.5; 0.02]
                                0.01 0.5)))).
  - discriminate.
  - intros v [<-|[<-|[<-|[<-|[]]]]]; split; vm_compute; discriminate.
Defined.

(** * The controller: coasting to a stop *)

Lemma decay_velocity (c : GestureControls) :
  let v1 := _rotationVelocityY c + (0 - _rotationVelocityY c) * _twistDecel in
  _rotationVelocityY (_decayRotation c)
    = (if Num.gtb (Num.abs v1) 0.00005 then v1 else 0) /\
  rotation_y (brain (_decayRotation c))
    = (if Num.gtb (Num.abs v1) 0.00005 then rotation_y (brain c) + v1
       else rotation_y (brain c)).
Proof.
  unfold _decayRotation. cbv zeta. destruct (Num.gtb _ _); cbn; auto.
Qed.

Lemma decay_shrinks (c : GestureControls) (k : Q) :
  0 <= k ->
  Num.abs (_rotationVelocityY c) <= (k + 1) * 0.0000075 ->
  Num.abs (_rotationVelocityY (_decayRotation c)) <= k * 0.0000075.
Proof.
  intros Hk H. destruct (decay_velocity c) as [-> _]. unfold _twistDecel.
  set (v := _rotationVelocityY c) in *. clearbody v.
  destruct (Num.gtb (Num.abs (v + (0 - v) * 0.15)) 0.00005) eqn:E; cmp_hyps.
  - revert E H.
    destruct (NumFacts.abs_cases v) as [[? ->] | [? ->]];
      destruct (NumFacts.abs_cases (v + (0 - v) * 0.15)) as [[? ->] | [? ->]];
      intros; lra.
  - destruct (NumFacts.abs_cases 0) as [[? ->] | [? ->]]; lra.
Qed.

Lemma coast_stops_within (k : nat) :
  forall c : GestureControls,
  Num.abs (_rotationVelocityY c) <= inject_Z (Z.of_nat k) * 0.0000075 ->
  _rotationVelocityY (coast (S k) c) == 0.
Proof.
  induction k as [|k IH]; intros c H.
  - cbn [coast]. destruct (decay_velocity c) as [-> _]. unfold _twistDecel.
    set (v := _rotationVelocityY c) in *. clearbody v.
    destruct (Num.gtb (Num.abs (v + (0 - v) * 0.15)) 0.00005) eqn:E;
      [|reflexivity].
    cmp_hyps. exfalso. change (inject_Z (Z.of_nat 0)) with 0 in H.
    revert E H.
    destruct (NumFacts.abs_cases v) as [[? ->] | [? ->]];
      destruct (NumFacts.abs_cases (v + (0 - v) * 0.15)) as [[? ->] | [? ->]];
      intros; lra.
  - change (coast (S (S k)) c) with (coast (S k) (_decayRotation c)).
    apply IH. apply decay_shrinks.
    + change 0 with (inject_Z 0). rewrite <- Zle_Qle. lia.
    + rewrite Nat2Z.inj_succ in H. unfold Z.succ in H.
      rewrite inject_Z_plus in H. exact H.
Qed.

Lemma coast_plus (n m : nat) (c : GestureControls) :
  coast (n + m) c = coast m (coast n c).
Proof.
  revert c. induction n as [|n IH]; intros c; [reflexivity|]. cbn. apply IH.
Qed.

Lemma coast_rest (m : nat) :
  forall c : GestureControls,
  _rotationVelocityY c == 0 -> _rotationVelocityY (coast m c) == 0.
Proof.
  induction m as [|m IH]; intros c H; [exact H|].
  cbn [coast]. apply IH.
  assert (Hz : Num.abs (_rotationVelocityY c) <= inject_Z (Z.of_nat 0) * 0.0000075).
  { change (inject_Z (Z.of_nat 0)) with 0.
    destruct (NumFacts.abs_cases (_rotationVelocityY c))
      as [[? ->] | [? ->]]; lra. }
  exact (coast_stops_within 0 c Hz).
Qed.

(** X16.  Decay is momentum loss, not a snap, and it ends: one frame of
    [_decayRotation] multiplies the Y velocity by 0.85 (and turns the model
    by the result), unless the result is within 0.00005 of zero, in which
    case the velocity becomes 0 and the model is not turned; and from any
    velocity the rotation comes to a complete stop after finitely many such
    frames and stays stopped. *)
Theorem decay_coasts_to_a_stop (c : GestureControls) :
  let v := _rotationVelocityY c in
  let c' := _decayRotation c in
  ((0.00005 < Num.abs (0.85 * v) /\ _rotationVelocityY c' == 0.85 * v /\
    rotation_y (brain c') == rotation_y (brain c) + 0.85 * v) \/
   (Num.abs (0.85 * v) <= 0.00005 /\ _rotationVelocityY c' = 0 /\
    rotation_y (brain c') = rotation_y (brain c))) /\
  exists n, forall m, (n <= m)%nat -> _rotationVelocityY (coast m c) == 0.
Proof.
  cbv zeta. split.
  - destruct (decay_velocity c) as [-> ->]. unfold _twistDecel.
    set (v := _rotationVelocityY c). clearbody v.
    assert (Ev : v + (0 - v) * 0.15 == 0.85 * v) by ring.
    destruct (Num.gtb (Num.abs (v + (0 - v) * 0.15)) 0.00005) eqn:E; cmp_hyps.
    + left. repeat split; try (rewrite Ev; reflexivity).
      revert E.
      destruct (NumFacts.abs_cases (v + (0 - v) * 0.15)) as [[? ->] | [? ->]];
        destruct (NumFacts.abs_cases (0.85 * v)) as [[? ->] | [? ->]];
        intros; lra.
    + right. repeat split. revert E.
      destruct (NumFacts.abs_cases (v + (0 - v) * 0.15)) as [[? ->] | [? ->]];
        destruct (NumFacts.abs_cases (0.85 * v)) as [[? ->] | [? ->]];
        intros; lra.
  - set (q := Num.abs (_rotationVelocityY c) * (400000 # 3)).
    assert (Hq : 0 <= q).
    { unfold q. destruct (NumFacts.abs_cases (_rotationVelocityY c))
        as [[? ->] | [? ->]]; lra. }
    pose proof (Qle_ceiling q) as Hc.
    assert (Hz : (0 <= Qceiling q)%Z).
    { rewrite Zle_Qle. change (inject_Z 0) with 0. lra. }
    exists (S (Z.to_nat (Qceiling q))). intros m Hm.
    replace m with (S (Z.to_nat (Qceiling q)) + (m - S (Z.to_nat (Qceiling q))))%nat
      by lia.
    rewrite coast_plus. apply coast_rest, coast_stops_within.
    rewrite Z2Nat.id by exact Hz.
    assert (Eq : q == Num.abs (_rotationVelocityY c) * (400000 # 3))
      by reflexivity.
    clearbody q. lra.
Qed.

(** * The controller: swipes *)

Definition is_selectPrevious (e : Event) : bool :=
  match e with Call_selectPrevious => true | _ => false end.

(** X17.  The controller does not debounce swipes itself: every frame with
    hands labelled swipe_right calls selectNext exactly once and
    selectPrevious never, every such frame labelled swipe_left the reverse,
    whatever the controller's state and clock. *)
Theorem swipe_advances_every_frame (c : GestureControls) (d : GestureSample)
    (now : Z) :
  handsDetected d <> 0%nat ->
  (gesture d = swipe_right ->
   count_events is_selectNext (snd (update c d now)) = 1%nat /\
   count_events is_selectPrevious (snd (update c d now)) = 0%nat) /\
  (gesture d = swipe_left ->
   count_events is_selectNext (snd (update c d now)) = 0%nat /\
   count_events is_selectPrevious (snd (update c d now)) = 1%nat).
Proof.
  intros Hh. unfold update. cbv zeta.
  destruct (handsDetected d); [congruence|]. cbn [Nat.eqb].
  set (c1 := with_lastActiveTime (track_transition c (gesture d) now) now).
  generalize (onGestureChange (track_transition c (gesture d) now)).
  clearbody c1. intros cb.
  split; intros ->; unfold _handleSwipe, auto_expand, notify, count_events.
  - destruct (selectNext (brain c1)) as [b sel]. cbn. case_split; auto.
  - destruct (selectPrevious (brain c1)) as [b sel]. cbn. case_split; auto.
Qed.

Lemma swipe_advances_every_frame_witness :
  let c := new_GestureControls (mkBrain [] (-1) None 0 0 0 0 0 false)
             false false false in
  let swipeS := mkSample swipe_right 0.85 None None 0 0 0 0 false 1 None 0 None in
  count_events is_selectNext (snd (update c swipeS 1000)) = 1%nat.
Proof.
  intros c swipeS.
  apply (proj1 (swipe_advances_every_frame c swipeS 1000
                  ltac:(discriminate))).
  reflexivity.
Defined.

(** * Witnesses on concrete frames and controllers *)

(** A hand of 20 landmarks makes [recognize] throw. *)
Lemma recognize_throws_iff_witness :
  recognize sqrt_4dp atan2_quadrant new_GestureRecognizer
    (Some {| landmarks := Some [removelast open_hand] |}) 1000 1000 = None.
Proof.
  apply (proj2 (recognize_throws_iff sqrt_4dp atan2_quadrant
                  new_GestureRecognizer _ 1000 1000)).
  exists (removelast open_hand), []. split; [reflexivity|].
  left. cbn. lia.
Defined.

Lemma buffers_stay_bounded_witness :
  bounded (run_state sqrt_4dp atan2_quadrant new_GestureRecognizer
             (sweep index_folded_hand 1000 6)).
Proof.
  unfold run_state.
  destruct (run sqrt_4dp atan2_quadrant new_GestureRecognizer
              (sweep index_folded_hand 1000 6)) as [[s outs]|] eqn:E.
  - assert (B : bounded new_GestureRecognizer) by (unfold bounded; cbn; lia).
    apply (proj1 (buffers_stay_bounded sqrt_4dp atan2_quadrant _ _ _ _ B E)).
  - vm_compute in E. discriminate E.
Defined.

Lemma curls_and_score_in_unit_interval_witness :
  match recognize sqrt_4dp atan2_quadrant new_GestureRecognizer
          (Some {| landmarks := Some [index_folded_hand] |}) 1000 1000 with
  | Some (_, out) => 0 <= twistPoseScore out <= 1
  | None => False
  end.
Proof.
  destruct (recognize sqrt_4dp atan2_quadrant new_GestureRecognizer
              (Some {| landmarks := Some [index_folded_hand] |}) 1000 1000)
    as [[self' out]|] eqn:E.
  - exact (proj1 (curls_and_score_in_unit_interval sqrt_4dp atan2_quadrant
                    _ _ _ _ _ _ E)).
  - vm_compute in E. discriminate E.
Defined.

Lemma label_needs_hands_witness :
  match recognize sqrt_4dp atan2_quadrant new_GestureRecognizer
          (Some {| landmarks := Some [open_hand; closed_hand] |}) 1000 1000 with
  | Some (_, out) => handsDetected out = 2%nat
  | None => False
  end.
Proof.
  destruct (recognize sqrt_4dp atan2_quadrant new_GestureRecognizer
              (Some {| landmarks := Some [open_hand; closed_hand] |}) 1000 1000)
    as [[self' out]|] eqn:E.
  - exact (proj1 (label_needs_hands sqrt_4dp atan2_quadrant _ _ _ _ _ _ E)).
  - vm_compute in E. discriminate E.
Defined.

Lemma spread_needs_two_frames_witness :
  match recognize sqrt_4dp atan2_quadrant new_GestureRecognizer
          (Some {| landmarks := Some [open_hand] |}) 1000 1000 with
  | Some (s0, _) =>
      raw_label sqrt_4dp atan2_quadrant s0
        (frame_of [open_hand; shift_hand 0.3 closed_hand] 1050)
      <> Some spread
  | None => False
  end.
Proof.
  destruct (recognize sqrt_4dp atan2_quadrant new_GestureRecognizer
              (Some {| landmarks := Some [open_hand] |}) 1000 1000)
    as [[s0 o0]|] eqn:E.
  - apply (spread_needs_two_frames sqrt_4dp atan2_quadrant _ _ _ _ _ _
             (frame_of [open_hand; shift_hand 0.3 closed_hand] 1050) E).
    cbn. lia.
  - vm_compute in E. discriminate E.
Defined.

Lemma no_jump_after_hand_loss_witness :
  match recognize sqrt_4dp atan2_quadrant (mid_sweep 0) None 1160 1160 with
  | Some (s0, _) =>
      match recognize sqrt_4dp atan2_quadrant s0
              (Some {| landmarks := Some [open_hand] |}) 1200 1200 with
      | Some (_, o1) => palmDelta o1 = None /\ handAngleDelta o1 = 0
      | None => False
      end
  | None => False
  end.
Proof.
  destruct (recognize sqrt_4dp atan2_quadrant (mid_sweep 0) None 1160 1160)
    as [[s0 o0]|] eqn:E0; [|vm_compute in E0; discriminate E0].
  destruct (recognize sqrt_4dp atan2_quadrant s0
              (Some {| landmarks := Some [open_hand] |}) 1200 1200)
    as [[s1 o1]|] eqn:E1.
  - destruct (no_jump_after_hand_loss sqrt_4dp atan2_quadrant (mid_sweep 0)
                s0 s1 None _ 1160 1160 1200 1200 o0 o1 eq_refl E0 E1)
      as (A & B & _).
    auto.
  - vm_compute in E0. injection E0 as <- _. vm_compute in E1. discriminate E1.
Defined.

Lemma expansion_stays_in_unit_interval_witness :
  let c := new_GestureControls (mkBrain [] (-1) None 0.95 0 0 0 0 false)
             false false false in
  let spreadS := mkSample spread 1 None None 0 0 0 0 false 2 (Some 0.5) 0.2 None in
  0 <= targetExplosion (brain (fst (update c spreadS 1000))) <= 1.
Proof.
  intros c spreadS.
  apply (expansion_stays_in_unit_interval c spreadS 1000).
  split; vm_compute; discriminate.
Defined.

Lemma tilt_stays_clamped_witness :
  let c := new_GestureControls (mkBrain [] (-1) None 0 0 0 0 0.795 false)
             false false false in
  let twistS :=
    mkSample twist_pose 1 None (Some (0, 0.5)) 0 0.05 0 1 true 1 None 0 None in
  - 0.8 <= rotation_x (brain (fst (update c twistS 1000))) <= 0.8.
Proof.
  intros c twistS.
  apply (proj1 (tilt_stays_clamped c twistS 1000 ltac:(split; vm_compute; discriminate))).
Defined.

(** * A swipe needs five palm positions *)

Lemma detectSwipe_needs_five (history history' : list PalmEntry)
    (lastSwipe lastSwipe' now : Z) (g : Gesture) :
  _detectSwipe history lastSwipe now = (history', lastSwipe', Some g) ->
  (5 <= length history)%nat.
Proof.
  unfold _detectSwipe.
  destruct (now - lastSwipe <? 700)%Z; [discriminate|].
  destruct (Nat.ltb (length history) 5) eqn:E; [discriminate|].
  intros _. apply Nat.ltb_ge in E. exact E.
Qed.

Section SwipeFrames.

Variable Math_sqrt : Q -> Q.
Variable Math_atan2 : Q -> Q -> Q.

Lemma classify_palm (self : GestureRecognizer) (lm : Hand)
    (others : list Hand) (now now_swipe : Z) (c : Classified) :
  classify Math_sqrt Math_atan2 self lm others now now_swipe = Some c ->
  (length (_palmHistory (c_self c)) <= S (length (_palmHistory self)))%nat /\
  (is_swipe (c_rawGesture c) = true ->
   (4 <= length (_palmHistory self))%nat).
Proof.
  unfold classify, bind, palm_step.
  destruct (features Math_sqrt Math_atan2 lm) as [f|]; [|discriminate].
  set (history := push_bounded 20 (_palmHistory self)
                    {| e_x := f_palmX f; e_y := f_palmY f; e_time := now |}).
  assert (Hl : (length history <= S (length (_palmHistory self)))%nat).
  { unfold history, push_bounded. destruct (Nat.ltb 20 _).
    - destruct (_palmHistory self); cbn; [lia|].
      rewrite length_app. cbn. lia.
    - rewrite length_app. cbn. lia. }
  clearbody history.
  destruct (two_hand_step _ _ lm others)
    as [[[[smooth twoDist] twoDelta] early]|]; [|discriminate].
  destruct early.
  - intros H. injection H as <-. cbn. split; [exact Hl|].
    destruct (Num.gtb twoDelta 0); discriminate.
  - pose proof (classify_single_no_swipe f
        (twist_hysteresis (_twistPoseActive self) (f_twistPoseScore f))) as Hn.
    destruct (classify_single f _) as [raw conf]. cbn [fst] in Hn.
    destruct (_detectSwipe history (_lastSwipeTime self) now_swipe)
      as [[history' lastSwipe] [s|]] eqn:Ed.
    + pose proof (detectSwipe_needs_five _ _ _ _ _ _ Ed) as H5.
      destruct (detectSwipe_cases history (_lastSwipeTime self) now_swipe)
        as [E | (g & E & _)]; rewrite E in Ed; [discriminate|].
      injection Ed as <- _ _.
      intros H. injection H as <-. cbn. split; [lia|]. intros _. lia.
    + destruct (detectSwipe_cases history (_lastSwipeTime self) now_swipe)
        as [E | (g & E & _)]; rewrite E in Ed; [|discriminate].
      injection Ed as <- _.
      intros H. injection H as <-. cbn. split; [exact Hl|].
      intros H. congruence.
Qed.

Lemma recognize_palm (self self' : GestureRecognizer) (fr : Frame)
    (out : GestureSample) :
  recognize Math_sqrt Math_atan2 self (fr_results fr) (fr_now fr)
    (fr_now_swipe fr) = Some (self', out) ->
  (length (_palmHistory self') <= S (length (_palmHistory self)))%nat /\
  (swipe_fired Math_sqrt Math_atan2 self fr = true ->
   (4 <= length (_palmHistory self))%nat).
Proof.
  intros Hr. unfold swipe_fired, raw_label.
  destruct (present_hands (fr_results fr)) as [|lm others] eqn:Ep.
  - unfold recognize in Hr. rewrite Ep in Hr. injection Hr as <- _.
    cbn. split; [lia | discriminate].
  - assert (Hp : present_hands (fr_results fr) <> []) by (rewrite Ep; discriminate).
    destruct (recognize_hands _ _ _ _ _ _ _ _ Hp Hr)
      as (lm' & others' & c & E & Hc & Hs).
    rewrite Ep in E. injection E as <- <-. rewrite Hc. cbn [option_map].
    destruct (classify_palm _ _ _ _ _ _ Hc) as [P1 P2].
    pose proof (stabilize_call_fields c) as (_ & _ & _ & _ & S5 & _).
    rewrite Hs in S5. cbn [fst] in S5. rewrite S5. auto.
Qed.

(** X18.  A swipe needs five palm positions, whatever the clock says: in a
    run that together with the stored history spans at most four palm
    positions no swipe fires; in particular none fires on the four frames
    that follow a swipe or a loss of the hand, both of which empty the
    history. *)
Theorem swipe_needs_five_positions (frames : list Frame) :
  forall self : GestureRecognizer,
  (length (_palmHistory self) + length frames <= 4)%nat ->
  swipe_times Math_sqrt Math_atan2 self frames = [].
Proof.
  induction frames as [|fr rest IH]; intros self Hlen; [reflexivity|].
  cbn [swipe_times length] in *.
  destruct (recognize Math_sqrt Math_atan2 self _ _ _) as [[s1 o1]|] eqn:Er;
    [|reflexivity].
  destruct (recognize_palm _ _ _ _ Er) as [P1 P2].
  destruct (swipe_fired Math_sqrt Math_atan2 self fr) eqn:Ef.
  - specialize (P2 eq_refl). lia.
  - cbn [app]. apply IH. lia.
Qed.

End SwipeFrames.

Lemma swipe_needs_five_positions_witness :
  swipe_times sqrt_4dp atan2_quadrant new_GestureRecognizer
    (sweep index_folded_hand 1000 4) = [].
Proof.
  apply swipe_needs_five_positions. cbn. lia.
Defined.

(** * Reset and the model's own update *)

(** X19.  A fist frame that fires (flag clear, held 800 ms, cooldown over)
    deselects the region, sets the expansion target and both rotation targets
    to 0 and puts the model in idle mode; the model's current rotation is
    left as it is. *)
Theorem fist_reset_effect (c : GestureControls) (d : GestureSample) (now : Z) :
  fist_frame d ->
  _fistTriggered c = false ->
  (800 <= now - hold_start c now)%Z ->
  (1500 <= now - _lastFistTime c)%Z ->
  let b' := brain (fst (update c d now)) in
  selectedId b' = None /\ selectedIndex b' = (-1)%Z /\
  targetExplosion b' = 0 /\
  targetRotationX b' = 0 /\ targetRotationY b' = 0 /\
  isIdle b' = true /\
  rotation_x b' = rotation_x (brain c) /\
  rotation_y b' = rotation_y (brain c) /\
  regionList b' = regionList (brain c).
Proof.
  intros Hf Ht Hh Hc. cbv zeta. rewrite (update_fist c d now Hf). cbv zeta.
  cbn [fst].
  destruct (track_transition_fist c now) as (T1 & T2 & T3 & T4 & T5).
  destruct (track_transition_fields c fist now) as (_ & _ & _ & T6 & _).
  cbv zeta in *.
  set (c1 := with_lastActiveTime (track_transition c fist now) now).
  assert (E1 : _fistTriggered c1 = false).
  { unfold c1, with_lastActiveTime. cbn [_fistTriggered]. congruence. }
  assert (E2 : gestureDuration c1 = (now - hold_start c now)%Z) by exact T3.
  assert (E3 : _lastFistTime c1 = _lastFistTime c) by exact T4.
  assert (E4 : brain c1 = brain c) by exact T6.
  clearbody c1. unfold _handleFist. rewrite E1, E2, E3.
  destruct (now - hold_start c now <? _fistHoldRequired)%Z eqn:A;
    [apply Z.ltb_lt in A; unfold _fistHoldRequired in A; lia|].
  destruct (now - _lastFistTime c <? 1500)%Z eqn:B;
    [apply Z.ltb_lt in B; lia|].
  cbn. rewrite E4. repeat split.
Qed.

Lemma fist_reset_effect_witness :
  let c := new_GestureControls
             (mkBrain ["frontal"; "parietal"]%string 1 (Some "parietal"%string)
                0.6 0.3 0.2 1.5 0.2 false)
             false false false in
  let fistS := mkSample fist 1 None None 0 0 0 0 false 1 None 0 None in
  let c1 := fst (update c fistS 10000) in
  targetExplosion (brain (fst (update c1 fistS 10900))) = 0.
Proof.
  intros c fistS c1.
  refine (proj1 (proj2 (proj2 (fist_reset_effect c1 fistS 10900 _ _ _ _))));
    try reflexivity; try (vm_compute; discriminate).
  split; [reflexivity | discriminate].
Defined.

(** X20.  The model's own frame update does not fight the controller: after
    a frame of [_handleRotation] (which leaves the rotation targets equal to
    the rotation and idle mode off) [update_rotation] leaves the rotation
    where the controller put it, for any time step; and whatever the model's
    state, the tilt it leaves lies within [-0.8, 0.8]. *)
Theorem model_update_keeps_gesture_rotation (c : GestureControls)
    (d : GestureSample) (dt : Q) (b0 : BrainModel) :
  - 0.8 <= rotation_x (brain c) <= 0.8 ->
  let b := brain (fst (_handleRotation c d)) in
  rotation_y (update_rotation b dt) == rotation_y b /\
  rotation_x (update_rotation b dt) == rotation_x b /\
  - 0.8 <= rotation_x (update_rotation b0 dt) <= 0.8.
Proof.
  intros Hx. cbv zeta.
  destruct (tilt_stays_clamped c d 0 Hx) as (_ & Hs & T1 & T2 & T3).
  cbv zeta in *.
  assert (Hb : - 0.8 <= rotation_x (brain (fst (_handleRotation c d))) <= 0.8).
  { destruct (handleRotation_brain c d) as (_ & _ & _ & _ & [E | (s & _ & E)]);
      rewrite E; [exact Hx|].
    clear. num_cases; lra. }
  set (b := brain (fst (_handleRotation c d))) in *. clearbody b.
  unfold update_rotation. rewrite T3. cbn. rewrite T1, T2.
  repeat split.
  - ring.
  - destruct (NumFacts.min_cases 0.8
               (rotation_x b + (rotation_x b - rotation_x b) * Num.min 1 (5 * dt)))
      as [[? E1] | [? E1]]; rewrite E1;
      match goal with
      | |- context [Num.max ?a ?b] =>
          destruct (NumFacts.max_cases a b) as [[? E2] | [? E2]]; rewrite E2
      end; try ring_simplify; try lra.
  - match goal with |- context [Num.min 0.8 ?e] => generalize e end.
    clear. intros x.
    destruct (NumFacts.min_cases 0.8 x) as [[? E1] | [? E1]]; rewrite E1;
      match goal with
      | |- context [Num.max ?a ?b] =>
          destruct (NumFacts.max_cases a b) as [[? E2] | [? E2]]; rewrite E2
      end; lra.
  - match goal with |- context [Num.min 0.8 ?e] => generalize e end.
    clear. intros x.
    destruct (NumFacts.min_cases 0.8 x) as [[? E1] | [? E1]]; rewrite E1;
      match goal with
      | |- context [Num.max ?a ?b] =>
          destruct (NumFacts.max_cases a b) as [[? E2] | [? E2]]; rewrite E2
      end; lra.
Qed.

Lemma model_update_keeps_gesture_rotation_witness :
  let c := new_GestureControls (mkBrain [] (-1) None 0 0 0 0 0.5 true)
             false false false in
  let twistS :=
    mkSample twist_pose 1 None (Some (0, 0.5)) 0 0.05 0 1 true 1 None 0 None in
  let b := brain (fst (_handleRotation c twistS)) in
  rotation_y (update_rotation b 0.016) == rotation_y b.
Proof.
  intros c twistS b.
  apply (proj1 (model_update_keeps_gesture_rotation c twistS 0.016
                  (brain c) ltac:(split; vm_compute; discriminate))).
Defined.

(** X21.  The expansion animation never overshoots: for a non-negative time
    step the new amount lies between the old amount and the target, it equals
    the target as soon as the two are within 0.001, and amounts and targets
    in [0, 1] give an amount in [0, 1]. *)
Theorem updateExplosion_no_overshoot (amount target dt : Q) :
  0 <= dt ->
  let amount' := _updateExplosion amount target dt in
  (Num.abs (target - amount) < 0.001 -> amount' = target) /\
  (amount <= target -> amount <= amount' <= target) /\
  (target <= amount -> target <= amount' <= amount) /\
  (0 <= amount <= 1 -> 0 <= target <= 1 -> 0 <= amount' <= 1).
Proof.
  intros Hdt. cbv zeta. unfold _updateExplosion, explosionSpeed.
  destruct (Num.ltb (Num.abs (target - amount)) 0.001) eqn:E; cmp_hyps.
  - repeat split; intros; lra.
  - assert (Hm : 0 <= Num.min 1 (2.0 * dt * 3) <= 1) by (num_cases; lra).
    set (k := Num.min 1 (2.0 * dt * 3)) in *. clearbody k.
    assert (Hbetween : forall lo hi, lo <= amount <= hi -> lo <= target <= hi ->
              lo <= amount + (target - amount) * k <= hi).
    { intros lo hi Ha Hb.
      assert (E1 : amount + (target - amount) * k
                   == (1 - k) * amount + k * target) by ring.
      rewrite E1. split.
      - assert (0 <= (1 - k) * (amount - lo)) by (apply Qmult_le_0_compat; lra).
        assert (0 <= k * (target - lo)) by (apply Qmult_le_0_compat; lra).
        lra.
      - assert (0 <= (1 - k) * (hi - amount)) by (apply Qmult_le_0_compat; lra).
        assert (0 <= k * (hi - target)) by (apply Qmult_le_0_compat; lra).
        lra. }
    repeat split; intros; try lra;
      try (apply Hbetween; lra).
    + apply (Hbetween amount target); lra.
    + apply (Hbetween amount target); lra.
    + apply (Hbetween target amount); lra.
    + apply (Hbetween target amount); lra.
    + apply (Hbetween 0 1); lra.
    + apply (Hbetween 0 1); lra.
Qed.

Lemma updateExplosion_no_overshoot_witness :
  0.2 <= _updateExplosion 0.2 0.9 0.016 <= 0.9.
Proof.
  apply (proj1 (proj2 (updateExplosion_no_overshoot 0.2 0.9 0.016
                         ltac:(vm_compute; discriminate)))).
  vm_compute. discriminate.
Defined.

(** * The selection cursor goes round *)

Lemma BRAIN_REGION_IDS_distinct : NoDup BRAIN_REGION_IDS.
Proof.
  unfold BRAIN_REGION_IDS.
  repeat (constructor; [cbn; intuition discriminate|]). constructor.
Qed.

Lemma select_next_n_index (k : nat) :
  forall b : BrainModel,
  NoDup (regionList b) ->
  (0 <= selectedIndex b < Z.of_nat (length (regionList b)))%Z ->
  regionList (select_next_n k b) = regionList b /\
  selectedIndex (select_next_n k b)
  = ((selectedIndex b + Z.of_nat k) mod Z.of_nat (length (regionList b)))%Z.
Proof.
  induction k as [|k IH]; intros b N Hi.
  - cbn [select_next_n Z.of_nat]. rewrite Z.add_0_r, Z.mod_small by lia. auto.
  - cbn [select_next_n].
    destruct (selection_cycles b N ltac:(lia) ltac:(lia)) as (S1 & _).
    destruct (selectNext_keeps b) as (_ & _ & K).
    cbv zeta in S1.
    destruct (IH (fst (selectNext b))) as [R I].
    + rewrite K. exact N.
    + rewrite K, S1. apply Z.mod_pos_bound. lia.
    + rewrite R, I, K, S1. split; [reflexivity|].
      rewrite Zplus_mod_idemp_l. f_equal. lia.
Qed.

(** X22.  The selection cursor goes round: on a duplicate-free region list
    with a region selected, calling [selectNext] as many times as there are
    regions selects the same region again, and fewer calls (at least one)
    select a different one. *)
Theorem selection_full_cycle (b : BrainModel) (k : nat) :
  NoDup (regionList b) ->
  (0 <= selectedIndex b < Z.of_nat (length (regionList b)))%Z ->
  selectedIndex (select_next_n (length (regionList b)) b) = selectedIndex b /\
  ((0 < k < length (regionList b))%nat ->
   selectedIndex (select_next_n k b) <> selectedIndex b).
Proof.
  intros N Hi. split.
  - destruct (select_next_n_index (length (regionList b)) b N Hi) as [_ ->].
    rewrite <- (Z.mul_1_l (Z.of_nat (length (regionList b)))) at 1.
    rewrite Z.mod_add by lia. apply Z.mod_small. exact Hi.
  - intros Hk. destruct (select_next_n_index k b N Hi) as [_ ->].
    set (len := Z.of_nat (length (regionList b))) in *.
    destruct (Z_lt_ge_dec (selectedIndex b + Z.of_nat k) len) as [H|H].
    + rewrite Z.mod_small by lia. lia.
    + replace (selectedIndex b + Z.of_nat k)%Z
        with (selectedIndex b + Z.of_nat k - len + 1 * len)%Z by lia.
      rewrite Z.mod_add by lia. rewrite Z.mod_small by lia. lia.
Qed.

(** On the model's own thirteen regions. *)
Lemma selection_full_cycle_witness :
  let b := fst (selectNext new_BrainModel) in
  selectedId b = Some "frontal_lobe"%string /\
  selectedIndex (select_next_n 13 b) = selectedIndex b.
Proof.
  intros b. split; [reflexivity|].
  apply (proj1 (selection_full_cycle b 1 BRAIN_REGION_IDS_distinct
                  ltac:(cbn; lia))).
Defined.
